(** * upgradeviz: the log reconstructor, the statistics pass and the chart layout

    A shallow embedding of [upgrade_viz.py].

    Conventions of the model.
    - A Python [str] is a [string]; a character is a code point below 256,
      so the whitespace and digit classes below are the restrictions of
      [str.isspace] and of the regular-expression classes to that range.
    - A raised exception is a value of [result]; code that mutates [self]
      returns the final object next to the result.
    - [debug] writes to stderr only.  The lines that [parse_line] and
      [generate_chart] send there are left out; those of
      [calculate_upgrade_stats] are its whole output and are kept.
    - Python floats are read as exact rationals ([Q]); the square root of
      the variance and the [%.2f] renderings are not computed.
    - [datetime.fromisoformat], [datetime.replace], the datetime arithmetic
      and the [re] matcher are library code; they are modelled after the
      documented behaviour of CPython 3.11 to 3.13 on the strings that
      [timestamp_pattern] lets through. *)

From Stdlib Require Import String Ascii List Bool Arith ZArith QArith Lia.
From Stdlib Require Import Permutation Sorted Lqa.
Import ListNotations.

Local Open Scope string_scope.
Local Open Scope Z_scope.

(** ** Exceptions *)

Inductive exn : Type := ValueError | OverflowError | ZeroDivisionError.

Inductive result (A : Type) : Type :=
| Returned (a : A)
| Raised (e : exn).

Arguments Returned {A} a.
Arguments Raised {A} e.

Definition bind {A B : Type} (r : result A) (f : A -> result B) : result B :=
  match r with
  | Returned a => f a
  | Raised e => Raised e
  end.

Notation "'do' x <- r ; k" := (bind r (fun x => k))
  (at level 10, x name, r at level 100, k at level 200).

Definition guard (b : bool) (e : exn) : result unit :=
  if b then Returned tt else Raised e.

(** ** Strings *)

Module Str.

Definition code (c : ascii) : nat := nat_of_ascii c.

(** [str.isspace] on code points below 256; also the class [\s]. *)
Definition isspace (c : ascii) : bool :=
  let n := code c in
  ((9 <=? n) && (n <=? 13) || (28 <=? n) && (n <=? 32)
   || (n =? 133) || (n =? 160))%nat.

(** The class [\d] on code points below 256. *)
Definition isdigit (c : ascii) : bool :=
  let n := code c in ((48 <=? n) && (n <=? 57))%nat.

Fixpoint lstrip (s : string) : string :=
  match s with
  | String c s' => if isspace c then lstrip s' else s
  | EmptyString => EmptyString
  end.

Fixpoint rstrip (s : string) : string :=
  match s with
  | EmptyString => EmptyString
  | String c s' =>
      match rstrip s' with
      | EmptyString => if isspace c then EmptyString else String c EmptyString
      | t => String c t
      end
  end.

(** [s.strip()] *)
Definition strip (s : string) : string := rstrip (lstrip s).

Fixpoint drop (n : nat) (s : string) : string :=
  match n, s with
  | O, _ => s
  | S n', String _ s' => drop n' s'
  | S _, EmptyString => EmptyString
  end.

Definition take (n : nat) (s : string) : string := substring 0 n s.

(** [s[a:b]] for [0 <= a <= b]. *)
Definition slice (a b : nat) (s : string) : string := substring a (b - a) s.

(** [s.replace(old, new)] for a non-empty [old]: every occurrence, from
    the left, without overlap. *)
Fixpoint replace_from (old new : string) (skip : nat) (s : string) : string :=
  match s with
  | EmptyString => EmptyString
  | String c s' =>
      match skip with
      | S k => replace_from old new k s'
      | O =>
          if prefix old s
          then new ++ replace_from old new (String.length old - 1) s'
          else String c (replace_from old new O s')
      end
  end.

Definition replace (old new s : string) : string := replace_from old new O s.

Definition is_empty (s : string) : bool :=
  match s with EmptyString => true | _ => false end.

End Str.

(** ** Regular expressions

    The fragment of [re] the five patterns of [LogParser.__init__] use, with
    the backtracking, leftmost and greedy matching of the library. *)

Module Re.

Inductive regex : Type :=
| Lit (c : ascii)                 (* a literal character *)
| Class (p : ascii -> bool)       (* a character class *)
| Cat (r1 r2 : regex)
| Star (r : regex)                (* greedy [r*] *)
| Group (n : nat) (r : regex)     (* the n-th capturing group *)
| Bol                             (* [^] *)
| Eol                             (* [$] *)
| Eps.

(** A match object: the text of each group that took part. *)
Definition groups : Type := list (nat * string).

Fixpoint group (n : nat) (m : groups) : string :=
  match m with
  | [] => ""
  | (k, s) :: m' => if (k =? n)%nat then s else group n m'
  end.

Definition newline : ascii := ascii_of_nat 10.

(** [$] without MULTILINE: at the end, or before a final newline. *)
Definition at_eol (s : string) : bool :=
  match s with
  | EmptyString => true
  | String c EmptyString => Ascii.eqb c newline
  | _ => false
  end.

Section Matcher.
Context {A : Type}.

(** [rmatch r pos s m k]: match [r] at offset [pos], where [s] is the
    text from [pos] on, then continue with [k]; [None] sends the caller
    back to its next alternative. *)
Fixpoint rmatch (r : regex) (pos : nat) (s : string) (m : groups)
    (k : nat -> string -> groups -> option A) {struct r} : option A :=
  match r with
  | Eps => k pos s m
  | Lit c =>
      match s with
      | String c' s' => if Ascii.eqb c c' then k (S pos) s' m else None
      | EmptyString => None
      end
  | Class p =>
      match s with
      | String c' s' => if p c' then k (S pos) s' m else None
      | EmptyString => None
      end
  | Cat r1 r2 =>
      rmatch r1 pos s m (fun pos1 s1 m1 => rmatch r2 pos1 s1 m1 k)
  | Star r' =>
      (fix loop (fuel : nat) (pos : nat) (s : string) (m : groups)
         {struct fuel} : option A :=
         match fuel with
         | O => k pos s m
         | S fuel' =>
             match rmatch r' pos s m
                     (fun pos1 s1 m1 =>
                        if (pos <? pos1)%nat then loop fuel' pos1 s1 m1
                        else None) with
             | Some a => Some a
             | None => k pos s m
             end
         end) (String.length s) pos s m
  | Group n r' =>
      rmatch r' pos s m
        (fun pos1 s1 m1 => k pos1 s1 ((n, Str.take (pos1 - pos) s) :: m1))
  | Bol => if (pos =? 0)%nat then k pos s m else None
  | Eol => if at_eol s then k pos s m else None
  end.
End Matcher.

(** [pattern.match(s)] *)
Definition match_ (r : regex) (s : string) : option groups :=
  rmatch r O s [] (fun _ _ m => Some m).

Fixpoint search_from (r : regex) (pos : nat) (s : string) : option groups :=
  match rmatch r pos s [] (fun _ _ m => Some m) with
  | Some m => Some m
  | None =>
      match s with
      | EmptyString => None
      | String _ s' => search_from r (S pos) s'
      end
  end.

(** [pattern.search(s)] *)
Definition search (r : regex) (s : string) : option groups :=
  search_from r O s.

(** Pattern syntax. *)
Fixpoint lit (s : string) : regex :=
  match s with
  | EmptyString => Eps
  | String c s' => Cat (Lit c) (lit s')
  end.

Fixpoint rep (n : nat) (r : regex) : regex :=
  match n with
  | O => Eps
  | S n' => Cat r (rep n' r)
  end.

Definition plus (r : regex) : regex := Cat r (Star r).

Fixpoint seq (rs : list regex) : regex :=
  match rs with
  | [] => Eps
  | r :: rs' => Cat r (seq rs')
  end.

Definition digit : regex := Class Str.isdigit.                       (* \d *)
Definition dot : regex := Class (fun c => negb (Ascii.eqb c newline)). (* . *)
Definition non_space : regex := Class (fun c => negb (Str.isspace c)). (* [^\s] *)
Definition not_char (x : string) : regex :=                          (* [^x] *)
  Class (fun c => negb (String.eqb (String c EmptyString) x)).

End Re.

(** ** [datetime]

    Aware datetimes with a fixed offset, as [fromisoformat] builds them from
    a matched timestamp.  A [timedelta] is its number of microseconds. *)

Module Datetime.

Record datetime : Type := mk_datetime {
  year : Z; month : Z; day : Z;
  hour : Z; minute : Z; second : Z; microsecond : Z;
  utcoffset : Z                      (* tzinfo: minutes east of UTC *)
}.

Definition timedelta : Type := Z.

Definition is_leap (y : Z) : bool :=
  (y mod 4 =? 0) && (negb (y mod 100 =? 0) || (y mod 400 =? 0)).

Definition days_in_month (y m : Z) : Z :=
  if (m =? 2) then (if is_leap y then 29 else 28)
  else if (m =? 4) || (m =? 6) || (m =? 9) || (m =? 11) then 30
  else 31.

Definition days_before_year (y : Z) : Z :=
  let p := y - 1 in p * 365 + p / 4 - p / 100 + p / 400.

Definition days_before_month (y m : Z) : Z :=
  nth (Z.to_nat (m - 1)) [0; 31; 59; 90; 120; 151; 181; 212; 243; 273; 304; 334] 0
  + (if (2 <? m) && is_leap y then 1 else 0).

(** [d.toordinal()] *)
Definition toordinal (d : datetime) : Z :=
  days_before_year (year d) + days_before_month (year d) (month d) + day d.

Definition MAXORDINAL : Z := 3652059.

Definition us_per_second : Z := 1000000.
Definition us_per_day : Z := 86400 * us_per_second.

(** Microseconds of the wall-clock reading since ordinal day 0. *)
Definition local_us (d : datetime) : Z :=
  (toordinal d * 86400 + hour d * 3600 + minute d * 60 + second d) * us_per_second
  + microsecond d.

(** The instant denoted: wall clock minus offset.  Subtraction and the
    comparisons of aware datetimes go through it. *)
Definition instant (d : datetime) : Z :=
  local_us d - utcoffset d * 60 * us_per_second.

(** [a - b] *)
Definition sub (a b : datetime) : timedelta := instant a - instant b.

(** [a < b] *)
Definition ltb (a b : datetime) : bool := instant a <? instant b.

(** [td.total_seconds()] *)
Definition total_seconds (td : timedelta) : Q := inject_Z td / inject_Z us_per_second.

(** The range checks of the [datetime] constructor and of [timezone]. *)
Definition valid (d : datetime) : bool :=
  (1 <=? year d) && (year d <=? 9999)
  && (1 <=? month d) && (month d <=? 12)
  && (1 <=? day d) && (day d <=? days_in_month (year d) (month d))
  && (0 <=? hour d) && (hour d <=? 23)
  && (0 <=? minute d) && (minute d <=? 59)
  && (0 <=? second d) && (second d <=? 59)
  && (0 <=? microsecond d) && (microsecond d <=? 999999)
  && (-1440 <? utcoffset d) && (utcoffset d <? 1440).

Definition make (d : datetime) : result datetime :=
  if valid d then Returned d else Raised ValueError.

(** [d.replace(second=s)] *)
Definition replace_second (d : datetime) (s : Z) : result datetime :=
  make (mk_datetime (year d) (month d) (day d) (hour d) (minute d) s
          (microsecond d) (utcoffset d)).

(** [d.replace(microsecond=us)] *)
Definition replace_microsecond (d : datetime) (us : Z) : result datetime :=
  make (mk_datetime (year d) (month d) (day d) (hour d) (minute d) (second d)
          us (utcoffset d)).

(** Round half to even, as [timedelta(seconds=x)] rounds a float to
    whole microseconds. *)
Definition round_half_even (q : Q) : Z :=
  let n := Qnum q in
  let d := Zpos (Qden q) in
  let f := n / d in
  let r := 2 * (n mod d) in
  if r <? d then f
  else if d <? r then f + 1
  else if Z.even f then f else f + 1.

(** [timedelta(seconds=x)] *)
Definition timedelta_seconds (x : Q) : timedelta :=
  round_half_even (x * inject_Z us_per_second).

(** [(d + td).strftime('%H:%M:%S')], as hour, minute and second; the sum
    raises OverflowError when its day leaves 1..MAXORDINAL. *)
Definition add_hms (d : datetime) (td : timedelta) : result (Z * Z * Z) :=
  let t := local_us d + td in
  let days := t / us_per_day in
  let secs := (t mod us_per_day) / us_per_second in
  if (0 <? days) && (days <=? MAXORDINAL)
  then Returned (secs / 3600, (secs mod 3600) / 60, secs mod 60)
  else Raised OverflowError.

(** [d.strftime('%H:%M:%S')] *)
Definition hms (d : datetime) : Z * Z * Z := (hour d, minute d, second d).

(** *** [datetime.fromisoformat] *)

Fixpoint digits_value (s : string) (acc : Z) : option Z :=
  match s with
  | EmptyString => Some acc
  | String c s' =>
      if Str.isdigit c
      then digits_value s' (acc * 10 + Z.of_nat (Str.code c - 48))
      else None
  end.

(** [int(s)] for a non-empty run of digits; ValueError otherwise. *)
Definition int (s : string) : result Z :=
  match s with
  | EmptyString => Raised ValueError
  | _ => match digits_value s 0 with
         | Some z => Returned z
         | None => Raised ValueError
         end
  end.

Definition expect (c : string) (s : string) (i : nat) : result unit :=
  guard (String.eqb (substring i 1 s) c) ValueError.

(** The fraction: at most six digits count, shorter ones are scaled up,
    digits beyond the sixth are dropped. *)
Definition parse_fraction (f : string) : result Z :=
  do _ <- guard (negb (Str.is_empty f)) ValueError;
  do all <- int f;
  let n := Nat.min 6 (String.length f) in
  do v <- int (Str.take n f);
  Returned (v * 10 ^ Z.of_nat (6 - n)).

(** The offset after the sign: [HH:MM] or [HHMM]. *)
Definition parse_offset (tz : string) : result Z :=
  match String.length tz with
  | 5%nat =>
      do h <- int (Str.slice 0 2 tz);
      do _ <- expect ":" tz 2;
      do m <- int (Str.slice 3 5 tz);
      Returned (h * 60 + m)
  | 4%nat =>
      do h <- int (Str.slice 0 2 tz);
      do m <- int (Str.slice 2 4 tz);
      Returned (h * 60 + m)
  | _ => Raised ValueError
  end.

(** [datetime.fromisoformat(s)] on [YYYY-MM-DD?HH:MM:SS.f+HH:MM] and on the
    same with the offset written [+HHMM]; any other shape is a
    ValueError here. *)
Definition fromisoformat (s : string) : result datetime :=
  do y <- int (Str.slice 0 4 s);
  do _ <- expect "-" s 4;
  do mo <- int (Str.slice 5 7 s);
  do _ <- expect "-" s 7;
  do d <- int (Str.slice 8 10 s);
  do _ <- guard (10 <? String.length s)%nat ValueError;
  let tstr := Str.drop 11 s in
  match index 0 "+" tstr with
  | None => Raised ValueError
  | Some p =>
      let timestr := Str.take p tstr in
      let tzstr := Str.drop (S p) tstr in
      do h <- int (Str.slice 0 2 timestr);
      do _ <- expect ":" timestr 2;
      do mi <- int (Str.slice 3 5 timestr);
      do _ <- expect ":" timestr 5;
      do sec <- int (Str.slice 6 8 timestr);
      do _ <- expect "." timestr 8;
      do us <- parse_fraction (Str.drop 9 timestr);
      do off <- parse_offset tzstr;
      make (mk_datetime y mo d h mi sec us off)
  end.

End Datetime.

Import Datetime.

(** ** [UpgradeEvent] and the dictionary of upgrades *)

Record UpgradeEvent : Type := mk_event {
  gateway_name : string;
  start_time : datetime;
  end_time : option datetime;
  version_info : string;
  status : string
}.

(** The dataclass defaults: [end_time = None], [status = "in_progress"]. *)
Definition new_event (name : string) (start : datetime) (info : string) : UpgradeEvent :=
  mk_event name start None info "in_progress".

(** A [dict] keeps its keys in the order of their first insertion; storing
    under a key already present replaces the value where it stands. *)
Module Dict.

Definition t : Type := list (string * UpgradeEvent).

Fixpoint get (k : string) (d : t) : option UpgradeEvent :=
  match d with
  | [] => None
  | (k', v) :: d' => if String.eqb k' k then Some v else get k d'
  end.

(** [k in d] *)
Definition mem (k : string) (d : t) : bool :=
  match get k d with Some _ => true | None => false end.

(** [d[k] = v] *)
Fixpoint set (k : string) (v : UpgradeEvent) (d : t) : t :=
  match d with
  | [] => [(k, v)]
  | (k', v') :: d' =>
      if String.eqb k' k then (k', v) :: d' else (k', v') :: set k v d'
  end.

Definition keys (d : t) : list string := map fst d.

(** [d.values()] *)
Definition values (d : t) : list UpgradeEvent := map snd d.

End Dict.

(** ** [LogParser] *)

Module Patterns.
Import Re.

(** r'^(\d{4}-\d{2}-\d{2}T\d{2}:\d{2}:\d{2}\.\d+\+\d{2}:\d{2})' *)
Definition timestamp_pattern : regex :=
  Cat Bol
    (Group 1
       (seq [rep 4 digit; lit "-"; rep 2 digit; lit "-"; rep 2 digit; lit "T";
             rep 2 digit; lit ":"; rep 2 digit; lit ":"; rep 2 digit; lit ".";
             plus digit; lit "+"; rep 2 digit; lit ":"; rep 2 digit])).

(** r'Upgrading ([^\s]+) to version(.* )$', without the blank in the
    second group *)
Definition upgrade_start_pattern : regex :=
  seq [lit "Upgrading "; Group 1 (plus non_space); lit " to version";
       Group 2 (Star dot); Eol].

(** "Updating upgrade_info to gw ([^:]+): \{'status': 'complete'.*'curr_ver': '([^']* )'.*\}",
    without the blank in the second group *)
Definition upgrade_complete_pattern : regex :=
  seq [lit "Updating upgrade_info to gw "; Group 1 (plus (not_char ":"));
       lit ": {'status': 'complete'"; Star dot; lit "'curr_ver': '";
       Group 2 (Star (not_char "'")); lit "'"; Star dot; lit "}"].

(** "Updating upgrade_info to gw ([^:]+): \{'status': 'installing'.*\}" *)
Definition upgrade_installing_pattern : regex :=
  seq [lit "Updating upgrade_info to gw "; Group 1 (plus (not_char ":"));
       lit ": {'status': 'installing'"; Star dot; lit "}"].

(** r'Upgrading gateways without controller upgrade' *)
Definition overall_start_pattern : regex :=
  lit "Upgrading gateways without controller upgrade".

End Patterns.

Import Patterns.

Record LogParser : Type := mk_parser {
  upgrades : Dict.t;
  overall_start_time : option datetime
}.

(** [LogParser.__init__]: the compiled patterns are the constants above. *)
Definition __init__ : LogParser := mk_parser [] None.

(** [LogParser.parse_timestamp]: the fallback call sits in the handler of
    the first one, so what it raises leaves the method. *)
Definition parse_timestamp (line : string) : result (option datetime) :=
  match Re.match_ timestamp_pattern line with
  | Some m =>
      let timestamp_str := Re.group 1 m in
      match fromisoformat (Str.replace "+00:00" "+0000" timestamp_str) with
      | Returned d => Returned (Some d)
      | Raised ValueError =>
          do d <- fromisoformat timestamp_str;
          Returned (Some d)
      | Raised e => Raised e
      end
  | None => Returned None
  end.

(** What [parse_line] does with a completion for the gateway [name]. *)
Definition complete_upgrade (self : LogParser) (name curr_version : string)
    (timestamp : datetime) : LogParser :=
  match Dict.get name (upgrades self) with
  | Some u =>
      if negb (String.eqb (status u) "complete")
      then mk_parser
             (Dict.set name
                (mk_event (gateway_name u) (start_time u) (Some timestamp)
                   (version_info u ++ " -> " ++ curr_version) "complete")
                (upgrades self))
             (overall_start_time self)
      else self
  | None =>
      mk_parser
        (Dict.set name
           (mk_event name timestamp (Some timestamp)
              ("(retroactive) -> " ++ curr_version) "complete")
           (upgrades self))
        (overall_start_time self)
  end.

(** [LogParser.parse_line]: the result of the call and [self] after it. *)
Definition parse_line (self : LogParser) (line : string) : result unit * LogParser :=
  let line := Str.strip line in
  if Str.is_empty line then (Returned tt, self) else
  match parse_timestamp line with
  | Raised e => (Raised e, self)
  | Returned None => (Returned tt, self)
  | Returned (Some timestamp) =>
      match Re.search overall_start_pattern line with
      | Some _ => (Returned tt, mk_parser [] (Some timestamp))
      | None =>
      match Re.search upgrade_start_pattern line with
      | Some start_match =>
          let gateway_name := Re.group 1 start_match in
          let version_info := Str.strip (Re.group 2 start_match) in
          (Returned tt,
           mk_parser
             (Dict.set gateway_name (new_event gateway_name timestamp version_info)
                (upgrades self))
             (overall_start_time self))
      | None =>
      match Re.search upgrade_installing_pattern line with
      | Some installing_match =>
          let gateway_name := Re.group 1 installing_match in
          if negb (Dict.mem gateway_name (upgrades self))
          then (Returned tt,
                mk_parser
                  (Dict.set gateway_name
                     (new_event gateway_name timestamp
                        "(detected from installing status)")
                     (upgrades self))
                  (overall_start_time self))
          else (Returned tt, self)
      | None =>
      match Re.search upgrade_complete_pattern line with
      | Some complete_match =>
          (Returned tt,
           complete_upgrade self (Re.group 1 complete_match)
             (Re.group 2 complete_match) timestamp)
      | None => (Returned tt, self)
      end end end end
  end.

(** [sorted(xs, key=lambda x: x.start_time)]: the stable sort, written as
    an insertion that passes only strictly smaller keys. *)
Fixpoint insert_by_start (x : UpgradeEvent) (l : list UpgradeEvent) : list UpgradeEvent :=
  match l with
  | [] => [x]
  | y :: l' =>
      if Datetime.ltb (start_time y) (start_time x)
      then y :: insert_by_start x l'
      else x :: l
  end.

Fixpoint sorted_by_start (l : list UpgradeEvent) : list UpgradeEvent :=
  match l with
  | [] => []
  | x :: l' => insert_by_start x (sorted_by_start l')
  end.

(** The loop of [parse_logs]. *)
Fixpoint ingest (self : LogParser) (input_stream : list string) : result unit * LogParser :=
  match input_stream with
  | [] => (Returned tt, self)
  | line :: rest =>
      match parse_line self line with
      | (Returned _, self') => ingest self' rest
      | (Raised e, self') => (Raised e, self')
      end
  end.

(** [LogParser.parse_logs] *)
Definition parse_logs (self : LogParser) (input_stream : list string)
    : result (list UpgradeEvent) * LogParser :=
  match ingest self input_stream with
  | (Returned _, self') => (Returned (sorted_by_start (Dict.values (upgrades self'))), self')
  | (Raised e, self') => (Raised e, self')
  end.

(** ** Built-ins shared by the two consumers *)

Section Extremum.
Context {A : Type} (lt : A -> A -> bool).

(** The scan of [min] and [max]: the candidate changes only for a
    strictly better item, so the first of equal items is kept. *)
Fixpoint scan_min (best : A) (l : list A) : A :=
  match l with
  | [] => best
  | x :: l' => scan_min (if lt x best then x else best) l'
  end.

Fixpoint scan_max (best : A) (l : list A) : A :=
  match l with
  | [] => best
  | x :: l' => scan_max (if lt best x then x else best) l'
  end.

(** [min(l)] and [max(l)]; an empty argument is a ValueError. *)
Definition py_min (l : list A) : result A :=
  match l with
  | [] => Raised ValueError
  | x :: l' => Returned (scan_min x l')
  end.

Definition py_max (l : list A) : result A :=
  match l with
  | [] => Raised ValueError
  | x :: l' => Returned (scan_max x l')
  end.
End Extremum.

Definition Qltb (a b : Q) : bool := negb (Qle_bool b a).

(** [a / b] on numbers *)
Definition truediv (a b : Q) : result Q :=
  if Qeq_bool b 0 then Raised ZeroDivisionError else Returned (a / b)%Q.

Definition Qsum (l : list Q) : Q := fold_left Qplus l 0%Q.

Definition len {A : Type} (l : list A) : Q := inject_Z (Z.of_nat (length l)).

(** ** [calculate_upgrade_stats] *)

Module Stats.

(** A line on stderr.  Numbers that the source renders with a format are
    kept as numbers. *)
Inductive debug_line : Type :=
| Text (s : string)
| Count (label : string) (n : Z)
| Extreme (label : string) (minutes : Q) (gateway : string)
| Average (minutes : Q)
| StdDev (variance : Q)               (* the line shows its square root *)
| Bucket (label : string) (count : Z) (percentage : Q).

Inductive bound : Type := Finite (q : Q) | Infinity.

Definition buckets : list bound :=
  [Finite 0; Finite 2; Finite 5; Finite 10; Finite 15; Finite 30; Finite 60; Infinity].

Definition bucket_labels : list string :=
  ["<2m"; "2-5m"; "5-10m"; "10-15m"; "15-30m"; "30-60m"; ">60m"].

(** [duration <= bucket_max] *)
Definition within (duration : Q) (bucket_max : bound) : bool :=
  match bucket_max with
  | Finite q => Qle_bool duration q
  | Infinity => true
  end.

(** [counts[i] += 1] *)
Fixpoint increment (i : nat) (counts : list Z) : list Z :=
  match i, counts with
  | _, [] => []
  | O, c :: cs => (c + 1) :: cs
  | S i', c :: cs => c :: increment i' cs
  end.

(** The inner loop over [enumerate(buckets[1:])], up to its [break]. *)
Fixpoint place (duration : Q) (i : nat) (maxima : list bound) (counts : list Z) : list Z :=
  match maxima with
  | [] => counts
  | bucket_max :: rest =>
      if within duration bucket_max then increment i counts
      else place duration (S i) rest counts
  end.

Definition bucket_counts (durations : list Q) : list Z :=
  fold_left (fun counts duration => place duration 0 (tl buckets) counts)
    durations (map (fun _ => 0) bucket_labels).

Definition rule : string :=
  "============================================================".

Definition duration_minutes (u : UpgradeEvent) (e : datetime) : Q :=
  (total_seconds (Datetime.sub e (start_time u)) / 60)%Q.

(** The completed upgrades with their durations in minutes. *)
Fixpoint completed_durations (upgrades : list UpgradeEvent) : list (string * Q) :=
  match upgrades with
  | [] => []
  | u :: rest =>
      match end_time u with
      | Some e => (gateway_name u, duration_minutes u e) :: completed_durations rest
      | None => completed_durations rest
      end
  end.

(** The closing loop over [zip(bucket_labels, bucket_counts)]. *)
Fixpoint distribution (durations : list Q) (rows : list (string * Z))
    : result (list debug_line) :=
  match rows with
  | [] => Returned []
  | (label, count) :: rows' =>
      do percentage <-
        match durations with
        | [] => Returned 0%Q
        | _ => do share <- truediv (inject_Z count) (len durations);
               Returned (share * 100)%Q
        end;
      do more <- distribution durations rows';
      Returned (Bucket label count percentage :: more)
  end.

Definition calculate_upgrade_stats (upgrades : list UpgradeEvent)
    : result (list debug_line) :=
  let upgrade_durations := completed_durations upgrades in
  let durations := map snd upgrade_durations in
  match upgrade_durations with
  | [] => Returned [Text "No completed upgrades found for statistics"]
  | _ =>
      do min_duration <- py_min Qltb durations;
      do max_duration <- py_max Qltb durations;
      do avg_duration <- truediv (Qsum durations) (len durations);
      do variance <- truediv
           (Qsum (map (fun d => (d - avg_duration) * (d - avg_duration))%Q durations))
           (len durations);
      do min_gateway <- py_min (fun x y => Qltb (snd x) (snd y)) upgrade_durations;
      do max_gateway <- py_max (fun x y => Qltb (snd x) (snd y)) upgrade_durations;
      do lines <- distribution durations
                    (combine bucket_labels (bucket_counts durations));
      Returned
        ([Text rule; Text "UPGRADE TIME STATISTICS"; Text rule;
          Count "Total upgrades" (Z.of_nat (length upgrades));
          Count "Completed upgrades" (Z.of_nat (length upgrade_durations));
          Count "In-progress upgrades"
            (Z.of_nat (length upgrades) - Z.of_nat (length upgrade_durations));
          Text "";
          Text "Duration Statistics (minutes):";
          Extreme "Minimum" min_duration (fst min_gateway);
          Extreme "Maximum" max_duration (fst max_gateway);
          Average avg_duration;
          StdDev variance;
          Text "";
          Text "Duration Distribution:"]
         ++ lines ++ [Text rule])%list
  end.

End Stats.

(** ** [SVGGanttChart] *)

Module Chart.

Record SVGGanttChart : Type := mk_chart {
  base_width : Z;
  base_height : Z
}.

(** [SVGGanttChart()], with the default width and height *)
Definition default : SVGGanttChart := mk_chart 1200 800.

Definition margin_top : Z := 60.
Definition margin_right : Z := 50.
Definition margin_bottom : Z := 80.
Definition margin_left : Z := 200.

Definition color_complete : string := "#28a745".
Definition color_in_progress : string := "#ffc107".

(** The duration line of a tooltip: seconds, minutes or hours. *)
Inductive duration_text : Type :=
| InSeconds (q : Q)
| InMinutes (q : Q)
| InHours (q : Q).

Record tooltip : Type := mk_tooltip {
  tip_gateway : string;
  tip_start : Z * Z * Z;
  tip_end : option (Z * Z * Z * duration_text * Q);   (* None: "Status: In Progress" *)
  tip_version : option string
}.

Record bar : Type := mk_bar {
  bar_label : string;
  bar_x : Q;
  bar_y : Q;
  bar_width : Q;
  bar_height : Z;
  bar_fill : string;
  bar_tooltip : tooltip
}.

Record tick : Type := mk_tick {
  tick_x : Q;
  tick_label : Z * Z * Z
}.

(** What is handed to the serializer: the canvas, the title, the ticks of
    the axis and the bars.  The style sheet, the script and the axis line
    are constants of the output and are left out. *)
Inductive scene : Type :=
| EmptyChart (width height : Z) (text : string)
| Timeline (width height : Z) (title : string) (ticks : list tick) (bars : list bar).

(** [_create_empty_chart] *)
Definition _create_empty_chart (self : SVGGanttChart) : scene :=
  EmptyChart (base_width self) (base_height self) "No upgrade data found in logs".

(** The block "Calculate time range" of [generate_chart]. *)
Definition time_range (upgrades : list UpgradeEvent) : result (datetime * datetime) :=
  let start_times := map start_time upgrades in
  let end_times :=
    flat_map (fun u => match end_time u with Some e => [e] | None => [] end) upgrades in
  match end_times with
  | [] =>
      do min_time <- py_min Datetime.ltb start_times;
      do max_time <- py_max Datetime.ltb start_times;
      let time_span := Datetime.sub max_time min_time in
      if Qeq_bool (total_seconds time_span) 0
      then do max_time' <- replace_second min_time (second min_time + 60);
           Returned (min_time, max_time')
      else Returned (min_time, max_time)
  | _ =>
      do min_time <- py_min Datetime.ltb start_times;
      do max_time <- py_max Datetime.ltb end_times;
      Returned (min_time, max_time)
  end.

(** The span the positions are divided by. *)
Definition total_duration_of (min_time max_time : datetime) : Q :=
  let total_duration := total_seconds (Datetime.sub max_time min_time) in
  if Qeq_bool total_duration 0 then 3600%Q else total_duration.

(** [_draw_time_axis]: the nine ticks. *)
Fixpoint draw_ticks (chart_width : Z) (min_time : datetime) (total_duration : Q)
    (indices : list Z) : result (list tick) :=
  match indices with
  | [] => Returned []
  | i :: rest =>
      let num_ticks := 8%Q in
      let x_pos := ((inject_Z i / num_ticks) * inject_Z chart_width)%Q in
      let time_offset := ((inject_Z i / num_ticks) * total_duration)%Q in
      do base <- replace_microsecond min_time 0;
      do label <- add_hms base (timedelta_seconds time_offset);
      do more <- draw_ticks chart_width min_time total_duration rest;
      Returned (mk_tick x_pos label :: more)
  end.

Definition _draw_time_axis (chart_width : Z) (min_time : datetime) (total_duration : Q)
    : result (list tick) :=
  draw_ticks chart_width min_time total_duration [0; 1; 2; 3; 4; 5; 6; 7; 8].

Definition Qmax (a b : Q) : Q := if Qltb a b then b else a.

(** The label of a row: long names are cut to 22 characters and dots. *)
Definition display_name (name : string) : string :=
  if (25 <? String.length name)%nat then Str.take 22 name ++ "..." else name.

Definition make_tooltip (upgrade : UpgradeEvent) : tooltip :=
  mk_tooltip (gateway_name upgrade) (hms (start_time upgrade))
    match end_time upgrade with
    | Some e =>
        let duration_seconds := total_seconds (Datetime.sub e (start_time upgrade)) in
        let duration_mins := (duration_seconds / 60)%Q in
        let duration_hours := (duration_mins / 60)%Q in
        let duration_str :=
          if Qltb duration_seconds 60 then InSeconds duration_seconds
          else if Qltb duration_mins 60 then InMinutes duration_mins
          else InHours duration_hours in
        Some (hms e, duration_str, duration_mins)
    | None => None
    end
    (if Str.is_empty (version_info upgrade) then None else Some (version_info upgrade)).

(** The body of the loop "Draw gateway bars" for row [i]. *)
Definition draw_bar (chart_width : Z) (min_time : datetime) (total_duration : Q)
    (bar_height : Z) (y_step : Q) (i : Z) (upgrade : UpgradeEvent) : result bar :=
  let y_pos := (inject_Z i * y_step + (y_step - inject_Z bar_height) / 2)%Q in
  let start_offset := total_seconds (Datetime.sub (start_time upgrade) min_time) in
  do ratio <- truediv start_offset total_duration;
  let x_pos := (ratio * inject_Z chart_width)%Q in
  do shape <-
    match end_time upgrade with
    | Some e =>
        let duration := total_seconds (Datetime.sub e (start_time upgrade)) in
        do share <- truediv duration total_duration;
        Returned (Qmax 2 (share * inject_Z chart_width), color_complete)
    | None => Returned ((inject_Z chart_width - x_pos)%Q, color_in_progress)
    end;
  Returned (mk_bar (display_name (gateway_name upgrade)) x_pos y_pos (fst shape)
              bar_height (snd shape) (make_tooltip upgrade)).

Fixpoint draw_bars (chart_width : Z) (min_time : datetime) (total_duration : Q)
    (bar_height : Z) (y_step : Q) (i : Z) (upgrades : list UpgradeEvent)
    : result (list bar) :=
  match upgrades with
  | [] => Returned []
  | upgrade :: rest =>
      do b <- draw_bar chart_width min_time total_duration bar_height y_step i upgrade;
      do more <- draw_bars chart_width min_time total_duration bar_height y_step (i + 1) rest;
      Returned (b :: more)
  end.

(** [SVGGanttChart.generate_chart] *)
Definition generate_chart (self : SVGGanttChart) (upgrades : list UpgradeEvent)
    : result scene :=
  match upgrades with
  | [] => Returned (_create_empty_chart self)
  | _ =>
      let n := Z.of_nat (length upgrades) in
      let min_bar_height := 20 in
      let min_spacing := 2 in
      let total_bar_space := n * (min_bar_height + min_spacing) in
      let height :=
        Z.max (base_height self) (total_bar_space + margin_top + margin_bottom + 100) in
      let width := base_width self in
      let chart_width := width - margin_left - margin_right in
      let chart_height := height - margin_top - margin_bottom in
      do range <- time_range upgrades;
      let min_time := fst range in
      let max_time := snd range in
      let total_duration := total_duration_of min_time max_time in
      do ticks <- _draw_time_axis chart_width min_time total_duration;
      let bar_height := Z.max min_bar_height (Z.min 25 (chart_height / n - 2)) in
      do step <- truediv (inject_Z chart_height) (inject_Z n);
      let y_step := Qmax (inject_Z (bar_height + min_spacing)) step in
      do bars <- draw_bars chart_width min_time total_duration bar_height y_step 0 upgrades;
      Returned (Timeline width height "Gateway Upgrade Timeline" ticks bars)
  end.

End Chart.

(** ** [main] *)

Inductive outcome : Type :=
| Exit (code : Z) (stderr : string)
| Success (stderr : list Stats.debug_line) (stdout : Chart.scene).

(** [main], past the handling of the command line. *)
Definition main (stdin : list string) : result outcome :=
  match parse_logs __init__ stdin with
  | (Raised e, _) => Raised e
  | (Returned [], _) => Returned (Exit 1 "No gateway upgrades found in the provided logs.")
  | (Returned upgrades, _) =>
      do report <- Stats.calculate_upgrade_stats upgrades;
      do svg_content <- Chart.generate_chart Chart.default upgrades;
      Returned (Success report svg_content)
  end.

(** ** Lines and records the statements below refer to *)

(** The line takes the completion branch of [parse_line], for gateway [g]
    and current version [v], at time [ts]. *)
Definition completion_line (line : string) (ts : datetime) (g v : string) : Prop :=
  parse_timestamp (Str.strip line) = Returned (Some ts) /\
  Re.search overall_start_pattern (Str.strip line) = None /\
  Re.search upgrade_start_pattern (Str.strip line) = None /\
  Re.search upgrade_installing_pattern (Str.strip line) = None /\
  exists m, Re.search upgrade_complete_pattern (Str.strip line) = Some m /\
            Re.group 1 m = g /\ Re.group 2 m = v.

(** The line takes the reset branch, at time [ts]. *)
Definition reset_line (line : string) (ts : datetime) : Prop :=
  parse_timestamp (Str.strip line) = Returned (Some ts) /\
  Re.search overall_start_pattern (Str.strip line) <> None.

(** The line takes the explicit-start branch, for gateway [g] with the text
    [v] after "version". *)
Definition start_line (line : string) (ts : datetime) (g v : string) : Prop :=
  parse_timestamp (Str.strip line) = Returned (Some ts) /\
  Re.search overall_start_pattern (Str.strip line) = None /\
  exists m, Re.search upgrade_start_pattern (Str.strip line) = Some m /\
            Re.group 1 m = g /\ Re.group 2 m = v.

(** The key of every entry is the name inside its record, and no key occurs
    twice. *)
Definition well_keyed (d : Dict.t) : Prop :=
  NoDup (Dict.keys d) /\ Forall (fun kv => gateway_name (snd kv) = fst kv) d.

Definition start_instant (u : UpgradeEvent) : Z := instant (start_time u).

Definition at_instant (t : Z) (u : UpgradeEvent) : bool := start_instant u =? t.

Definition le_start (a b : UpgradeEvent) : Prop := start_instant a <= start_instant b.

Definition ex_start : string :=
  "2025-07-23T00:00:05.100000+00:00 Upgrading gw-1 to version 8.1.0-1000.1500".

Definition ex_complete : string :=
  "2025-07-23T00:05:05.200000+00:00 Updating upgrade_info to gw gw-1: {'status': 'complete', 'curr_ver': '8.1.0-1000.1600', ...}".

Definition ex_reset : string :=
  "2025-07-23T00:10:00.000000+00:00 Upgrading gateways without controller upgrade...".

Definition ex_month13 : string :=
  "2025-13-01T00:00:00.000000+00:00 Upgrading gw-1 to version 8.1.0-1000.1500".

Definition ex_hour99 : string :=
  "2025-07-23T99:00:00.000000+00:00 Upgrading gw-1 to version 8.1.0-1000.1500".

Definition ex_indented : string :=
  "  2025-07-23T00:00:05.100000+00:00 Upgrading gw-1 to version 8.1.0-1000.1500".

Definition ex_untimed : string := "Upgrading gw-1 to version 8.1.0-1000.1500".

Definition t_start : datetime := mk_datetime 2025 7 23 0 0 5 100000 0.
Definition t_complete : datetime := mk_datetime 2025 7 23 0 5 5 200000 0.
Definition t_reset : datetime := mk_datetime 2025 7 23 0 10 0 0 0.
Definition t_later : datetime := mk_datetime 2025 7 23 0 0 15 100000 0.

Definition gw1_running : UpgradeEvent := new_event "gw-1" t_start "8.1.0-1000.1500".
Definition gw2_running : UpgradeEvent := new_event "gw-2" t_later "8.1.0-1000.1500".
Definition gw1_retroactive : UpgradeEvent :=
  mk_event "gw-1" t_complete (Some t_complete) "(retroactive) -> 8.1.0-1000.1600" "complete".
Definition gw1_done : UpgradeEvent :=
  mk_event "gw-1" t_start (Some t_complete) "8.1.0-1000.1500 -> 8.1.0-1000.1600" "complete".

(** ** Further lines, records and predicates *)

(** The line takes the installing branch, for gateway [g]. *)
Definition installing_line (line : string) (ts : datetime) (g : string) : Prop :=
  parse_timestamp (Str.strip line) = Returned (Some ts) /\
  Re.search overall_start_pattern (Str.strip line) = None /\
  Re.search upgrade_start_pattern (Str.strip line) = None /\
  exists m, Re.search upgrade_installing_pattern (Str.strip line) = Some m /\
            Re.group 1 m = g.

(** The line carries a timestamp and none of the four markers. *)
Definition unmarked_line (line : string) (ts : datetime) : Prop :=
  parse_timestamp (Str.strip line) = Returned (Some ts) /\
  Re.search overall_start_pattern (Str.strip line) = None /\
  Re.search upgrade_start_pattern (Str.strip line) = None /\
  Re.search upgrade_installing_pattern (Str.strip line) = None /\
  Re.search upgrade_complete_pattern (Str.strip line) = None.

(** A record as the parser leaves it: valid times, and an end time exactly
    when the status is "complete". *)
Definition coherent (u : UpgradeEvent) : Prop :=
  valid (start_time u) = true /\
  ((status u = "in_progress" /\ end_time u = None) \/
   (status u = "complete" /\ exists e, end_time u = Some e /\ valid e = true)).

Definition ex_installing : string :=
  "2025-07-23T00:00:15.100000+00:00 Updating upgrade_info to gw gw-2: {'status': 'installing', 'process_status': {'type': 'Software Upgrade'}}".

Definition ex_noise : string :=
  "2025-07-23T00:00:15.100000+00:00 Heartbeat from gw-1 received".

Definition ex_restart : string :=
  "2025-07-23T00:00:15.100000+00:00 Upgrading gw-1 to version 8.1.0-1000.1700".

Definition Zsum (l : list Z) : Z := fold_right Z.add 0 l.

(** The durations the [i]-th label stands for: at most the [i]-th upper
    bound and, past the first label, above the bound before it. *)
Definition in_bucket (i : nat) (d : Q) : bool :=
  Stats.within d (nth i (tl Stats.buckets) Stats.Infinity)
  && match i with
     | O => true
     | S j => negb (Stats.within d (nth j (tl Stats.buckets) Stats.Infinity))
     end.

(** How many of [ds] the [i]-th label stands for. *)
Definition tally (i : nat) (ds : list Q) : Z := Z.of_nat (length (filter (in_bucket i) ds)).


(** What [generate_chart] draws for one record: the label, the height of
    the row's bar, and by end time either the colour of completed upgrades
    with a width of at least 2, or the colour of open ones with the right
    edge on the right edge of the chart area. *)
Definition bar_drawn (chart_width bar_h : Z) (u : UpgradeEvent) (b : Chart.bar) : Prop :=
  Chart.bar_label b = Chart.display_name (gateway_name u) /\
  Chart.bar_height b = bar_h /\
  Chart.bar_tooltip b = Chart.make_tooltip u /\
  match end_time u with
  | Some _ => Chart.bar_fill b = Chart.color_complete /\ (2 <= Chart.bar_width b)%Q
  | None => Chart.bar_fill b = Chart.color_in_progress /\
            (Chart.bar_x b + Chart.bar_width b == inject_Z chart_width)%Q
  end.

(** The chart of a completed and an open record on the default canvas. *)
Definition ex_records : list UpgradeEvent := [gw1_done; gw2_running].

Definition ex_scene : Chart.scene :=
  match Chart.generate_chart Chart.default ex_records with
  | Returned scene => scene
  | Raised _ => Chart.EmptyChart 0 0 ""
  end.

(** ** [create_svg_element]

    An [ET.Element] is its tag and its attributes, a dictionary from names
    to strings kept in insertion order.  [str] stands for the built-in that
    renders an attribute value. *)

Module Svg.

Record Element : Type := mk_element {
  tag : string;
  attrib : list (string * string)
}.

(** [elem.set(key, value)] *)
Fixpoint set (key value : string) (a : list (string * string)) : list (string * string) :=
  match a with
  | [] => [(key, value)]
  | (k, v) :: a' =>
      if String.eqb k key then (k, value) :: a' else (k, v) :: set key value a'
  end.

Fixpoint get (key : string) (a : list (string * string)) : option string :=
  match a with
  | [] => None
  | (k, v) :: a' => if String.eqb k key then Some v else get key a'
  end.

Section Create.
Context {V : Type} (str : V -> string).

(** The name an attribute is stored under. *)
Definition attribute_name (key : string) : string :=
  Str.replace "_" "-" (if String.eqb key "class_" then "class" else key).

(** The loop over [attrs.items()]. *)
Fixpoint set_all (attrs : list (string * V)) (a : list (string * string))
    : list (string * string) :=
  match attrs with
  | [] => a
  | (key, value) :: rest => set_all rest (set (attribute_name key) (str value) a)
  end.

(** [SVGGanttChart.create_svg_element] *)
Definition create_svg_element (tag : string) (attrs : list (string * V)) : Element :=
  mk_element tag (set_all attrs []).

End Create.

End Svg.

(** No character of [s] is an underscore. *)
Fixpoint no_underscore (s : string) : bool :=
  match s with
  | EmptyString => true
  | String c s' => negb (Ascii.eqb c "_") && no_underscore s'
  end.

Definition ex_long_name : string := "gw-ap-southeast-1-000123456".

(** ** Vocabulary for lines written in the documented forms *)

(** The character [c] does not occur in [s]. *)
Fixpoint lacks (c : ascii) (s : string) : bool :=
  match s with
  | EmptyString => true
  | String c' s' => negb (Ascii.eqb c c') && lacks c s'
  end.

(** Every character of [s] is in the class [p]. *)
Fixpoint all_in (p : ascii -> bool) (s : string) : bool :=
  match s with
  | EmptyString => true
  | String c s' => p c && all_in p s'
  end.

(** [s] is empty or begins with a character outside [p]. *)
Definition stops (p : ascii -> bool) (s : string) : bool :=
  match s with
  | EmptyString => true
  | String c _ => negb (p c)
  end.

(** The classes of the patterns, as predicates. *)
Definition is_non_space (c : ascii) : bool := negb (Str.isspace c).
Definition is_dot (c : ascii) : bool := negb (Ascii.eqb c Re.newline).
Definition is_not (x : string) (c : ascii) : bool :=
  negb (String.eqb (String c EmptyString) x).

(** The text [t] occurs nowhere in [s]. *)
Definition absent (t s : string) : Prop := Re.search (Re.lit t) s = None.

(** The greedy loop of a starred class, by recursion on the text: take
    the next character if the class has it and try the rest first, fall
    back on stopping here. *)
Fixpoint star_spec {A : Type} (p : ascii -> bool)
    (k : nat -> string -> Re.groups -> option A) (pos : nat) (s : string) (m : Re.groups)
    : option A :=
  match s with
  | String c s' =>
      if p c
      then match star_spec p k (S pos) s' m with
           | Some a => Some a
           | None => k pos s m
           end
      else k pos s m
  | EmptyString => k pos s m
  end.


(** A timestamp as the logs write it, from the texts of its fields. *)
Definition timestamp_text (Y Mo D H Mi S F OH OM : string) : string :=
  Y ++ "-" ++ Mo ++ "-" ++ D ++ "T" ++ H ++ ":" ++ Mi ++ ":" ++ S ++ "." ++ F
  ++ "+" ++ OH ++ ":" ++ OM.

(** * Properties *)

(** ** The dictionary *)

Lemma get_set_same (k : string) (v : UpgradeEvent) (d : Dict.t) :
  Dict.get k (Dict.set k v d) = Some v.
Proof.
  induction d as [|[k' v'] d IH]; simpl.
  - now rewrite String.eqb_refl.
  - destruct (String.eqb k' k) eqn:E; simpl; rewrite E; auto.
Qed.

Lemma get_set_other (k k' : string) (v : UpgradeEvent) (d : Dict.t) :
  k <> k' -> Dict.get k' (Dict.set k v d) = Dict.get k' d.
Proof.
  intros Hne. induction d as [|[k0 v0] d IH]; simpl.
  - destruct (String.eqb_spec k k'); [contradiction | reflexivity].
  - destruct (String.eqb_spec k0 k) as [->|Hk]; simpl.
    + destruct (String.eqb_spec k k'); [contradiction | reflexivity].
    + now rewrite IH.
Qed.

Lemma get_in (k : string) (u : UpgradeEvent) (d : Dict.t) :
  Dict.get k d = Some u -> In (k, u) d.
Proof.
  induction d as [|[k0 v0] d IH]; simpl; [discriminate|].
  destruct (String.eqb_spec k0 k) as [->|Hk]; intros H.
  - injection H as ->. now left.
  - right. auto.
Qed.

Lemma keys_set (k : string) (v : UpgradeEvent) (d : Dict.t) :
  Dict.keys (Dict.set k v d)
  = if Dict.mem k d then Dict.keys d else (Dict.keys d ++ [k])%list.
Proof.
  unfold Dict.mem. induction d as [|[k0 v0] d IH]; simpl; [reflexivity|].
  destruct (String.eqb_spec k0 k) as [->|Hk]; simpl; [reflexivity|].
  rewrite IH. now destruct (Dict.get k d).
Qed.

Lemma mem_keys (k : string) (d : Dict.t) :
  Dict.mem k d = false -> ~ In k (Dict.keys d).
Proof.
  unfold Dict.mem. induction d as [|[k0 v0] d IH]; simpl; [tauto|].
  destruct (String.eqb_spec k0 k) as [->|Hk]; [discriminate|].
  intros H [E|HIn]; [contradiction | now apply IH].
Qed.

Lemma well_keyed_set (k : string) (v : UpgradeEvent) (d : Dict.t) :
  gateway_name v = k -> well_keyed d -> well_keyed (Dict.set k v d).
Proof.
  intros Hv [Hnd Hall]. split.
  - rewrite keys_set. destruct (Dict.mem k d) eqn:E; [assumption|].
    apply NoDup_app; [assumption | repeat constructor; simpl; tauto |].
    intros x Hx [<-|[]]. now apply (mem_keys _ _ E).
  - clear Hnd. induction d as [|[k0 v0] d IH]; simpl.
    + now repeat constructor.
    + pose proof (Forall_inv Hall) as H0.
      pose proof (Forall_inv_tail Hall) as Hrest.
      destruct (String.eqb_spec k0 k) as [Hk|Hk]; constructor; simpl; auto.
      now rewrite Hv.
Qed.

Lemma well_keyed_names (d : Dict.t) :
  well_keyed d -> map gateway_name (Dict.values d) = Dict.keys d.
Proof.
  intros [_ Hall]. unfold Dict.values, Dict.keys.
  induction Hall as [|[k v] d H _ IH]; simpl; [reflexivity|].
  simpl in H. now rewrite H, IH.
Qed.

(** ** One line at a time *)

Lemma parse_timestamp_empty : parse_timestamp "" = Returned None.
Proof. reflexivity. Qed.

(** The test for an empty line is subsumed by the timestamp test. *)
Lemma timestamp_not_empty (line : string) (ts : datetime) :
  parse_timestamp line = Returned (Some ts) -> Str.is_empty line = false.
Proof.
  destruct line; [|reflexivity].
  rewrite parse_timestamp_empty. discriminate.
Qed.

Lemma parse_line_skips (self : LogParser) (line : string) :
  parse_timestamp (Str.strip line) = Returned None ->
  parse_line self line = (Returned tt, self).
Proof.
  intros H. unfold parse_line. cbv zeta. rewrite H.
  now destruct (Str.is_empty (Str.strip line)).
Qed.

Lemma parse_line_raises (self : LogParser) (line : string) (e : exn) :
  parse_timestamp (Str.strip line) = Raised e ->
  parse_line self line = (Raised e, self).
Proof.
  intros H. unfold parse_line. cbv zeta. rewrite H.
  destruct (Str.strip line) eqn:E; [|reflexivity].
  rewrite parse_timestamp_empty in H. discriminate.
Qed.

Lemma parse_line_reset (self : LogParser) (line : string) (ts : datetime) :
  reset_line line ts ->
  parse_line self line = (Returned tt, mk_parser [] (Some ts)).
Proof.
  intros [Hts Hre]. unfold parse_line. cbv zeta.
  rewrite (timestamp_not_empty _ _ Hts), Hts.
  destruct (Re.search overall_start_pattern (Str.strip line)); [reflexivity|].
  now contradiction Hre.
Qed.

Lemma parse_line_start (self : LogParser) (line : string) (ts : datetime) (g v : string) :
  start_line line ts g v ->
  parse_line self line
  = (Returned tt,
     mk_parser (Dict.set g (new_event g ts (Str.strip v)) (upgrades self))
       (overall_start_time self)).
Proof.
  intros (Hts & Hre & m & Hm & <- & <-). unfold parse_line. cbv zeta.
  now rewrite (timestamp_not_empty _ _ Hts), Hts, Hre, Hm.
Qed.

Lemma parse_line_completion (self : LogParser) (line : string) (ts : datetime)
    (g v : string) :
  completion_line line ts g v ->
  parse_line self line = (Returned tt, complete_upgrade self g v ts).
Proof.
  intros (Hts & Hre & Hst & Hin & m & Hm & <- & <-). unfold parse_line. cbv zeta.
  now rewrite (timestamp_not_empty _ _ Hts), Hts, Hre, Hst, Hin, Hm.
Qed.

(** A call raises exactly when the timestamp cannot be built. *)
Lemma parse_line_returns (self : LogParser) (line : string) :
  (forall e, parse_timestamp (Str.strip line) <> Raised e) ->
  fst (parse_line self line) = Returned tt.
Proof.
  intros H. unfold parse_line. cbv zeta.
  destruct (Str.is_empty (Str.strip line)); [reflexivity|].
  destruct (parse_timestamp (Str.strip line)) as [[ts|]|e]; [| reflexivity |].
  - destruct (Re.search overall_start_pattern _); [reflexivity|].
    destruct (Re.search upgrade_start_pattern _); [reflexivity|].
    destruct (Re.search upgrade_installing_pattern _).
    + now destruct (negb _).
    + now destruct (Re.search upgrade_complete_pattern _).
  - now contradiction (H e).
Qed.

Lemma complete_upgrade_twice (self : LogParser) (g v : string) (ts : datetime) :
  complete_upgrade (complete_upgrade self g v ts) g v ts = complete_upgrade self g v ts.
Proof.
  unfold complete_upgrade at 2 3.
  destruct (Dict.get g (upgrades self)) as [u|] eqn:E.
  - destruct (String.eqb (status u) "complete") eqn:Es; simpl.
    + unfold complete_upgrade. now rewrite E, Es.
    + unfold complete_upgrade. simpl. now rewrite get_set_same.
  - unfold complete_upgrade. simpl. now rewrite get_set_same.
Qed.

(** C1, at the failing inputs: a line with the digit shape of a timestamp
    but month 13, or hour 99, makes [parse_line] raise ValueError instead of
    skipping the line, and [parse_logs] stops there with the same error. *)
Theorem parse_line_raises_on_invalid_timestamp :
  parse_line __init__ ex_month13 = (Raised ValueError, __init__) /\
  parse_line __init__ ex_hour99 = (Raised ValueError, __init__) /\
  fst (parse_logs __init__ [ex_start; ex_month13; ex_complete]) = Raised ValueError.
Proof. repeat split; vm_compute; reflexivity. Qed.

(** C6: a completion line for a gateway whose record is already complete
    changes nothing, and ingesting any completion line a second time leaves
    the parser exactly as the first time did. *)
Theorem completion_is_idempotent (self : LogParser) (line : string) (ts : datetime)
    (g v : string) :
  completion_line line ts g v ->
  (forall u, Dict.get g (upgrades self) = Some u -> status u = "complete" ->
             parse_line self line = (Returned tt, self)) /\
  parse_line (snd (parse_line self line)) line = parse_line self line.
Proof.
  intros H. split.
  - intros u Hu Hs. rewrite (parse_line_completion _ _ _ _ _ H).
    unfold complete_upgrade. now rewrite Hu, Hs.
  - rewrite !(parse_line_completion _ _ _ _ _ H). simpl.
    now rewrite complete_upgrade_twice.
Qed.

Lemma completion_is_idempotent_witness :
  parse_line (mk_parser [("gw-1", gw1_done)] None) ex_complete
  = (Returned tt, mk_parser [("gw-1", gw1_done)] None) /\
  parse_line (snd (parse_line (mk_parser [("gw-1", gw1_done)] None) ex_complete)) ex_complete
  = parse_line (mk_parser [("gw-1", gw1_done)] None) ex_complete.
Proof.
  assert (H : completion_line ex_complete t_complete "gw-1" "8.1.0-1000.1600").
  { repeat split; try (vm_compute; reflexivity).
    eexists. split; [vm_compute; reflexivity | split; reflexivity]. }
  destruct (completion_is_idempotent (mk_parser [("gw-1", gw1_done)] None) ex_complete
              t_complete "gw-1" "8.1.0-1000.1600" H) as [Hnoop Htwice].
  split; [apply (Hnoop gw1_done); reflexivity | exact Htwice].
Defined.

(** C7: a completion line for a gateway without a record creates one whose
    start and end are both the line's timestamp, with status complete and a
    note that opens with "(retroactive)"; every other entry and the
    generation start time are untouched. *)
Theorem completion_without_start_is_retroactive (self : LogParser) (line : string)
    (ts : datetime) (g v : string) :
  completion_line line ts g v ->
  Dict.get g (upgrades self) = None ->
  fst (parse_line self line) = Returned tt /\
  Dict.get g (upgrades (snd (parse_line self line)))
  = Some (mk_event g ts (Some ts) ("(retroactive) -> " ++ v) "complete") /\
  (forall k, k <> g ->
     Dict.get k (upgrades (snd (parse_line self line))) = Dict.get k (upgrades self)) /\
  overall_start_time (snd (parse_line self line)) = overall_start_time self.
Proof.
  intros H Hnone. rewrite (parse_line_completion _ _ _ _ _ H).
  unfold complete_upgrade. rewrite Hnone. simpl. repeat split.
  - apply get_set_same.
  - intros k Hk. now apply get_set_other.
Qed.

Lemma completion_without_start_is_retroactive_witness :
  fst (parse_line __init__ ex_complete) = Returned tt /\
  Dict.get "gw-1" (upgrades (snd (parse_line __init__ ex_complete)))
  = Some (mk_event "gw-1" t_complete (Some t_complete)
            ("(retroactive) -> " ++ "8.1.0-1000.1600") "complete") /\
  (forall k, k <> "gw-1" ->
     Dict.get k (upgrades (snd (parse_line __init__ ex_complete))) = Dict.get k (upgrades __init__)) /\
  overall_start_time (snd (parse_line __init__ ex_complete)) = overall_start_time __init__.
Proof.
  apply (completion_without_start_is_retroactive __init__ ex_complete t_complete
           "gw-1" "8.1.0-1000.1600").
  - repeat split; try (vm_compute; reflexivity).
    eexists. split; [vm_compute; reflexivity | split; reflexivity].
  - reflexivity.
Defined.

(** C8: a reset line empties the dictionary and records its timestamp as
    the generation start; an explicit start line right after it leaves
    exactly one record, whatever was held before the reset. *)
Theorem reset_then_start (self : LogParser) (l1 l2 : string) (t1 t2 : datetime)
    (g v : string) :
  reset_line l1 t1 ->
  start_line l2 t2 g v ->
  parse_line self l1 = (Returned tt, mk_parser [] (Some t1)) /\
  parse_line (snd (parse_line self l1)) l2
  = (Returned tt, mk_parser [(g, new_event g t2 (Str.strip v))] (Some t1)) /\
  length (Dict.values (upgrades (snd (parse_line (snd (parse_line self l1)) l2)))) = 1%nat.
Proof.
  intros H1 H2.
  rewrite (parse_line_reset _ _ _ H1). simpl.
  rewrite (parse_line_start _ _ _ _ _ H2). simpl. auto.
Qed.

Lemma reset_then_start_witness :
  parse_line (mk_parser [("gw-1", gw1_done); ("gw-2", gw2_running)] None) ex_reset
  = (Returned tt, mk_parser [] (Some t_reset)) /\
  parse_line (snd (parse_line (mk_parser [("gw-1", gw1_done); ("gw-2", gw2_running)] None)
                     ex_reset)) ex_start
  = (Returned tt,
     mk_parser [("gw-1", new_event "gw-1" t_start (Str.strip " 8.1.0-1000.1500"))]
       (Some t_reset)) /\
  length (Dict.values (upgrades (snd (parse_line
    (snd (parse_line (mk_parser [("gw-1", gw1_done); ("gw-2", gw2_running)] None) ex_reset))
    ex_start)))) = 1%nat.
Proof.
  apply (reset_then_start (mk_parser [("gw-1", gw1_done); ("gw-2", gw2_running)] None)
           ex_reset ex_start t_reset t_start "gw-1" " 8.1.0-1000.1500").
  - split; vm_compute; [reflexivity | discriminate].
  - repeat split; try (vm_compute; reflexivity).
    eexists. split; [vm_compute; reflexivity | split; reflexivity].
Defined.

(** C9, as stated, fails: the line is stripped first, so a line that begins
    with blanks, on which [parse_timestamp] itself finds no timestamp, is
    ingested all the same and creates a record. *)
Lemma indented_line_is_ingested :
  parse_timestamp ex_indented = Returned None /\
  parse_line __init__ ex_indented
  = (Returned tt, mk_parser [("gw-1", gw1_running)] None) /\
  snd (parse_line __init__ ex_indented) <> __init__.
Proof.
  split; [vm_compute; reflexivity|].
  split; [vm_compute; reflexivity|].
  vm_compute. discriminate.
Qed.

(** C9, amended: when the line, once stripped of surrounding whitespace,
    yields no timestamp, the dictionary and the generation start time are
    left as they were; the call returns when no timestamp is found and
    raises when one is found but cannot be built. *)
Theorem parse_line_without_timestamp (self : LogParser) (line : string) :
  (forall ts, parse_timestamp (Str.strip line) <> Returned (Some ts)) ->
  parse_line self line
  = (match parse_timestamp (Str.strip line) with
     | Raised e => Raised e
     | Returned _ => Returned tt
     end, self).
Proof.
  intros H.
  destruct (parse_timestamp (Str.strip line)) as [[ts|]|e] eqn:E.
  - now contradiction (H ts).
  - now apply parse_line_skips.
  - now apply parse_line_raises.
Qed.

Lemma parse_line_without_timestamp_witness :
  parse_line (mk_parser [("gw-1", gw1_done)] (Some t_reset)) ex_untimed
  = (match parse_timestamp (Str.strip ex_untimed) with
     | Raised e => Raised e
     | Returned _ => Returned tt
     end, mk_parser [("gw-1", gw1_done)] (Some t_reset)).
Proof.
  apply (parse_line_without_timestamp (mk_parser [("gw-1", gw1_done)] (Some t_reset))
           ex_untimed).
  intros ts. vm_compute. discriminate.
Defined.

(** ** The whole stream *)

Lemma insert_by_start_perm (x : UpgradeEvent) (l : list UpgradeEvent) :
  Permutation (x :: l) (insert_by_start x l).
Proof.
  induction l as [|y l IH]; simpl; [reflexivity|].
  destruct (Datetime.ltb (start_time y) (start_time x)); [|reflexivity].
  rewrite perm_swap. now constructor.
Qed.

Lemma sorted_by_start_perm (l : list UpgradeEvent) :
  Permutation l (sorted_by_start l).
Proof.
  induction l as [|x l IH]; simpl; [constructor|].
  rewrite <- insert_by_start_perm. now constructor.
Qed.

Lemma insert_by_start_sorted (x : UpgradeEvent) (l : list UpgradeEvent) :
  StronglySorted le_start l -> StronglySorted le_start (insert_by_start x l).
Proof.
  induction 1 as [|y l Hs IH Hy]; simpl.
  - repeat constructor.
  - unfold Datetime.ltb. fold (start_instant y) (start_instant x).
    destruct (Z.ltb_spec (start_instant y) (start_instant x)) as [Hlt|Hge].
    + constructor; [assumption|].
      apply (Permutation_Forall (insert_by_start_perm x l)).
      constructor; [unfold le_start; lia | assumption].
    + constructor; [now constructor|].
      constructor; [assumption|].
      eapply Forall_impl; [|exact Hy].
      unfold le_start. intros; lia.
Qed.

Lemma sorted_by_start_sorted (l : list UpgradeEvent) :
  StronglySorted le_start (sorted_by_start l).
Proof.
  induction l; simpl; [constructor | now apply insert_by_start_sorted].
Qed.

(** Stability: the records that start at one instant keep their order. *)
Lemma insert_by_start_filter (t : Z) (x : UpgradeEvent) (l : list UpgradeEvent) :
  filter (at_instant t) (insert_by_start x l) = filter (at_instant t) (x :: l).
Proof.
  induction l as [|y l IH]; [reflexivity|].
  cbn [insert_by_start]. unfold Datetime.ltb.
  fold (start_instant y) (start_instant x).
  destruct (Z.ltb_spec (start_instant y) (start_instant x)) as [Hlt|Hge]; [|reflexivity].
  cbn [filter] in *. rewrite IH. unfold at_instant.
  destruct (Z.eqb_spec (start_instant x) t), (Z.eqb_spec (start_instant y) t);
    try reflexivity.
  lia.
Qed.

Lemma sorted_by_start_stable (t : Z) (l : list UpgradeEvent) :
  filter (at_instant t) (sorted_by_start l) = filter (at_instant t) l.
Proof.
  induction l as [|x l IH]; [reflexivity|].
  cbn [sorted_by_start]. rewrite insert_by_start_filter.
  cbn [filter]. now rewrite IH.
Qed.

Lemma well_keyed_get (d : Dict.t) (k : string) (u : UpgradeEvent) :
  well_keyed d -> Dict.get k d = Some u -> gateway_name u = k.
Proof.
  intros [_ Hall] H. apply get_in in H.
  rewrite Forall_forall in Hall. exact (Hall _ H).
Qed.

Lemma complete_upgrade_well_keyed (self : LogParser) (g v : string) (ts : datetime) :
  well_keyed (upgrades self) -> well_keyed (upgrades (complete_upgrade self g v ts)).
Proof.
  intros H. unfold complete_upgrade.
  destruct (Dict.get g (upgrades self)) as [u|] eqn:E.
  - destruct (negb _); [|assumption].
    apply well_keyed_set; [|assumption]. simpl. now apply (well_keyed_get _ _ _ H).
  - now apply well_keyed_set.
Qed.

Lemma parse_line_well_keyed (self : LogParser) (line : string) :
  well_keyed (upgrades self) -> well_keyed (upgrades (snd (parse_line self line))).
Proof.
  intros H. unfold parse_line. cbv zeta.
  destruct (Str.is_empty (Str.strip line)); [assumption|].
  destruct (parse_timestamp (Str.strip line)) as [[ts|]|e]; [| assumption | assumption].
  destruct (Re.search overall_start_pattern _).
  { split; constructor. }
  destruct (Re.search upgrade_start_pattern _).
  { now apply well_keyed_set. }
  destruct (Re.search upgrade_installing_pattern _).
  { destruct (negb _); [now apply well_keyed_set | assumption]. }
  destruct (Re.search upgrade_complete_pattern _); [|assumption].
  now apply complete_upgrade_well_keyed.
Qed.

Lemma ingest_well_keyed (input_stream : list string) (self : LogParser) :
  well_keyed (upgrades self) -> well_keyed (upgrades (snd (ingest self input_stream))).
Proof.
  revert self. induction input_stream as [|line rest IH]; intros self H; [assumption|].
  simpl. pose proof (parse_line_well_keyed self line H) as H'.
  destruct (parse_line self line) as [[[]|e] self']; simpl in *; auto.
Qed.

Lemma ingest_returns (input_stream : list string) (self : LogParser) :
  Forall (fun line => forall e, parse_timestamp (Str.strip line) <> Raised e) input_stream ->
  fst (ingest self input_stream) = Returned tt.
Proof.
  intros H. revert self. induction H as [|line rest Hline _ IH]; intros self; [reflexivity|].
  simpl. pose proof (parse_line_returns self line Hline) as Hr.
  destruct (parse_line self line) as [[[]|e] self']; simpl in Hr; [apply IH | discriminate].
Qed.

(** C5, as stated, fails: a record that was created is dropped by a later
    reset, so the gateway it belonged to is missing from the result. *)
Lemma reset_drops_created_records :
  Dict.mem "gw-1" (upgrades (snd (ingest __init__ [ex_start]))) = true /\
  parse_logs __init__ [ex_start; ex_reset] = (Returned [], mk_parser [] (Some t_reset)).
Proof. split; vm_compute; reflexivity. Qed.

(** C5, amended: on every input none of whose lines raises, [parse_logs]
    returns; what it returns is a permutation of the records the
    dictionary holds at the end (those created since the last reset), one
    per key, ascending by start instant, and records that start at the same
    instant stay in the dictionary's order. *)
Theorem parse_logs_sorted_permutation (input_stream : list string) :
  Forall (fun line => forall e, parse_timestamp (Str.strip line) <> Raised e) input_stream ->
  exists self' out,
    ingest __init__ input_stream = (Returned tt, self') /\
    parse_logs __init__ input_stream = (Returned out, self') /\
    Permutation (Dict.values (upgrades self')) out /\
    Permutation (Dict.keys (upgrades self')) (map gateway_name out) /\
    NoDup (map gateway_name out) /\
    StronglySorted le_start out /\
    (forall t, filter (at_instant t) out
               = filter (at_instant t) (Dict.values (upgrades self'))).
Proof.
  intros H.
  pose proof (ingest_returns input_stream __init__ H) as Hr.
  assert (Hwk : well_keyed (upgrades (snd (ingest __init__ input_stream)))).
  { apply ingest_well_keyed. split; constructor. }
  unfold parse_logs.
  destruct (ingest __init__ input_stream) as [r self']. simpl in Hr, Hwk. subst r.
  exists self', (sorted_by_start (Dict.values (upgrades self'))).
  assert (Hnames : Permutation (Dict.keys (upgrades self'))
                     (map gateway_name (sorted_by_start (Dict.values (upgrades self'))))).
  { rewrite <- (well_keyed_names _ Hwk). apply Permutation_map, sorted_by_start_perm. }
  repeat split.
  - apply sorted_by_start_perm.
  - exact Hnames.
  - apply (Permutation_NoDup Hnames), Hwk.
  - apply sorted_by_start_sorted.
  - intros t. apply sorted_by_start_stable.
Qed.

Lemma parse_logs_sorted_permutation_witness :
  exists self' out,
    ingest __init__ [ex_reset; ex_start; ex_untimed; ex_complete] = (Returned tt, self') /\
    parse_logs __init__ [ex_reset; ex_start; ex_untimed; ex_complete] = (Returned out, self') /\
    Permutation (Dict.values (upgrades self')) out /\
    Permutation (Dict.keys (upgrades self')) (map gateway_name out) /\
    NoDup (map gateway_name out) /\
    StronglySorted le_start out /\
    (forall t, filter (at_instant t) out
               = filter (at_instant t) (Dict.values (upgrades self'))).
Proof.
  apply (parse_logs_sorted_permutation [ex_reset; ex_start; ex_untimed; ex_complete]).
  repeat constructor; intros e; vm_compute; discriminate.
Defined.

(** ** The time range of the chart *)

Lemma scan_min_in {A : Type} (lt : A -> A -> bool) (l : list A) (best : A) :
  In (scan_min lt best l) (best :: l).
Proof.
  revert best. induction l as [|x l IH]; intros best; simpl; [now left|].
  destruct (IH (if lt x best then x else best)) as [H|H]; [|now right; right].
  rewrite <- H. destruct (lt x best); auto.
Qed.

Lemma scan_max_in {A : Type} (lt : A -> A -> bool) (l : list A) (best : A) :
  In (scan_max lt best l) (best :: l).
Proof.
  revert best. induction l as [|x l IH]; intros best; simpl; [now left|].
  destruct (IH (if lt best x then x else best)) as [H|H]; [|now right; right].
  rewrite <- H. destruct (lt best x); auto.
Qed.

Lemma scan_min_lower (l : list datetime) (best : datetime) :
  forall x, In x (best :: l) -> instant (scan_min Datetime.ltb best l) <= instant x.
Proof.
  revert best. induction l as [|y l IH]; intros best x Hx; simpl.
  - destruct Hx as [<-|[]]. lia.
  - destruct (Datetime.ltb y best) eqn:E; unfold Datetime.ltb in E;
      [apply Z.ltb_lt in E | apply Z.ltb_ge in E].
    + destruct Hx as [<-|[<-|Hx]].
      * specialize (IH y y (or_introl eq_refl)). lia.
      * apply IH. now left.
      * apply IH. now right.
    + destruct Hx as [<-|[<-|Hx]].
      * apply IH. now left.
      * specialize (IH best best (or_introl eq_refl)). lia.
      * apply IH. now right.
Qed.

Lemma scan_max_upper (l : list datetime) (best : datetime) :
  forall x, In x (best :: l) -> instant x <= instant (scan_max Datetime.ltb best l).
Proof.
  revert best. induction l as [|y l IH]; intros best x Hx; simpl.
  - destruct Hx as [<-|[]]. lia.
  - destruct (Datetime.ltb best y) eqn:E; unfold Datetime.ltb in E;
      [apply Z.ltb_lt in E | apply Z.ltb_ge in E].
    + destruct Hx as [<-|[<-|Hx]].
      * specialize (IH y y (or_introl eq_refl)). lia.
      * apply IH. now left.
      * apply IH. now right.
    + destruct Hx as [<-|[<-|Hx]].
      * apply IH. now left.
      * specialize (IH best best (or_introl eq_refl)). lia.
      * apply IH. now right.
Qed.

Lemma total_seconds_zero (td : timedelta) :
  Qeq_bool (total_seconds td) 0 = (td =? 0).
Proof.
  destruct (Z.eqb_spec td 0) as [->|Hne]; [reflexivity|].
  apply not_true_is_false. intros H. apply Qeq_bool_iff in H.
  unfold total_seconds, Qeq in H. simpl in H. lia.
Qed.

Lemma no_end_times (upgrades : list UpgradeEvent) :
  Forall (fun u => end_time u = None) upgrades ->
  flat_map (fun u => match end_time u with Some e => [e] | None => [] end) upgrades = [].
Proof.
  induction 1 as [|u l Hu _ IH]; simpl; [reflexivity|]. now rewrite Hu.
Qed.

(** C2, at the failing input: for a single record without an end time the
    time range is degenerate, and [generate_chart] raises ValueError out of
    [replace] instead of substituting a span; [main] ends with that error. *)
Theorem generate_chart_raises_on_single_in_progress :
  Chart.time_range [gw1_running] = Raised ValueError /\
  Chart.generate_chart Chart.default [gw1_running] = Raised ValueError /\
  fst (parse_logs __init__ [ex_start]) = Returned [gw1_running] /\
  main [ex_start] = Raised ValueError.
Proof. repeat split; vm_compute; reflexivity. Qed.

(** The same for every list of open records that all start at one instant:
    [second + 60] is never a valid second. *)
Lemma degenerate_open_range_raises (self : Chart.SVGGanttChart)
    (upgrades : list UpgradeEvent) :
  upgrades <> [] ->
  Forall (fun u => end_time u = None) upgrades ->
  Forall (fun u => 0 <= second (start_time u)) upgrades ->
  (forall u v, In u upgrades -> In v upgrades -> start_instant u = start_instant v) ->
  Chart.generate_chart self upgrades = Raised ValueError.
Proof.
  intros Hne Hopen Hsec Hsame.
  assert (Hrange : Chart.time_range upgrades = Raised ValueError).
  { unfold Chart.time_range. rewrite (no_end_times _ Hopen).
    destruct upgrades as [|u0 rest]; [contradiction|].
    cbn [map py_min py_max bind].
    set (lo := scan_min Datetime.ltb (start_time u0) (map start_time rest)).
    set (hi := scan_max Datetime.ltb (start_time u0) (map start_time rest)).
    assert (Hlo : In lo (map start_time (u0 :: rest))) by apply scan_min_in.
    assert (Hhi : In hi (map start_time (u0 :: rest))) by apply scan_max_in.
    apply in_map_iff in Hlo as (ul & Hul & Hinl).
    apply in_map_iff in Hhi as (uh & Huh & Hinh).
    rewrite total_seconds_zero.
    replace (Datetime.sub hi lo =? 0) with true.
    2:{ symmetry. apply Z.eqb_eq. unfold Datetime.sub.
        rewrite <- Hul, <- Huh. specialize (Hsame uh ul Hinh Hinl).
        unfold start_instant in Hsame. lia. }
    unfold replace_second, make, valid. cbn [Datetime.second].
    rewrite Forall_forall in Hsec. specialize (Hsec ul Hinl). rewrite Hul in Hsec.
    replace (second lo + 60 <=? 59) with false by (symmetry; apply Z.leb_gt; lia).
    rewrite !andb_false_r. reflexivity. }
  unfold Chart.generate_chart.
  destruct upgrades; [contradiction|]. now rewrite Hrange.
Qed.

(** C4, as stated, fails: two open records ten seconds apart give a range
    that ends at the later start, ten seconds after the earlier one, not a
    minute after it. *)
Lemma open_range_ends_at_latest_start :
  Forall (fun u => end_time u = None) [gw1_running; gw2_running] /\
  Chart.time_range [gw1_running; gw2_running] = Returned (t_start, t_later) /\
  Datetime.sub t_later t_start = 10 * us_per_second /\
  ~ (60 * us_per_second <= Datetime.sub t_later t_start).
Proof.
  split; [repeat constructor|].
  split; [vm_compute; reflexivity|].
  split; vm_compute; [reflexivity | intros H; now apply H].
Qed.

(** C4, amended: when no record has an end time and the start times are
    not all the same instant, the time range runs from the earliest start
    time to the latest start time. *)
Theorem time_range_without_end_times (upgrades : list UpgradeEvent) :
  Forall (fun u => end_time u = None) upgrades ->
  (exists u v, In u upgrades /\ In v upgrades /\ start_instant u <> start_instant v) ->
  exists lo hi,
    Chart.time_range upgrades = Returned (lo, hi) /\
    In lo (map start_time upgrades) /\
    In hi (map start_time upgrades) /\
    (forall u, In u upgrades -> instant lo <= start_instant u <= instant hi).
Proof.
  intros Hopen (u & v & Hu & Hv & Huv).
  unfold Chart.time_range. rewrite (no_end_times _ Hopen).
  destruct upgrades as [|u0 rest]; [contradiction|].
  cbn [map py_min py_max bind].
  set (lo := scan_min Datetime.ltb (start_time u0) (map start_time rest)).
  set (hi := scan_max Datetime.ltb (start_time u0) (map start_time rest)).
  assert (Hbounds : forall w, In w (u0 :: rest) ->
                      instant lo <= start_instant w <= instant hi).
  { intros w Hw. split.
    - apply scan_min_lower. change (In (start_time w) (map start_time (u0 :: rest))).
      now apply in_map.
    - apply scan_max_upper. change (In (start_time w) (map start_time (u0 :: rest))).
      now apply in_map. }
  exists lo, hi.
  rewrite total_seconds_zero.
  replace (Datetime.sub hi lo =? 0) with false.
  2:{ symmetry. apply Z.eqb_neq. unfold Datetime.sub.
      pose proof (Hbounds u Hu). pose proof (Hbounds v Hv). lia. }
  repeat split; try apply Hbounds; trivial.
  - apply scan_min_in.
  - apply scan_max_in.
Qed.

Lemma time_range_without_end_times_witness :
  exists lo hi,
    Chart.time_range [gw1_running; gw2_running] = Returned (lo, hi) /\
    In lo (map start_time [gw1_running; gw2_running]) /\
    In hi (map start_time [gw1_running; gw2_running]) /\
    (forall u, In u [gw1_running; gw2_running] ->
               instant lo <= start_instant u <= instant hi).
Proof.
  apply (time_range_without_end_times [gw1_running; gw2_running]).
  - repeat constructor.
  - exists gw1_running, gw2_running.
    split; [now left|]. split; [now right; left|]. vm_compute. discriminate.
Defined.

(** A range of zero width that comes from end times is recovered: the span
    becomes one hour and the chart is returned, its only bar at the minimum
    width. *)
Lemma retroactive_record_is_drawn :
  Chart.time_range [gw1_retroactive] = Returned (t_complete, t_complete) /\
  Chart.total_duration_of t_complete t_complete = 3600%Q /\
  exists ticks b,
    Chart.generate_chart Chart.default [gw1_retroactive]
    = Returned (Chart.Timeline 1200 800 "Gateway Upgrade Timeline" ticks [b]) /\
    (Chart.bar_width b == 2)%Q.
Proof.
  split; [vm_compute; reflexivity|].
  split; [vm_compute; reflexivity|].
  eexists _, _. split; [vm_compute; reflexivity|]. vm_compute. reflexivity.
Qed.

(** ** Statistics *)

Lemma no_completed_durations (upgrades : list UpgradeEvent) :
  Forall (fun u => end_time u = None) upgrades ->
  Stats.completed_durations upgrades = [].
Proof.
  induction 1 as [|u l Hu _ IH]; simpl; [reflexivity|]. now rewrite Hu.
Qed.

Lemma len_positive {A : Type} (x : A) (l : list A) : Qeq_bool (len (x :: l)) 0 = false.
Proof.
  apply not_true_is_false. intros H. apply Qeq_bool_iff in H.
  unfold len, Qeq in H. cbn [Qnum Qden inject_Z] in H. simpl length in H. lia.
Qed.

Lemma distribution_returns (durations : list Q) (rows : list (string * Z)) :
  exists lines, Stats.distribution durations rows = Returned lines.
Proof.
  induction rows as [|[label count] rows [more IH]]; simpl; [now eexists|].
  destruct durations as [|d ds].
  - simpl. rewrite IH. simpl. now eexists.
  - unfold truediv. rewrite len_positive. simpl. rewrite IH. simpl. now eexists.
Qed.

(** No division of the summary is by zero and no extremum is taken of an
    empty list: the function returns on every input. *)
Lemma calculate_upgrade_stats_returns (upgrades : list UpgradeEvent) :
  exists report, Stats.calculate_upgrade_stats upgrades = Returned report.
Proof.
  unfold Stats.calculate_upgrade_stats.
  destruct (Stats.completed_durations upgrades) as [|p l]; [now eexists|].
  cbn [map py_min py_max bind]. unfold truediv. rewrite !len_positive. cbn [bind].
  destruct (distribution_returns (snd p :: map snd l)
              (combine Stats.bucket_labels (Stats.bucket_counts (snd p :: map snd l))))
    as [lines ->].
  cbn [bind]. now eexists.
Qed.

(** C10: when no record has an end time, the summary is the single line
    "No completed upgrades found for statistics" and the function returns;
    no duration, quotient or extremum is computed. *)
Theorem stats_without_completed (upgrades : list UpgradeEvent) :
  Forall (fun u => end_time u = None) upgrades ->
  Stats.completed_durations upgrades = [] /\
  Stats.calculate_upgrade_stats upgrades
  = Returned [Stats.Text "No completed upgrades found for statistics"].
Proof.
  intros H. unfold Stats.calculate_upgrade_stats.
  rewrite (no_completed_durations _ H). auto.
Qed.

Lemma stats_without_completed_witness :
  Stats.completed_durations [gw1_running; gw2_running] = [] /\
  Stats.calculate_upgrade_stats [gw1_running; gw2_running]
  = Returned [Stats.Text "No completed upgrades found for statistics"].
Proof.
  apply (stats_without_completed [gw1_running; gw2_running]).
  repeat constructor.
Defined.

(** ** The end-to-end example *)

(** C3, as stated, fails: the two timestamps of the example are 300.1
    seconds apart, not 300.0, so the record lasts more than five minutes;
    and a duration of exactly five minutes is counted under "2-5m", the
    bounds being inclusive above, not under "5-10m". *)
Lemma example_duration_is_not_300_seconds :
  fst (parse_logs __init__ [ex_start; ex_complete]) = Returned [gw1_done] /\
  end_time gw1_done = Some t_complete /\
  ~ (total_seconds (Datetime.sub t_complete (start_time gw1_done)) == 300)%Q /\
  ~ (Stats.duration_minutes gw1_done t_complete == 5)%Q /\
  Stats.bucket_counts [5%Q] = [0; 1; 0; 0; 0; 0; 0].
Proof.
  split; [vm_compute; reflexivity|].
  split; [reflexivity|].
  split; [vm_compute; discriminate|].
  split; [vm_compute; discriminate|].
  vm_compute. reflexivity.
Qed.

(** C3, amended: the two lines of the example give exactly one record, for
    gw-1, complete, lasting 300.1 seconds, that is 3001/600 minutes; the
    summary counts it under "5-10m" (100 percent) and nowhere else; its bar
    has the colour of completed upgrades, starts at 0 and is as wide as the
    chart area, 950. *)
Theorem example_end_to_end :
  fst (parse_logs __init__ [ex_start; ex_complete]) = Returned [gw1_done] /\
  gateway_name gw1_done = "gw-1" /\
  status gw1_done = "complete" /\
  end_time gw1_done = Some t_complete /\
  (total_seconds (Datetime.sub t_complete (start_time gw1_done)) == 3001 # 10)%Q /\
  (Stats.duration_minutes gw1_done t_complete == 3001 # 600)%Q /\
  Stats.bucket_counts [Stats.duration_minutes gw1_done t_complete] = [0; 0; 1; 0; 0; 0; 0] /\
  exists report ticks b,
    main [ex_start; ex_complete]
    = Returned (Success report
                  (Chart.Timeline 1200 800 "Gateway Upgrade Timeline" ticks [b])) /\
    In (Stats.Bucket "5-10m" 1 100) report /\
    Chart.bar_fill b = Chart.color_complete /\
    (Chart.bar_x b == 0)%Q /\
    (Chart.bar_width b == inject_Z (1200 - Chart.margin_left - Chart.margin_right))%Q /\
    (Chart.bar_width b == 950)%Q.
Proof.
  split; [vm_compute; reflexivity|].
  do 3 (split; [reflexivity|]).
  do 3 (split; [vm_compute; reflexivity|]).
  eexists _, _, _. split; [vm_compute; reflexivity|].
  split; [cbn [In]; do 16 right; left; reflexivity|].
  repeat split; vm_compute; reflexivity.
Qed.

(** * Further properties *)

(** ** The branches of [parse_line] *)

Lemma set_set_same (k : string) (v v' : UpgradeEvent) (d : Dict.t) :
  Dict.set k v (Dict.set k v' d) = Dict.set k v d.
Proof.
  induction d as [|[k0 v0] d IH]; simpl.
  - now rewrite String.eqb_refl.
  - destruct (String.eqb k0 k) eqn:E; simpl; rewrite E; [reflexivity | now rewrite IH].
Qed.

Lemma keys_set_present (k : string) (v u : UpgradeEvent) (d : Dict.t) :
  Dict.get k d = Some u -> Dict.keys (Dict.set k v d) = Dict.keys d.
Proof. intros H. rewrite keys_set. unfold Dict.mem. now rewrite H. Qed.

Lemma parse_line_installing (self : LogParser) (line : string) (ts : datetime) (g : string) :
  installing_line line ts g ->
  parse_line self line
  = (Returned tt,
     if negb (Dict.mem g (upgrades self))
     then mk_parser
            (Dict.set g (new_event g ts "(detected from installing status)")
               (upgrades self))
            (overall_start_time self)
     else self).
Proof.
  intros (Hts & Hre & Hst & m & Hm & <-). unfold parse_line. cbv zeta.
  rewrite (timestamp_not_empty _ _ Hts), Hts, Hre, Hst, Hm.
  now destruct (negb _).
Qed.

(** X1: an explicit start line stores a fresh open record for its gateway,
    whatever was held for it before (a completed record included); the
    gateway keeps its place in the order if it had one and goes last
    otherwise; no other entry and no other field of the parser changes. *)
Theorem start_overwrites (self : LogParser) (line : string) (ts : datetime) (g v : string) :
  start_line line ts g v ->
  fst (parse_line self line) = Returned tt /\
  Dict.get g (upgrades (snd (parse_line self line)))
  = Some (mk_event g ts None (Str.strip v) "in_progress") /\
  (forall k, k <> g ->
     Dict.get k (upgrades (snd (parse_line self line))) = Dict.get k (upgrades self)) /\
  Dict.keys (upgrades (snd (parse_line self line)))
  = (if Dict.mem g (upgrades self) then Dict.keys (upgrades self)
     else (Dict.keys (upgrades self) ++ [g])%list) /\
  overall_start_time (snd (parse_line self line)) = overall_start_time self.
Proof.
  intros H. rewrite (parse_line_start _ _ _ _ _ H). simpl. repeat split.
  - apply get_set_same.
  - intros k Hk. now apply get_set_other.
  - apply keys_set.
Qed.

Lemma start_overwrites_witness :
  fst (parse_line (mk_parser [("gw-1", gw1_done); ("gw-2", gw2_running)] None) ex_restart)
  = Returned tt /\
  Dict.get "gw-1" (upgrades (snd (parse_line
     (mk_parser [("gw-1", gw1_done); ("gw-2", gw2_running)] None) ex_restart)))
  = Some (mk_event "gw-1" t_later None (Str.strip " 8.1.0-1000.1700") "in_progress") /\
  (forall k, k <> "gw-1" ->
     Dict.get k (upgrades (snd (parse_line
        (mk_parser [("gw-1", gw1_done); ("gw-2", gw2_running)] None) ex_restart)))
     = Dict.get k (upgrades (mk_parser [("gw-1", gw1_done); ("gw-2", gw2_running)] None))) /\
  Dict.keys (upgrades (snd (parse_line
     (mk_parser [("gw-1", gw1_done); ("gw-2", gw2_running)] None) ex_restart)))
  = (if Dict.mem "gw-1" (upgrades (mk_parser [("gw-1", gw1_done); ("gw-2", gw2_running)] None))
     then Dict.keys (upgrades (mk_parser [("gw-1", gw1_done); ("gw-2", gw2_running)] None))
     else (Dict.keys (upgrades (mk_parser [("gw-1", gw1_done); ("gw-2", gw2_running)] None))
           ++ ["gw-1"])%list) /\
  overall_start_time (snd (parse_line
     (mk_parser [("gw-1", gw1_done); ("gw-2", gw2_running)] None) ex_restart))
  = overall_start_time (mk_parser [("gw-1", gw1_done); ("gw-2", gw2_running)] None).
Proof.
  apply (start_overwrites (mk_parser [("gw-1", gw1_done); ("gw-2", gw2_running)] None)
           ex_restart t_later "gw-1" " 8.1.0-1000.1700").
  repeat split; try (vm_compute; reflexivity).
  eexists. split; [vm_compute; reflexivity | split; reflexivity].
Defined.

(** X2: an installing line never touches a gateway that already has a
    record, open or complete: the parser is left exactly as it was. *)
Theorem installing_keeps_known_gateway (self : LogParser) (line : string) (ts : datetime)
    (g : string) (u : UpgradeEvent) :
  installing_line line ts g ->
  Dict.get g (upgrades self) = Some u ->
  parse_line self line = (Returned tt, self).
Proof.
  intros H Hu. rewrite (parse_line_installing _ _ _ _ H).
  unfold Dict.mem. now rewrite Hu.
Qed.

Lemma installing_keeps_known_gateway_witness :
  parse_line (mk_parser [("gw-1", gw1_done); ("gw-2", gw2_running)] None) ex_installing
  = (Returned tt, mk_parser [("gw-1", gw1_done); ("gw-2", gw2_running)] None).
Proof.
  apply (installing_keeps_known_gateway
           (mk_parser [("gw-1", gw1_done); ("gw-2", gw2_running)] None)
           ex_installing t_later "gw-2" gw2_running).
  - repeat split; try (vm_compute; reflexivity).
    eexists. split; [vm_compute; reflexivity | reflexivity].
  - reflexivity.
Defined.

(** X3: an installing line for a gateway without a record appends an open
    record that starts at the line's timestamp and carries the note
    "(detected from installing status)"; the entries already held keep
    their values and their order. *)
Theorem installing_creates_unknown_gateway (self : LogParser) (line : string)
    (ts : datetime) (g : string) :
  installing_line line ts g ->
  Dict.get g (upgrades self) = None ->
  parse_line self line
  = (Returned tt,
     mk_parser
       (upgrades self
        ++ [(g, mk_event g ts None "(detected from installing status)" "in_progress")])%list
       (overall_start_time self)).
Proof.
  intros H Hnone. rewrite (parse_line_installing _ _ _ _ H).
  unfold Dict.mem. rewrite Hnone. simpl. do 2 f_equal.
  induction (upgrades self) as [|[k0 v0] d IH]; [reflexivity|].
  simpl in *. destruct (String.eqb k0 g); [discriminate|]. now rewrite IH.
Qed.

Lemma installing_creates_unknown_gateway_witness :
  parse_line (mk_parser [("gw-1", gw1_done)] None) ex_installing
  = (Returned tt,
     mk_parser
       (upgrades (mk_parser [("gw-1", gw1_done)] None)
        ++ [("gw-2", mk_event "gw-2" t_later None "(detected from installing status)"
                       "in_progress")])%list
       (overall_start_time (mk_parser [("gw-1", gw1_done)] None))).
Proof.
  apply (installing_creates_unknown_gateway (mk_parser [("gw-1", gw1_done)] None)
           ex_installing t_later "gw-2").
  - repeat split; try (vm_compute; reflexivity).
    eexists. split; [vm_compute; reflexivity | reflexivity].
  - reflexivity.
Defined.

(** X4: a completion line for a gateway whose record is not yet complete
    sets the end time to the line's timestamp and the status to
    "complete", appends " -> " and the current version to the note, and
    keeps the name and the start time; the order of the keys, the other
    entries and the generation start time stay as they were. *)
Theorem completion_closes_open_record (self : LogParser) (line : string) (ts : datetime)
    (g v : string) (u : UpgradeEvent) :
  completion_line line ts g v ->
  Dict.get g (upgrades self) = Some u ->
  status u <> "complete" ->
  fst (parse_line self line) = Returned tt /\
  Dict.get g (upgrades (snd (parse_line self line)))
  = Some (mk_event (gateway_name u) (start_time u) (Some ts)
            (version_info u ++ " -> " ++ v) "complete") /\
  (forall k, k <> g ->
     Dict.get k (upgrades (snd (parse_line self line))) = Dict.get k (upgrades self)) /\
  Dict.keys (upgrades (snd (parse_line self line))) = Dict.keys (upgrades self) /\
  overall_start_time (snd (parse_line self line)) = overall_start_time self.
Proof.
  intros H Hu Hs. rewrite (parse_line_completion _ _ _ _ _ H).
  unfold complete_upgrade. rewrite Hu.
  destruct (String.eqb_spec (status u) "complete") as [E|_]; [contradiction|].
  simpl. repeat split.
  - apply get_set_same.
  - intros k Hk. now apply get_set_other.
  - now apply (keys_set_present _ _ u).
Qed.

Lemma completion_closes_open_record_witness :
  fst (parse_line (mk_parser [("gw-1", gw1_running)] None) ex_complete) = Returned tt /\
  Dict.get "gw-1" (upgrades (snd (parse_line (mk_parser [("gw-1", gw1_running)] None)
                                    ex_complete)))
  = Some (mk_event (gateway_name gw1_running) (start_time gw1_running) (Some t_complete)
            (version_info gw1_running ++ " -> " ++ "8.1.0-1000.1600") "complete") /\
  (forall k, k <> "gw-1" ->
     Dict.get k (upgrades (snd (parse_line (mk_parser [("gw-1", gw1_running)] None)
                                  ex_complete)))
     = Dict.get k (upgrades (mk_parser [("gw-1", gw1_running)] None))) /\
  Dict.keys (upgrades (snd (parse_line (mk_parser [("gw-1", gw1_running)] None) ex_complete)))
  = Dict.keys (upgrades (mk_parser [("gw-1", gw1_running)] None)) /\
  overall_start_time (snd (parse_line (mk_parser [("gw-1", gw1_running)] None) ex_complete))
  = overall_start_time (mk_parser [("gw-1", gw1_running)] None).
Proof.
  apply (completion_closes_open_record (mk_parser [("gw-1", gw1_running)] None)
           ex_complete t_complete "gw-1" "8.1.0-1000.1600" gw1_running).
  - repeat split; try (vm_compute; reflexivity).
    eexists. split; [vm_compute; reflexivity | split; reflexivity].
  - reflexivity.
  - vm_compute. discriminate.
Defined.

(** X5: a timestamped line that carries none of the four markers is
    skipped: the call returns and the parser is unchanged. *)
Theorem unmarked_line_is_skipped (self : LogParser) (line : string) (ts : datetime) :
  unmarked_line line ts ->
  parse_line self line = (Returned tt, self).
Proof.
  intros (Hts & Hre & Hst & Hin & Hco). unfold parse_line. cbv zeta.
  now rewrite (timestamp_not_empty _ _ Hts), Hts, Hre, Hst, Hin, Hco.
Qed.

Lemma unmarked_line_is_skipped_witness :
  parse_line (mk_parser [("gw-1", gw1_running)] (Some t_reset)) ex_noise
  = (Returned tt, mk_parser [("gw-1", gw1_running)] (Some t_reset)).
Proof.
  apply (unmarked_line_is_skipped (mk_parser [("gw-1", gw1_running)] (Some t_reset))
           ex_noise t_later).
  repeat split; vm_compute; reflexivity.
Defined.

(** X6: ingesting any line a second time, right after the first, changes
    nothing more: the result and the parser are those of the first call.
    This holds for every line and every state, whichever branch is taken. *)
Theorem parse_line_idempotent (self : LogParser) (line : string) :
  parse_line (snd (parse_line self line)) line = parse_line self line.
Proof.
  unfold parse_line. cbv zeta.
  destruct (Str.is_empty (Str.strip line)); [reflexivity|].
  destruct (parse_timestamp (Str.strip line)) as [[ts|]|e]; [|reflexivity|reflexivity].
  destruct (Re.search overall_start_pattern _); [reflexivity|].
  destruct (Re.search upgrade_start_pattern _) as [m|].
  { simpl. now rewrite set_set_same. }
  destruct (Re.search upgrade_installing_pattern _) as [m|].
  { destruct (Dict.mem (Re.group 1 m) (upgrades self)) eqn:E; simpl.
    - now rewrite E.
    - unfold Dict.mem. now rewrite get_set_same. }
  destruct (Re.search upgrade_complete_pattern _) as [m|]; [|reflexivity].
  simpl. now rewrite complete_upgrade_twice.
Qed.

(** ** What every reachable parser satisfies *)

Lemma fromisoformat_valid (s : string) (d : datetime) :
  fromisoformat s = Returned d -> valid d = true.
Proof.
  unfold fromisoformat, bind. intros H.
  repeat match type of H with
         | context [match ?x with _ => _ end] => destruct x; try discriminate
         end.
  unfold make in H.
  match type of H with
  | context [valid ?x] => destruct (valid x) eqn:E; [|discriminate]
  end.
  now injection H as <-.
Qed.

Lemma parse_timestamp_valid (line : string) (ts : datetime) :
  parse_timestamp line = Returned (Some ts) -> valid ts = true.
Proof.
  unfold parse_timestamp.
  destruct (Re.match_ timestamp_pattern line) as [m|]; [|discriminate].
  destruct (fromisoformat (Str.replace _ _ _)) as [d|e] eqn:E1.
  - intros H. injection H as <-. exact (fromisoformat_valid _ _ E1).
  - destruct e; try discriminate. unfold bind.
    destruct (fromisoformat (Re.group 1 m)) as [d|e] eqn:E2; [|discriminate].
    intros H. injection H as <-. exact (fromisoformat_valid _ _ E2).
Qed.

Lemma coherent_set (k : string) (v : UpgradeEvent) (d : Dict.t) :
  coherent v ->
  Forall (fun kv => coherent (snd kv)) d ->
  Forall (fun kv => coherent (snd kv)) (Dict.set k v d).
Proof.
  intros Hv. induction 1 as [|[k0 v0] d H0 Hd IH]; simpl.
  - constructor; [exact Hv | constructor].
  - destruct (String.eqb k0 k); constructor; auto.
Qed.

Lemma parse_line_coherent (self : LogParser) (line : string) :
  Forall (fun kv => coherent (snd kv)) (upgrades self) ->
  Forall (fun kv => coherent (snd kv)) (upgrades (snd (parse_line self line))).
Proof.
  intros H. unfold parse_line. cbv zeta.
  destruct (Str.is_empty (Str.strip line)); [assumption|].
  destruct (parse_timestamp (Str.strip line)) as [[ts|]|e] eqn:Hts;
    [| assumption | assumption].
  apply parse_timestamp_valid in Hts.
  destruct (Re.search overall_start_pattern _); [constructor|].
  destruct (Re.search upgrade_start_pattern _).
  { apply coherent_set; [|assumption]. split; [assumption | now left]. }
  destruct (Re.search upgrade_installing_pattern _).
  { destruct (negb _); [|assumption].
    apply coherent_set; [|assumption]. split; [assumption | now left]. }
  destruct (Re.search upgrade_complete_pattern _) as [m|]; [|assumption].
  simpl. unfold complete_upgrade.
  destruct (Dict.get (Re.group 1 m) (upgrades self)) as [u|] eqn:E.
  - destruct (negb _); [|assumption]. simpl.
    apply coherent_set; [|assumption].
    apply get_in in E. rewrite Forall_forall in H. destruct (H _ E) as [Hv _].
    split; [exact Hv | right; split; [reflexivity | now exists ts]].
  - simpl. apply coherent_set; [|assumption].
    split; [exact Hts | right; split; [reflexivity | now exists ts]].
Qed.

Lemma ingest_coherent (input_stream : list string) (self : LogParser) :
  Forall (fun kv => coherent (snd kv)) (upgrades self) ->
  Forall (fun kv => coherent (snd kv)) (upgrades (snd (ingest self input_stream))).
Proof.
  revert self. induction input_stream as [|line rest IH]; intros self H; [assumption|].
  simpl. pose proof (parse_line_coherent self line H) as H'.
  destruct (parse_line self line) as [[[]|e] self']; simpl in *; auto.
Qed.

(** X7: whatever the input, the parser that started empty holds at most
    one record per gateway, each stored under its own name, each with
    calendar-valid times, and each with an end time exactly when its status
    is "complete" (otherwise the status is "in_progress" and there is no
    end time); the records [parse_logs] returns have the same properties. *)
Theorem reachable_records_are_coherent (input_stream : list string) :
  NoDup (Dict.keys (upgrades (snd (ingest __init__ input_stream)))) /\
  Forall (fun kv => gateway_name (snd kv) = fst kv /\ coherent (snd kv))
    (upgrades (snd (ingest __init__ input_stream))) /\
  match fst (parse_logs __init__ input_stream) with
  | Returned out => Forall coherent out /\ NoDup (map gateway_name out)
  | Raised _ => True
  end.
Proof.
  assert (Hwk : well_keyed (upgrades (snd (ingest __init__ input_stream)))).
  { apply ingest_well_keyed. split; constructor. }
  assert (Hco : Forall (fun kv => coherent (snd kv))
                  (upgrades (snd (ingest __init__ input_stream)))).
  { apply ingest_coherent. constructor. }
  split; [apply Hwk|]. split.
  - destruct Hwk as [_ Hn]. rewrite Forall_forall in *. intros kv Hkv. auto.
  - unfold parse_logs.
    destruct (ingest __init__ input_stream) as [[[]|e] self']; simpl in *; [|exact I].
    split.
    + apply (Permutation_Forall (sorted_by_start_perm _)).
      unfold Dict.values. rewrite Forall_map. exact Hco.
    + apply (Permutation_NoDup (Permutation_map _ (sorted_by_start_perm _))).
      rewrite (well_keyed_names _ Hwk). apply Hwk.
Qed.

(** ** Streams: composition, errors and resets *)

Lemma parse_line_raise_state (self : LogParser) (line : string) (e : exn) :
  fst (parse_line self line) = Raised e -> snd (parse_line self line) = self.
Proof.
  unfold parse_line. cbv zeta.
  destruct (Str.is_empty (Str.strip line)); [reflexivity|].
  destruct (parse_timestamp (Str.strip line)) as [[ts|]|e']; [| reflexivity | reflexivity].
  destruct (Re.search overall_start_pattern _); [discriminate|].
  destruct (Re.search upgrade_start_pattern _); [discriminate|].
  destruct (Re.search upgrade_installing_pattern _).
  { now destruct (negb _). }
  now destruct (Re.search upgrade_complete_pattern _).
Qed.

Lemma ingest_app (before after : list string) (self : LogParser) :
  fst (ingest self before) = Returned tt ->
  ingest self (before ++ after) = ingest (snd (ingest self before)) after.
Proof.
  revert self. induction before as [|line rest IH]; intros self H; [reflexivity|].
  simpl in *. destruct (parse_line self line) as [[[]|e] self']; [|discriminate].
  now apply IH.
Qed.

(** X8: the first line whose timestamp cannot be built ends the run: the
    error leaves [parse_logs], no record list is returned, the lines after
    it are never looked at, and the parser stays as the lines before it
    left it. *)
Theorem ingest_stops_at_first_error (self : LogParser) (before after : list string)
    (bad : string) (e : exn) :
  fst (ingest self before) = Returned tt ->
  fst (parse_line (snd (ingest self before)) bad) = Raised e ->
  ingest self (before ++ bad :: after) = (Raised e, snd (ingest self before)) /\
  parse_logs self (before ++ bad :: after) = (Raised e, snd (ingest self before)).
Proof.
  intros Hb Hbad.
  assert (H : ingest self (before ++ bad :: after) = (Raised e, snd (ingest self before))).
  { rewrite (ingest_app _ _ _ Hb). simpl.
    pose proof (parse_line_raise_state _ _ _ Hbad) as Hs.
    destruct (parse_line (snd (ingest self before)) bad) as [r s']. simpl in *.
    now subst. }
  split; [exact H|]. unfold parse_logs. now rewrite H.
Qed.

Lemma ingest_stops_at_first_error_witness :
  ingest __init__ ([ex_start] ++ ex_month13 :: [ex_complete; ex_reset])
  = (Raised ValueError, snd (ingest __init__ [ex_start])) /\
  parse_logs __init__ ([ex_start] ++ ex_month13 :: [ex_complete; ex_reset])
  = (Raised ValueError, snd (ingest __init__ [ex_start])).
Proof.
  apply (ingest_stops_at_first_error __init__ [ex_start] [ex_complete; ex_reset]
           ex_month13 ValueError); vm_compute; reflexivity.
Defined.

(** X9: a reset line starts over: what [parse_logs] returns for a stream
    depends only on the reset line's timestamp and on the lines after it,
    not on the parser's earlier state nor on the lines before it. *)
Theorem reset_forgets_history (self : LogParser) (before after : list string)
    (line : string) (ts : datetime) :
  fst (ingest self before) = Returned tt ->
  reset_line line ts ->
  ingest self (before ++ line :: after) = ingest (mk_parser [] (Some ts)) after /\
  parse_logs self (before ++ line :: after) = parse_logs (mk_parser [] (Some ts)) after.
Proof.
  intros Hb Hr.
  assert (H : ingest self (before ++ line :: after) = ingest (mk_parser [] (Some ts)) after).
  { rewrite (ingest_app _ _ _ Hb). simpl. now rewrite (parse_line_reset _ _ _ Hr). }
  split; [exact H|]. unfold parse_logs. now rewrite H.
Qed.

Lemma reset_forgets_history_witness :
  ingest (mk_parser [("gw-2", gw2_running)] None)
    ([ex_start; ex_complete] ++ ex_reset :: [ex_installing])
  = ingest (mk_parser [] (Some t_reset)) [ex_installing] /\
  parse_logs (mk_parser [("gw-2", gw2_running)] None)
    ([ex_start; ex_complete] ++ ex_reset :: [ex_installing])
  = parse_logs (mk_parser [] (Some t_reset)) [ex_installing].
Proof.
  apply (reset_forgets_history (mk_parser [("gw-2", gw2_running)] None)
           [ex_start; ex_complete] [ex_installing] ex_reset t_reset).
  - vm_compute. reflexivity.
  - split; vm_compute; [reflexivity | discriminate].
Defined.

(** ** The statistics *)

Lemma within_mono (d a b : Q) :
  Qle_bool d a = true -> (a <= b)%Q -> Qle_bool d b = true.
Proof.
  intros H Hab. apply Qle_bool_iff in H. apply Qle_bool_iff. lra.
Qed.

Ltac bounds_clash :=
  match goal with
  | H : Qle_bool ?d ?a = true, H' : Qle_bool ?d ?b = false |- _ =>
      solve [rewrite (within_mono d a b H) in H'; [discriminate | lra]]
  end.

Lemma place_step (d : Q) (c0 c1 c2 c3 c4 c5 c6 : Z) :
  Stats.place d 0 (tl Stats.buckets) [c0; c1; c2; c3; c4; c5; c6]
  = [c0 + tally 0 [d]; c1 + tally 1 [d]; c2 + tally 2 [d]; c3 + tally 3 [d];
     c4 + tally 4 [d]; c5 + tally 5 [d]; c6 + tally 6 [d]].
Proof.
  unfold tally, in_bucket.
  cbn [Stats.place Stats.buckets tl nth Stats.within filter andb negb].
  destruct (Qle_bool d 2) eqn:E2, (Qle_bool d 5) eqn:E5, (Qle_bool d 10) eqn:E10,
    (Qle_bool d 15) eqn:E15, (Qle_bool d 30) eqn:E30, (Qle_bool d 60) eqn:E60;
    try bounds_clash;
    cbn [Stats.increment andb negb length Z.of_nat]; repeat f_equal; lia.
Qed.

Lemma tally_cons (i : nat) (d : Q) (ds : list Q) :
  tally i (d :: ds) = tally i [d] + tally i ds.
Proof.
  unfold tally. cbn [filter]. destruct (in_bucket i d); cbn [length]; lia.
Qed.

Lemma tally_one (d : Q) :
  tally 0 [d] + tally 1 [d] + tally 2 [d] + tally 3 [d] + tally 4 [d] + tally 5 [d]
  + tally 6 [d] = 1.
Proof.
  unfold tally, in_bucket.
  cbn [Stats.buckets tl nth Stats.within filter andb negb].
  destruct (Qle_bool d 2) eqn:E2, (Qle_bool d 5) eqn:E5, (Qle_bool d 10) eqn:E10,
    (Qle_bool d 15) eqn:E15, (Qle_bool d 30) eqn:E30, (Qle_bool d 60) eqn:E60;
    try bounds_clash; reflexivity.
Qed.

Lemma fold_place (ds : list Q) (c0 c1 c2 c3 c4 c5 c6 : Z) :
  fold_left (fun counts duration => Stats.place duration 0 (tl Stats.buckets) counts)
    ds [c0; c1; c2; c3; c4; c5; c6]
  = [c0 + tally 0 ds; c1 + tally 1 ds; c2 + tally 2 ds; c3 + tally 3 ds;
     c4 + tally 4 ds; c5 + tally 5 ds; c6 + tally 6 ds].
Proof.
  revert c0 c1 c2 c3 c4 c5 c6. induction ds as [|d ds IH]; intros; cbn [fold_left].
  - unfold tally. cbn [filter length Z.of_nat].
    repeat (apply (f_equal2 (@cons Z)); [lia|]). reflexivity.
  - rewrite place_step, IH, !(tally_cons _ d ds).
    repeat (apply (f_equal2 (@cons Z)); [lia|]). reflexivity.
Qed.

Lemma bucket_counts_tally (durations : list Q) :
  Stats.bucket_counts durations
  = [tally 0 durations; tally 1 durations; tally 2 durations; tally 3 durations;
     tally 4 durations; tally 5 durations; tally 6 durations].
Proof.
  unfold Stats.bucket_counts. cbn [map Stats.bucket_labels]. apply fold_place.
Qed.

Lemma tally_sum (durations : list Q) :
  tally 0 durations + tally 1 durations + tally 2 durations + tally 3 durations
  + tally 4 durations + tally 5 durations + tally 6 durations
  = Z.of_nat (length durations).
Proof.
  induction durations as [|d ds IH]; [reflexivity|].
  rewrite !(tally_cons _ d ds). pose proof (tally_one d). cbn [length]. lia.
Qed.

(** X10: the histogram of [calculate_upgrade_stats] counts, under "<2m",
    every duration of at most 2 minutes (negative ones included: the 0 that
    heads [buckets] is never consulted) and, under each later label, the
    durations above the previous bound and at most its own, so a duration
    that equals a bound is counted below it; ">60m" takes the rest. *)
Theorem bucket_counts_histogram (durations : list Q) :
  Stats.bucket_counts durations
  = map (fun i => Z.of_nat (length (filter (in_bucket i) durations)))
      [0; 1; 2; 3; 4; 5; 6]%nat /\
  (forall d, in_bucket 0 d = Qle_bool d 2) /\
  (forall d, in_bucket 1 d = Qle_bool d 5 && negb (Qle_bool d 2)) /\
  (forall d, in_bucket 2 d = Qle_bool d 10 && negb (Qle_bool d 5)) /\
  (forall d, in_bucket 3 d = Qle_bool d 15 && negb (Qle_bool d 10)) /\
  (forall d, in_bucket 4 d = Qle_bool d 30 && negb (Qle_bool d 15)) /\
  (forall d, in_bucket 5 d = Qle_bool d 60 && negb (Qle_bool d 30)) /\
  (forall d, in_bucket 6 d = negb (Qle_bool d 60)).
Proof.
  split; [exact (bucket_counts_tally durations)|].
  repeat split; intros d; unfold in_bucket;
    cbn [Stats.buckets tl nth Stats.within andb]; try reflexivity.
  now rewrite andb_true_r.
Qed.

(** X11: every duration is counted under exactly one label: there are as
    many counters as labels, none is negative, and they add up to the
    number of durations. *)
Theorem bucket_counts_total (durations : list Q) :
  length (Stats.bucket_counts durations) = length Stats.bucket_labels /\
  Forall (fun c => 0 <= c) (Stats.bucket_counts durations) /\
  Zsum (Stats.bucket_counts durations) = Z.of_nat (length durations).
Proof.
  rewrite bucket_counts_tally. split; [reflexivity|]. split.
  - repeat constructor; unfold tally; lia.
  - cbn [Zsum fold_right]. pose proof (tally_sum durations). lia.
Qed.

Lemma scan_min_map {A B : Type} (lt : B -> B -> bool) (f : A -> B) (l : list A) (best : A) :
  scan_min lt (f best) (map f l) = f (scan_min (fun a b => lt (f a) (f b)) best l).
Proof.
  revert best. induction l as [|x l IH]; intros best; simpl; [reflexivity|].
  rewrite <- IH. now destruct (lt (f x) (f best)).
Qed.

Lemma scan_max_map {A B : Type} (lt : B -> B -> bool) (f : A -> B) (l : list A) (best : A) :
  scan_max lt (f best) (map f l) = f (scan_max (fun a b => lt (f a) (f b)) best l).
Proof.
  revert best. induction l as [|x l IH]; intros best; simpl; [reflexivity|].
  rewrite <- IH. now destruct (lt (f best) (f x)).
Qed.

Lemma Qltb_cases (a b : Q) :
  (Qltb a b = true /\ (a < b)%Q) \/ (Qltb a b = false /\ (b <= a)%Q).
Proof.
  unfold Qltb. destruct (Qle_bool b a) eqn:E.
  - right. split; [reflexivity|]. now apply Qle_bool_iff.
  - left. split; [reflexivity|]. apply Qnot_le_lt. intros H.
    apply Qle_bool_iff in H. congruence.
Qed.

Lemma scan_min_Q_lower (l : list Q) (best : Q) :
  forall x, In x (best :: l) -> (scan_min Qltb best l <= x)%Q.
Proof.
  revert best. induction l as [|y l IH]; intros best x Hx; simpl.
  - destruct Hx as [<-|[]]. lra.
  - destruct (Qltb_cases y best) as [[-> Hlt]|[-> Hge]].
    + destruct Hx as [<-|[<-|Hx]].
      * pose proof (IH y y (or_introl eq_refl)). lra.
      * apply IH. now left.
      * apply IH. now right.
    + destruct Hx as [<-|[<-|Hx]].
      * apply IH. now left.
      * pose proof (IH best best (or_introl eq_refl)). lra.
      * apply IH. now right.
Qed.

Lemma scan_max_Q_upper (l : list Q) (best : Q) :
  forall x, In x (best :: l) -> (x <= scan_max Qltb best l)%Q.
Proof.
  revert best. induction l as [|y l IH]; intros best x Hx; simpl.
  - destruct Hx as [<-|[]]. lra.
  - destruct (Qltb_cases best y) as [[-> Hlt]|[-> Hge]].
    + destruct Hx as [<-|[<-|Hx]].
      * pose proof (IH y y (or_introl eq_refl)). lra.
      * apply IH. now left.
      * apply IH. now right.
    + destruct Hx as [<-|[<-|Hx]].
      * apply IH. now left.
      * pose proof (IH best best (or_introl eq_refl)). lra.
      * apply IH. now right.
Qed.




(** The report for at least one completed upgrade, line by line. *)
Lemma stats_report (upgrades : list UpgradeEvent) (p : string * Q) (l : list (string * Q)) :
  Stats.completed_durations upgrades = p :: l ->
  Stats.calculate_upgrade_stats upgrades
  = Returned
      [Stats.Text Stats.rule; Stats.Text "UPGRADE TIME STATISTICS"; Stats.Text Stats.rule;
       Stats.Count "Total upgrades" (Z.of_nat (length upgrades));
       Stats.Count "Completed upgrades" (Z.of_nat (length (p :: l)));
       Stats.Count "In-progress upgrades"
         (Z.of_nat (length upgrades) - Z.of_nat (length (p :: l)));
       Stats.Text "";
       Stats.Text "Duration Statistics (minutes):";
       Stats.Extreme "Minimum"
         (snd (scan_min (fun x y => Qltb (snd x) (snd y)) p l))
         (fst (scan_min (fun x y => Qltb (snd x) (snd y)) p l));
       Stats.Extreme "Maximum"
         (snd (scan_max (fun x y => Qltb (snd x) (snd y)) p l))
         (fst (scan_max (fun x y => Qltb (snd x) (snd y)) p l));
       Stats.Average (Qsum (map snd (p :: l)) / len (map snd (p :: l)))%Q;
       Stats.StdDev
         (Qsum (map (fun d => (d - Qsum (map snd (p :: l)) / len (map snd (p :: l)))
                              * (d - Qsum (map snd (p :: l)) / len (map snd (p :: l))))%Q
                  (map snd (p :: l)))
          / len (map snd (p :: l)))%Q;
       Stats.Text "";
       Stats.Text "Duration Distribution:";
       Stats.Bucket "<2m" (tally 0 (map snd (p :: l)))
         (inject_Z (tally 0 (map snd (p :: l))) / len (map snd (p :: l)) * 100)%Q;
       Stats.Bucket "2-5m" (tally 1 (map snd (p :: l)))
         (inject_Z (tally 1 (map snd (p :: l))) / len (map snd (p :: l)) * 100)%Q;
       Stats.Bucket "5-10m" (tally 2 (map snd (p :: l)))
         (inject_Z (tally 2 (map snd (p :: l))) / len (map snd (p :: l)) * 100)%Q;
       Stats.Bucket "10-15m" (tally 3 (map snd (p :: l)))
         (inject_Z (tally 3 (map snd (p :: l))) / len (map snd (p :: l)) * 100)%Q;
       Stats.Bucket "15-30m" (tally 4 (map snd (p :: l)))
         (inject_Z (tally 4 (map snd (p :: l))) / len (map snd (p :: l)) * 100)%Q;
       Stats.Bucket "30-60m" (tally 5 (map snd (p :: l)))
         (inject_Z (tally 5 (map snd (p :: l))) / len (map snd (p :: l)) * 100)%Q;
       Stats.Bucket ">60m" (tally 6 (map snd (p :: l)))
         (inject_Z (tally 6 (map snd (p :: l))) / len (map snd (p :: l)) * 100)%Q;
       Stats.Text Stats.rule].
Proof.
  intros H. unfold Stats.calculate_upgrade_stats. rewrite H.
  rewrite bucket_counts_tally.
  cbn [map py_min py_max bind combine Stats.bucket_labels Stats.distribution].
  unfold truediv. rewrite !len_positive. cbn [bind app].
  now rewrite <- (scan_min_map Qltb snd l p), <- (scan_max_map Qltb snd l p).
Qed.

Lemma in_map_snd (g : string) (d : Q) (l : list (string * Q)) :
  In (g, d) l -> In d (map snd l).
Proof. intros H. now apply (in_map snd) in H. Qed.

(** X12: with at least one completed upgrade the report names, beside
    "Minimum" and "Maximum", a gateway and a duration that belong together
    in the list of completed upgrades, and no completed upgrade is shorter
    than the minimum or longer than the maximum. *)
Theorem stats_extremes (upgrades : list UpgradeEvent) :
  Stats.completed_durations upgrades <> [] ->
  exists report gmin dmin gmax dmax,
    Stats.calculate_upgrade_stats upgrades = Returned report /\
    nth_error report 8 = Some (Stats.Extreme "Minimum" dmin gmin) /\
    nth_error report 9 = Some (Stats.Extreme "Maximum" dmax gmax) /\
    In (gmin, dmin) (Stats.completed_durations upgrades) /\
    In (gmax, dmax) (Stats.completed_durations upgrades) /\
    (forall g d, In (g, d) (Stats.completed_durations upgrades) -> (dmin <= d <= dmax)%Q).
Proof.
  intros Hne. destruct (Stats.completed_durations upgrades) as [|p l] eqn:E; [contradiction|].
  set (lo := scan_min (fun x y => Qltb (snd x) (snd y)) p l).
  set (hi := scan_max (fun x y => Qltb (snd x) (snd y)) p l).
  eexists _, (fst lo), (snd lo), (fst hi), (snd hi).
  split; [exact (stats_report upgrades p l E)|].
  split; [reflexivity|]. split; [reflexivity|].
  split; [rewrite <- surjective_pairing; apply scan_min_in|].
  split; [rewrite <- surjective_pairing; apply scan_max_in|].
  intros g d Hin. apply in_map_snd in Hin. cbn [map] in Hin. split.
  - unfold lo. rewrite <- (scan_min_map Qltb snd l p). now apply scan_min_Q_lower.
  - unfold hi. rewrite <- (scan_max_map Qltb snd l p). now apply scan_max_Q_upper.
Qed.

Lemma stats_extremes_witness :
  exists report gmin dmin gmax dmax,
    Stats.calculate_upgrade_stats [gw2_running; gw1_done; gw1_retroactive] = Returned report /\
    nth_error report 8 = Some (Stats.Extreme "Minimum" dmin gmin) /\
    nth_error report 9 = Some (Stats.Extreme "Maximum" dmax gmax) /\
    In (gmin, dmin) (Stats.completed_durations [gw2_running; gw1_done; gw1_retroactive]) /\
    In (gmax, dmax) (Stats.completed_durations [gw2_running; gw1_done; gw1_retroactive]) /\
    (forall g d,
       In (g, d) (Stats.completed_durations [gw2_running; gw1_done; gw1_retroactive]) ->
       (dmin <= d <= dmax)%Q).
Proof.
  apply (stats_extremes [gw2_running; gw1_done; gw1_retroactive]).
  vm_compute. discriminate.
Defined.






(** ** The chart *)

Lemma total_duration_nonzero (lo hi : datetime) :
  Qeq_bool (Chart.total_duration_of lo hi) 0 = false.
Proof.
  unfold Chart.total_duration_of.
  destruct (Qeq_bool (total_seconds (Datetime.sub hi lo)) 0) eqn:E; [reflexivity | exact E].
Qed.

Lemma Qmax_ge_l (a b : Q) : (a <= Chart.Qmax a b)%Q.
Proof.
  unfold Chart.Qmax. destruct (Qltb_cases a b) as [[-> H]|[-> H]]; lra.
Qed.

Lemma Qmax_ge_r (a b : Q) : (b <= Chart.Qmax a b)%Q.
Proof.
  unfold Chart.Qmax. destruct (Qltb_cases a b) as [[-> H]|[-> H]]; lra.
Qed.

Lemma draw_bar_spec (cw : Z) (lo : datetime) (td : Q) (bh : Z) (ystep : Q) (i : Z)
    (u : UpgradeEvent) :
  Qeq_bool td 0 = false ->
  exists b,
    Chart.draw_bar cw lo td bh ystep i u = Returned b /\
    bar_drawn cw bh u b /\
    Chart.bar_y b = (inject_Z i * ystep + (ystep - inject_Z bh) / 2)%Q /\
    Chart.bar_x b = (total_seconds (Datetime.sub (start_time u) lo) / td * inject_Z cw)%Q.
Proof.
  intros Htd. unfold Chart.draw_bar, truediv, bar_drawn. rewrite Htd. cbn [bind].
  destruct (end_time u) as [e|]; cbn [bind fst snd]; eexists; (split; [reflexivity|]);
    cbn [Chart.bar_label Chart.bar_height Chart.bar_tooltip Chart.bar_fill Chart.bar_width
         Chart.bar_x Chart.bar_y]; repeat split.
  - apply Qmax_ge_l.
  - ring.
Qed.

Lemma draw_bars_spec (cw : Z) (lo : datetime) (td : Q) (bh : Z) (ystep : Q)
    (upgrades : list UpgradeEvent) :
  Qeq_bool td 0 = false ->
  forall i, exists bars,
    Chart.draw_bars cw lo td bh ystep i upgrades = Returned bars /\
    Forall2 (bar_drawn cw bh) upgrades bars /\
    (forall k b, nth_error bars k = Some b ->
       Chart.bar_y b = (inject_Z (i + Z.of_nat k) * ystep + (ystep - inject_Z bh) / 2)%Q) /\
    (forall k u b, nth_error upgrades k = Some u -> nth_error bars k = Some b ->
       Chart.bar_x b = (total_seconds (Datetime.sub (start_time u) lo) / td * inject_Z cw)%Q).
Proof.
  intros Htd. induction upgrades as [|u rest IH]; intros i.
  - exists []. split; [reflexivity|]. split; [constructor|].
    split; intros [|k]; discriminate.
  - destruct (draw_bar_spec cw lo td bh ystep i u Htd) as (b & Hb & Hd & Hy & Hx).
    destruct (IH (i + 1)) as (bars & Hbars & Hall & Hys & Hxs).
    exists (b :: bars). cbn [Chart.draw_bars]. rewrite Hb, Hbars. cbn [bind].
    split; [reflexivity|]. split; [now constructor|]. split.
    + intros [|k] b' Hk; cbn [nth_error] in Hk.
      * injection Hk as <-. now rewrite Z.add_0_r.
      * rewrite (Hys k b' Hk). do 3 f_equal. lia.
    + intros [|k] u' b' Hu Hk; cbn [nth_error] in Hu, Hk.
      * injection Hu as <-. now injection Hk as <-.
      * exact (Hxs k u' b' Hu Hk).
Qed.

Lemma draw_ticks_cons (cw : Z) (lo : datetime) (td : Q) (i : Z) (rest : list Z) :
  Chart.draw_ticks cw lo td (i :: rest)
  = bind (replace_microsecond lo 0) (fun base =>
    bind (add_hms base (timedelta_seconds (inject_Z i / 8 * td)))
      (fun label =>
    bind (Chart.draw_ticks cw lo td rest) (fun more =>
    Returned (Chart.mk_tick (inject_Z i / 8 * inject_Z cw)%Q label :: more)))).
Proof. reflexivity. Qed.

Lemma draw_ticks_spec (cw : Z) (lo : datetime) (td : Q) (indices : list Z) :
  forall ticks,
  Chart.draw_ticks cw lo td indices = Returned ticks ->
  map Chart.tick_x ticks = map (fun i => (inject_Z i / 8 * inject_Z cw)%Q) indices.
Proof.
  induction indices as [|i rest IH]; intros ticks.
  - intros H. injection H as <-. reflexivity.
  - rewrite draw_ticks_cons.
    destruct (replace_microsecond lo 0) as [base|]; cbn [bind]; [|discriminate].
    match goal with
    | |- context [add_hms ?b ?t] => destruct (add_hms b t) as [label|]
    end; cbn [bind]; [|discriminate].
    destruct (Chart.draw_ticks cw lo td rest) as [more|]; cbn [bind]; [|discriminate].
    intros H. injection H as <-. cbn [map Chart.tick_x]. now rewrite (IH more eq_refl).
Qed.

Lemma time_range_error (upgrades : list UpgradeEvent) (e : exn) :
  Chart.time_range upgrades = Raised e -> e = ValueError.
Proof.
  unfold Chart.time_range.
  destruct (map start_time upgrades) as [|s ss];
    destruct (flat_map _ upgrades) as [|e0 es]; cbn [py_min py_max bind];
    try (intros H; now injection H as <-); try discriminate.
  destruct (Qeq_bool _ 0); [|discriminate].
  unfold replace_second, make.
  destruct (valid _); cbn [bind]; [discriminate|].
  intros H. now injection H as <-.
Qed.

Lemma draw_ticks_error (cw : Z) (lo : datetime) (td : Q) (indices : list Z) (e : exn) :
  Chart.draw_ticks cw lo td indices = Raised e -> e <> ZeroDivisionError.
Proof.
  induction indices as [|i rest IH]; [discriminate|].
  rewrite draw_ticks_cons. unfold replace_microsecond, make.
  destruct (valid _); cbn [bind]; [|intros H; injection H as <-; discriminate].
  unfold add_hms.
  destruct (_ && _); cbn [bind]; [|intros H; injection H as <-; discriminate].
  destruct (Chart.draw_ticks cw lo td rest) as [more|e']; cbn [bind]; [discriminate|].
  intros H. injection H as <-. now apply IH.
Qed.

Lemma generate_chart_cons (self : Chart.SVGGanttChart) (u : UpgradeEvent)
    (us : list UpgradeEvent) :
  Chart.generate_chart self (u :: us)
  = let n := Z.of_nat (length (u :: us)) in
    let height := Z.max (Chart.base_height self)
                    (n * (20 + 2) + Chart.margin_top + Chart.margin_bottom + 100) in
    let cw := Chart.base_width self - Chart.margin_left - Chart.margin_right in
    let ch := height - Chart.margin_top - Chart.margin_bottom in
    let bh := Z.max 20 (Z.min 25 (ch / n - 2)) in
    bind (Chart.time_range (u :: us)) (fun range =>
    bind (Chart.draw_ticks cw (fst range) (Chart.total_duration_of (fst range) (snd range))
            [0; 1; 2; 3; 4; 5; 6; 7; 8]) (fun ticks =>
    bind (truediv (inject_Z ch) (inject_Z n)) (fun step =>
    bind (Chart.draw_bars cw (fst range) (Chart.total_duration_of (fst range) (snd range))
            bh (Chart.Qmax (inject_Z (bh + 2)) step) 0 (u :: us)) (fun bars =>
    Returned (Chart.Timeline (Chart.base_width self) height "Gateway Upgrade Timeline"
                ticks bars))))).
Proof. reflexivity. Qed.

(** What a returned chart of a non-empty list is made of. *)
Lemma generate_chart_inv (self : Chart.SVGGanttChart) (u : UpgradeEvent)
    (us : list UpgradeEvent) (scene : Chart.scene) :
  Chart.generate_chart self (u :: us) = Returned scene ->
  let n := Z.of_nat (length (u :: us)) in
  let height := Z.max (Chart.base_height self)
                  (n * (20 + 2) + Chart.margin_top + Chart.margin_bottom + 100) in
  let cw := Chart.base_width self - Chart.margin_left - Chart.margin_right in
  let ch := height - Chart.margin_top - Chart.margin_bottom in
  let bh := Z.max 20 (Z.min 25 (ch / n - 2)) in
  let ystep := Chart.Qmax (inject_Z (bh + 2)) (inject_Z ch / inject_Z n) in
  exists lo hi ticks bars,
    Chart.time_range (u :: us) = Returned (lo, hi) /\
    Chart.draw_ticks cw lo (Chart.total_duration_of lo hi) [0; 1; 2; 3; 4; 5; 6; 7; 8]
    = Returned ticks /\
    Chart.draw_bars cw lo (Chart.total_duration_of lo hi) bh ystep 0 (u :: us)
    = Returned bars /\
    scene = Chart.Timeline (Chart.base_width self) height "Gateway Upgrade Timeline"
              ticks bars.
Proof.
  cbv zeta. rewrite generate_chart_cons. cbv zeta.
  destruct (Chart.time_range (u :: us)) as [[lo hi]|e] eqn:Er; cbn [bind fst snd];
    [|discriminate].
  match goal with
  | |- context [bind (Chart.draw_ticks ?a ?b ?c ?d)] =>
      destruct (Chart.draw_ticks a b c d) as [ticks|e] eqn:Et
  end; cbn [bind]; [|discriminate].
  unfold truediv.
  assert (Hn : Qeq_bool (inject_Z (Z.of_nat (length (u :: us)))) 0 = false)
    by exact (len_positive u us).
  rewrite Hn. cbn [bind].
  match goal with
  | |- context [bind (Chart.draw_bars ?a ?b ?c ?d ?e ?f ?g)] =>
      destruct (Chart.draw_bars a b c d e f g) as [bars|e'] eqn:Eb
  end; cbn [bind]; [|discriminate].
  intros H. injection H as <-.
  exists lo, hi, ticks, bars.
  split; [reflexivity|]. split; [exact Et|]. split; [exact Eb | reflexivity].
Qed.

(** X15: [generate_chart] never raises ZeroDivisionError, whatever the
    records and the canvas: a span of zero seconds is replaced before any
    position is divided by it, and the row step is divided by a count that
    is at least one. *)
Theorem generate_chart_never_divides_by_zero (self : Chart.SVGGanttChart)
    (upgrades : list UpgradeEvent) :
  Chart.generate_chart self upgrades <> Raised ZeroDivisionError.
Proof.
  destruct upgrades as [|u us]; [discriminate|].
  rewrite generate_chart_cons. cbv zeta.
  destruct (Chart.time_range (u :: us)) as [[lo hi]|e] eqn:Er.
  2:{ apply time_range_error in Er. subst e. discriminate. }
  cbn [bind fst snd].
  match goal with
  | |- context [bind (Chart.draw_ticks ?a ?b ?c ?d)] =>
      destruct (Chart.draw_ticks a b c d) as [ticks|e] eqn:Et
  end.
  2:{ apply draw_ticks_error in Et. cbn [bind]. congruence. }
  cbn [bind]. unfold truediv.
  assert (Hn : Qeq_bool (inject_Z (Z.of_nat (length (u :: us)))) 0 = false)
    by exact (len_positive u us).
  rewrite Hn. cbn [bind].
  match goal with
  | |- context [Chart.draw_bars ?cw ?lo ?td ?bh ?ys 0 ?l] =>
      destruct (draw_bars_spec cw lo td bh ys l (total_duration_nonzero _ _) 0)
        as (bars & -> & _)
  end.
  discriminate.
Qed.

Lemma Forall2_nth {A B : Type} (R : A -> B -> Prop) (l : list A) (l' : list B) :
  Forall2 R l l' ->
  forall k b, nth_error l' k = Some b -> exists a, nth_error l k = Some a /\ R a b.
Proof.
  induction 1 as [|a b0 l l' Hab _ IH]; intros [|k] b Hk; cbn [nth_error] in *;
    try discriminate.
  - injection Hk as <-. now exists a.
  - now apply IH.
Qed.

Lemma nth_error_length {A : Type} (l : list A) (k : nat) (a : A) :
  nth_error l k = Some a -> (k < length l)%nat.
Proof. intros H. apply nth_error_Some. congruence. Qed.

(** X16: a chart that is returned for a non-empty list has one bar per
    record, in the order of the records: each bar carries the record's
    name (cut to 25 characters) and its tooltip, has the common row height
    between 20 and 25, and is either the colour of completed upgrades with
    a width of at least 2, when the record has an end time, or the colour
    of open upgrades and reaches the right edge of the chart area; the
    axis has nine ticks, evenly spaced from 0 to the chart width. *)
Theorem chart_draws_every_record (self : Chart.SVGGanttChart)
    (upgrades : list UpgradeEvent) (scene : Chart.scene) :
  upgrades <> [] ->
  Chart.generate_chart self upgrades = Returned scene ->
  exists height ticks bars bh,
    scene = Chart.Timeline (Chart.base_width self) height "Gateway Upgrade Timeline"
              ticks bars /\
    map Chart.tick_x ticks
    = map (fun i => (inject_Z i / 8
                     * inject_Z (Chart.base_width self - Chart.margin_left
                                 - Chart.margin_right))%Q)
        [0; 1; 2; 3; 4; 5; 6; 7; 8] /\
    20 <= bh <= 25 /\
    Forall2 (bar_drawn (Chart.base_width self - Chart.margin_left - Chart.margin_right) bh)
      upgrades bars.
Proof.
  intros Hne H. destruct upgrades as [|u us]; [contradiction|].
  destruct (generate_chart_inv self u us scene H)
    as (lo & hi & ticks & bars & Er & Et & Eb & ->).
  match type of Eb with
  | Chart.draw_bars ?cw ?lo ?td ?bh ?ys 0 ?l = _ =>
      eexists _, ticks, bars, bh;
      destruct (draw_bars_spec cw lo td bh ys l (total_duration_nonzero _ _) 0)
        as (bars' & Hb' & Hall & _)
  end.
  split; [reflexivity|].
  split; [exact (draw_ticks_spec _ _ _ _ _ Et)|].
  split; [lia|].
  rewrite Eb in Hb'. injection Hb' as <-. exact Hall.
Qed.

Lemma chart_draws_every_record_witness :
  exists height ticks bars bh,
    ex_scene = Chart.Timeline (Chart.base_width Chart.default) height
                            "Gateway Upgrade Timeline" ticks bars /\
    map Chart.tick_x ticks
    = map (fun i => (inject_Z i / 8
                     * inject_Z (Chart.base_width Chart.default - Chart.margin_left
                                 - Chart.margin_right))%Q)
        [0; 1; 2; 3; 4; 5; 6; 7; 8] /\
    20 <= bh <= 25 /\
    Forall2 (bar_drawn (Chart.base_width Chart.default - Chart.margin_left
                        - Chart.margin_right) bh)
      ex_records bars.
Proof.
  apply (chart_draws_every_record Chart.default ex_records ex_scene).
  - discriminate.
  - vm_compute. reflexivity.
Defined.

Lemma row_arithmetic (base n : Z) :
  1 <= n ->
  let height := Z.max base (n * (20 + 2) + 60 + 80 + 100) in
  let ch := height - 60 - 80 in
  let bh := Z.max 20 (Z.min 25 (ch / n - 2)) in
  20 <= bh <= 25 /\ (bh + 2) * n <= ch.
Proof.
  intros Hn height ch bh.
  assert (Hch : n * 22 <= ch) by (subst ch height; lia).
  assert (Hq : 22 <= ch / n) by (apply Z.div_le_lower_bound; lia).
  assert (Hm : n * (ch / n) <= ch) by (apply Z.mul_div_le; lia).
  split; [subst bh; lia|].
  assert (Hb : bh + 2 <= ch / n) by (subst bh; lia).
  nia.
Qed.

Lemma row_step (ch n bh : Z) :
  1 <= n -> 20 <= bh -> (bh + 2) * n <= ch ->
  let ystep := Chart.Qmax (inject_Z (bh + 2)) (inject_Z ch / inject_Z n) in
  (inject_Z bh + 2 <= ystep)%Q /\ (ystep * inject_Z n <= inject_Z ch)%Q.
Proof.
  intros Hn Hbh Hle ystep.
  assert (Hqn : (0 < inject_Z n)%Q).
  { change 0%Q with (inject_Z 0). rewrite <- Zlt_Qlt. lia. }
  assert (Hq : (inject_Z (bh + 2) * inject_Z n <= inject_Z ch)%Q).
  { rewrite <- inject_Z_mult, <- Zle_Qle. exact Hle. }
  assert (Hs : (inject_Z (bh + 2) <= inject_Z ch / inject_Z n)%Q)
    by (apply Qle_shift_div_l; assumption).
  assert (Hdiv : (inject_Z ch / inject_Z n * inject_Z n == inject_Z ch)%Q)
    by (field; lra).
  split.
  - pose proof (Qmax_ge_l (inject_Z (bh + 2)) (inject_Z ch / inject_Z n)) as H.
    fold ystep in H. rewrite inject_Z_plus in H. exact H.
  - subst ystep. unfold Chart.Qmax.
    destruct (Qltb_cases (inject_Z (bh + 2)) (inject_Z ch / inject_Z n))
      as [[-> H]|[-> H]]; [rewrite Hdiv; lra | exact Hq].
Qed.

Lemma generate_chart_nil (self : Chart.SVGGanttChart) :
  Chart.generate_chart self []
  = Returned (Chart.EmptyChart (Chart.base_width self) (Chart.base_height self)
                "No upgrade data found in logs").
Proof. reflexivity. Qed.

(** X17: in a returned chart the canvas is at least as high as the base
    height and as 22 units per record plus 240, and the rows never
    collide: every bar lies inside the chart area (between 0 and the
    canvas height less the top and bottom margins), and each bar ends at
    least 2 units above the start of the next one. *)
Theorem chart_rows_fit (self : Chart.SVGGanttChart) (upgrades : list UpgradeEvent)
    (width height : Z) (title : string) (ticks : list Chart.tick) (bars : list Chart.bar) :
  Chart.generate_chart self upgrades
  = Returned (Chart.Timeline width height title ticks bars) ->
  Chart.base_height self <= height /\
  22 * Z.of_nat (length upgrades) + 240 <= height /\
  length bars = length upgrades /\
  (forall k b, nth_error bars k = Some b ->
     (0 <= Chart.bar_y b)%Q /\
     (Chart.bar_y b + inject_Z (Chart.bar_height b)
      <= inject_Z (height - Chart.margin_top - Chart.margin_bottom))%Q) /\
  (forall k b b', nth_error bars k = Some b -> nth_error bars (S k) = Some b' ->
     (Chart.bar_y b + inject_Z (Chart.bar_height b) + 2 <= Chart.bar_y b')%Q).
Proof.
  intros H. destruct upgrades as [|u us].
  { rewrite generate_chart_nil in H. discriminate. }
  pose proof (generate_chart_inv self u us _ H) as Hinv. cbv zeta in Hinv.
  unfold Chart.margin_top, Chart.margin_bottom in *.
  remember (Z.of_nat (length (u :: us))) as n eqn:En.
  assert (Hn : 1 <= n) by (subst n; cbn [length]; lia).
  pose proof (row_arithmetic (Chart.base_height self) n Hn) as Harith.
  cbv zeta in Harith.
  remember (Z.max (Chart.base_height self) (n * (20 + 2) + 60 + 80 + 100)) as h eqn:Eh.
  remember (h - 60 - 80) as ch eqn:Ech.
  remember (Z.max 20 (Z.min 25 (ch / n - 2))) as bh eqn:Ebh.
  destruct Harith as [Hbh Hfit].
  pose proof (row_step ch n bh Hn (proj1 Hbh) Hfit) as Hrow. cbv zeta in Hrow.
  remember (Chart.Qmax (inject_Z (bh + 2)) (inject_Z ch / inject_Z n)) as ystep eqn:Ey.
  destruct Hrow as [Hstep Hsum].
  destruct Hinv as (lo & hi & ticks' & bars' & Er & Et & Eb & Hs).
  injection Hs as Hw Hh _ Hti Hb. subst width height ticks' bars'.
  destruct (draw_bars_spec (Chart.base_width self - Chart.margin_left - Chart.margin_right)
              lo (Chart.total_duration_of lo hi) bh ystep (u :: us)
              (total_duration_nonzero _ _) 0)
    as (bars'' & Hb' & Hall & Hys & _).
  rewrite Eb in Hb'. injection Hb' as <-.
  assert (Hlen : length bars = length (u :: us))
    by (symmetry; exact (Forall2_length Hall)).
  assert (Hheights : forall k b, nth_error bars k = Some b -> Chart.bar_height b = bh).
  { intros k b Hk. destruct (Forall2_nth _ _ _ Hall k b Hk) as (a & _ & Hd). apply Hd. }
  split; [lia|]. split; [lia|]. split; [exact Hlen|].
  assert (Hbhq : (20 <= inject_Z bh)%Q).
  { change 20%Q with (inject_Z 20). rewrite <- Zle_Qle. lia. }
  split.
  - intros k b Hk. rewrite (Hys k b Hk), (Hheights k b Hk).
    pose proof (nth_error_length _ _ _ Hk) as Hlt. rewrite Hlen in Hlt.
    set (K := inject_Z (0 + Z.of_nat k)).
    assert (HK0 : (0 <= K)%Q).
    { subst K. change 0%Q with (inject_Z 0). rewrite <- Zle_Qle. lia. }
    assert (HK1 : (K + 1 <= inject_Z n)%Q).
    { subst K. change 1%Q with (inject_Z 1). rewrite <- inject_Z_plus, <- Zle_Qle.
      subst n. lia. }
    assert (P1 : (0 <= K * ystep)%Q) by (apply Qmult_le_0_compat; lra).
    assert (P2 : (0 <= (inject_Z n - K - 1) * ystep)%Q) by (apply Qmult_le_0_compat; lra).
    assert (E : ((ystep - inject_Z bh) / 2 == (ystep - inject_Z bh) * (1 # 2))%Q)
      by reflexivity.
    rewrite E, <- Ech. clear E. split; lra.
  - intros k b b' Hk Hk'.
    rewrite (Hys k b Hk), (Hys (S k) b' Hk'), (Hheights k b Hk).
    assert (HS : (inject_Z (0 + Z.of_nat (S k)) == inject_Z (0 + Z.of_nat k) + 1)%Q).
    { change 1%Q with (inject_Z 1). rewrite <- inject_Z_plus.
      replace (0 + Z.of_nat (S k)) with (0 + Z.of_nat k + 1) by lia. reflexivity. }
    assert (E : ((ystep - inject_Z bh) / 2 == (ystep - inject_Z bh) * (1 # 2))%Q)
      by reflexivity.
    rewrite HS, E. clear E. lra.
Qed.

Lemma chart_rows_fit_witness :
  match ex_scene with
  | Chart.Timeline width height title ticks bars =>
      Chart.base_height Chart.default <= height /\
      22 * Z.of_nat (length ex_records) + 240 <= height /\
      length bars = length ex_records /\
      (forall k b, nth_error bars k = Some b ->
         (0 <= Chart.bar_y b)%Q /\
         (Chart.bar_y b + inject_Z (Chart.bar_height b)
          <= inject_Z (height - Chart.margin_top - Chart.margin_bottom))%Q) /\
      (forall k b b', nth_error bars k = Some b -> nth_error bars (S k) = Some b' ->
         (Chart.bar_y b + inject_Z (Chart.bar_height b) + 2 <= Chart.bar_y b')%Q)
  | Chart.EmptyChart _ _ _ => False
  end.
Proof.
  assert (H : exists width height title ticks bars,
            ex_scene = Chart.Timeline width height title ticks bars /\
            Chart.generate_chart Chart.default ex_records
            = Returned (Chart.Timeline width height title ticks bars)).
  { do 5 eexists. split; vm_compute; reflexivity. }
  destruct H as (width & height & title & ticks & bars & -> & H).
  exact (chart_rows_fit Chart.default ex_records width height title ticks bars H).
Defined.

Lemma end_times_in (upgrades : list UpgradeEvent) (e : datetime) :
  In e (flat_map (fun u => match end_time u with Some e => [e] | None => [] end) upgrades)
  <-> exists u, In u upgrades /\ end_time u = Some e.
Proof.
  rewrite in_flat_map. split; intros (u & Hu & H); exists u; (split; [exact Hu|]).
  - destruct (end_time u) as [e'|]; [|contradiction]. destruct H as [<-|[]]. reflexivity.
  - rewrite H. now left.
Qed.

(** X18: when at least one record has an end time, the time range is
    returned, never raised: it runs from the earliest start time to the
    latest end time, both taken from the records. *)
Theorem time_range_with_end_times (upgrades : list UpgradeEvent) (u0 : UpgradeEvent)
    (e0 : datetime) :
  In u0 upgrades ->
  end_time u0 = Some e0 ->
  exists lo hi,
    Chart.time_range upgrades = Returned (lo, hi) /\
    In lo (map start_time upgrades) /\
    (exists u, In u upgrades /\ end_time u = Some hi) /\
    (forall u, In u upgrades -> instant lo <= start_instant u) /\
    (forall u e, In u upgrades -> end_time u = Some e -> instant e <= instant hi).
Proof.
  intros Hu0 He0. unfold Chart.time_range.
  assert (Hin : In e0 (flat_map (fun u => match end_time u with
                                           | Some e => [e]
                                           | None => []
                                           end) upgrades)).
  { apply end_times_in. now exists u0. }
  assert (Hends := end_times_in upgrades).
  destruct (flat_map _ upgrades) as [|e es]; [contradiction|].
  destruct upgrades as [|u us]; [contradiction|].
  cbn [map py_min py_max bind].
  eexists _, _. split; [reflexivity|].
  split; [apply scan_min_in|].
  split; [apply Hends, scan_max_in|].
  split.
  - intros w Hw. apply scan_min_lower.
    change (In (start_time w) (map start_time (u :: us))). now apply in_map.
  - intros w e' Hw He'. apply scan_max_upper. apply Hends. now exists w.
Qed.

Lemma time_range_with_end_times_witness :
  exists lo hi,
    Chart.time_range ex_records = Returned (lo, hi) /\
    In lo (map start_time ex_records) /\
    (exists u, In u ex_records /\ end_time u = Some hi) /\
    (forall u, In u ex_records -> instant lo <= start_instant u) /\
    (forall u e, In u ex_records -> end_time u = Some e -> instant e <= instant hi).
Proof.
  apply (time_range_with_end_times ex_records gw1_done t_complete).
  - now left.
  - reflexivity.
Defined.

Lemma time_range_lower (upgrades : list UpgradeEvent) (lo hi : datetime) :
  Chart.time_range upgrades = Returned (lo, hi) ->
  forall u, In u upgrades -> instant lo <= start_instant u.
Proof.
  unfold Chart.time_range. intros H u Hu.
  destruct upgrades as [|u1 us]; [contradiction|].
  assert (Hlo : instant (scan_min Datetime.ltb (start_time u1) (map start_time us))
                <= start_instant u).
  { apply scan_min_lower. change (In (start_time u) (map start_time (u1 :: us))).
    now apply in_map. }
  revert H. destruct (flat_map _ (u1 :: us)) as [|e es]; cbn [map py_min py_max bind].
  - destruct (Qeq_bool _ 0).
    + unfold replace_second, make. destruct (valid _); cbn [bind]; [|discriminate].
      intros H. injection H as <- _. exact Hlo.
    + intros H. injection H as <- _. exact Hlo.
  - intros H. injection H as <- _. exact Hlo.
Qed.

Lemma total_seconds_scaled (td : timedelta) :
  (total_seconds td * 1000000 == inject_Z td)%Q.
Proof. unfold total_seconds, us_per_second. field. Qed.

(** X19: in a returned chart whose time range has a positive width and
    whose canvas is at least as wide as the two side margins, no bar
    starts left of the chart area; a record that starts no later than the
    end of the range has its bar start inside the chart area, so that the
    bar of an open record has a width that is not negative. *)
Theorem chart_bars_start_inside (self : Chart.SVGGanttChart)
    (upgrades : list UpgradeEvent) (width height : Z) (title : string)
    (ticks : list Chart.tick) (bars : list Chart.bar) (lo hi : datetime) :
  Chart.generate_chart self upgrades
  = Returned (Chart.Timeline width height title ticks bars) ->
  Chart.time_range upgrades = Returned (lo, hi) ->
  instant lo < instant hi ->
  Chart.margin_left + Chart.margin_right <= Chart.base_width self ->
  forall k u b,
    nth_error upgrades k = Some u ->
    nth_error bars k = Some b ->
    (0 <= Chart.bar_x b)%Q /\
    (start_instant u <= instant hi ->
     (Chart.bar_x b <= inject_Z (width - Chart.margin_left - Chart.margin_right))%Q /\
     (0 <= Chart.bar_width b)%Q).
Proof.
  intros H Hr Hlt Hw k u b Hu Hb.
  destruct upgrades as [|u1 us]; [destruct k; discriminate|].
  pose proof (time_range_lower _ _ _ Hr u (nth_error_In _ _ Hu)) as Hlo.
  destruct (generate_chart_inv self u1 us _ H)
    as (lo' & hi' & ticks' & bars' & Er & Et & Eb & Hs).
  rewrite Hr in Er. injection Er as <- <-.
  injection Hs as -> _ _ _ ->.
  match type of Eb with
  | Chart.draw_bars ?cw ?lo ?td ?bh ?ys 0 ?l = _ =>
      destruct (draw_bars_spec cw lo td bh ys l (total_duration_nonzero _ _) 0)
        as (bars'' & Hb' & Hall & _ & Hxs)
  end.
  rewrite Eb in Hb'. injection Hb' as <-.
  destruct (Forall2_nth _ _ _ Hall k b Hb) as (u' & Hu' & Hd).
  rewrite Hu in Hu'. injection Hu' as <-.
  rewrite (Hxs k u b Hu Hb).
  set (cw := Chart.base_width self - Chart.margin_left - Chart.margin_right) in *.
  assert (Hcw : (0 <= inject_Z cw)%Q).
  { change 0%Q with (inject_Z 0). rewrite <- Zle_Qle. subst cw. lia. }
  assert (Htd : (Chart.total_duration_of lo hi == total_seconds (Datetime.sub hi lo))%Q).
  { unfold Chart.total_duration_of. rewrite total_seconds_zero.
    replace (Datetime.sub hi lo =? 0) with false; [reflexivity|].
    symmetry. apply Z.eqb_neq. unfold Datetime.sub. lia. }
  pose proof (total_seconds_scaled (Datetime.sub (start_time u) lo)) as Hs.
  pose proof (total_seconds_scaled (Datetime.sub hi lo)) as Ht.
  assert (Hs0 : (0 <= inject_Z (Datetime.sub (start_time u) lo))%Q).
  { change 0%Q with (inject_Z 0). rewrite <- Zle_Qle. unfold Datetime.sub.
    unfold start_instant in Hlo. lia. }
  assert (Ht0 : (0 < inject_Z (Datetime.sub hi lo))%Q).
  { change 0%Q with (inject_Z 0). rewrite <- Zlt_Qlt. unfold Datetime.sub. lia. }
  set (s := total_seconds (Datetime.sub (start_time u) lo)) in *.
  set (t := total_seconds (Datetime.sub hi lo)) in *.
  assert (Hratio : (0 <= s / Chart.total_duration_of lo hi)%Q).
  { rewrite Htd. apply Qle_shift_div_l; lra. }
  split.
  - apply Qmult_le_0_compat; assumption.
  - intros Hle.
    assert (Hone : (s / Chart.total_duration_of lo hi <= 1)%Q).
    { rewrite Htd. apply Qle_shift_div_r; [lra|].
      assert (Hst : (inject_Z (Datetime.sub (start_time u) lo)
                     <= inject_Z (Datetime.sub hi lo))%Q).
      { rewrite <- Zle_Qle. unfold Datetime.sub. unfold start_instant in Hle. lia. }
      lra. }
    assert (Hx : (s / Chart.total_duration_of lo hi * inject_Z cw <= inject_Z cw)%Q).
    { pose proof (Qmult_le_compat_r _ _ _ Hone Hcw) as Hm. lra. }
    split; [exact Hx|].
    destruct Hd as (_ & _ & _ & Hshape).
    destruct (end_time u); destruct Hshape as [_ Hwd]; [lra|].
    rewrite (Hxs k u b Hu Hb) in Hwd. fold s in Hwd. lra.
Qed.

Lemma chart_bars_start_inside_witness :
  match ex_scene with
  | Chart.Timeline width height title ticks bars =>
      forall k u b,
        nth_error ex_records k = Some u ->
        nth_error bars k = Some b ->
        (0 <= Chart.bar_x b)%Q /\
        (start_instant u <= instant t_complete ->
         (Chart.bar_x b <= inject_Z (width - Chart.margin_left - Chart.margin_right))%Q /\
         (0 <= Chart.bar_width b)%Q)
  | Chart.EmptyChart _ _ _ => False
  end.
Proof.
  assert (H : exists width height title ticks bars,
            ex_scene = Chart.Timeline width height title ticks bars /\
            Chart.generate_chart Chart.default ex_records
            = Returned (Chart.Timeline width height title ticks bars)).
  { do 5 eexists. split; vm_compute; reflexivity. }
  destruct H as (width & height & title & ticks & bars & -> & H).
  apply (chart_bars_start_inside Chart.default ex_records width height title ticks bars
           t_start t_complete H).
  - vm_compute. reflexivity.
  - vm_compute. reflexivity.
  - vm_compute. discriminate.
Defined.

(** ** Labels *)

Lemma length_append (a b : string) :
  String.length (a ++ b) = (String.length a + String.length b)%nat.
Proof. induction a as [|c a IH]; cbn; [reflexivity | now rewrite IH]. Qed.

Lemma length_take (n : nat) (s : string) :
  String.length (Str.take n s) = Nat.min n (String.length s).
Proof.
  unfold Str.take. revert s. induction n as [|n IH]; intros [|c s]; cbn; try reflexivity.
  now rewrite IH.
Qed.

Lemma take_prefix (n : nat) (s : string) : prefix (Str.take n s) s = true.
Proof.
  unfold Str.take. revert s. induction n as [|n IH]; intros [|c s]; cbn; try reflexivity.
  rewrite IH. now destruct (Ascii.ascii_dec c c).
Qed.

(** X20: the label of a row never exceeds 25 characters: a name of at most
    25 characters is shown as it is, a longer one as its first 22
    characters followed by three dots. *)
Theorem display_name_bounded (name : string) :
  (String.length (Chart.display_name name) <= 25)%nat /\
  ((String.length name <= 25)%nat -> Chart.display_name name = name) /\
  ((25 < String.length name)%nat ->
   Chart.display_name name = Str.take 22 name ++ "..." /\
   String.length (Chart.display_name name) = 25%nat /\
   prefix (Str.take 22 name) name = true).
Proof.
  unfold Chart.display_name.
  destruct (Nat.ltb_spec 25 (String.length name)) as [Hlong|Hshort].
  - assert (Hlen : String.length (Str.take 22 name ++ "...") = 25%nat).
    { rewrite length_append, length_take. cbn [String.length]. lia. }
    split; [lia|]. split; [lia|]. intros _.
    split; [reflexivity|]. split; [exact Hlen | apply take_prefix].
  - split; [exact Hshort|]. split; [reflexivity | lia].
Qed.

(** ** [create_svg_element] *)

Lemma replace_no_underscore (s : string) :
  no_underscore (Str.replace "_" "-" s) = true.
Proof.
  unfold Str.replace. induction s as [|c s IH]; [reflexivity|].
  cbn [Str.replace_from prefix String.length Nat.sub].
  destruct (Ascii.ascii_dec "_" c) as [<-|Hne].
  - destruct s; cbn [append no_underscore]; exact IH.
  - cbn [no_underscore]. rewrite IH, andb_true_r.
    destruct (Ascii.eqb_spec c "_") as [->|_]; [now contradiction Hne | reflexivity].
Qed.

Lemma svg_set_names (P : string -> Prop) (key value : string) (a : list (string * string)) :
  P key -> Forall (fun kv => P (fst kv)) a -> Forall (fun kv => P (fst kv)) (Svg.set key value a).
Proof.
  intros Hk. induction 1 as [|[k v] a Hkv Ha IH]; cbn [Svg.set].
  - constructor; [exact Hk | constructor].
  - destruct (String.eqb k key); constructor; auto.
Qed.

Lemma svg_get_set_same (key value : string) (a : list (string * string)) :
  Svg.get key (Svg.set key value a) = Some value.
Proof.
  induction a as [|[k v] a IH]; cbn [Svg.set Svg.get].
  - now rewrite String.eqb_refl.
  - destruct (String.eqb k key) eqn:E; cbn [Svg.get]; rewrite E; auto.
Qed.

Lemma svg_get_set_defined (key key' value : string) (a : list (string * string)) :
  Svg.get key' a <> None -> Svg.get key' (Svg.set key value a) <> None.
Proof.
  induction a as [|[k v] a IH]; cbn [Svg.set Svg.get]; [congruence|].
  destruct (String.eqb k key) eqn:E; cbn [Svg.get]; destruct (String.eqb k key');
    auto; discriminate.
Qed.

Lemma svg_set_length (key value : string) (a : list (string * string)) :
  (length a <= length (Svg.set key value a) <= S (length a))%nat.
Proof.
  induction a as [|[k v] a IH]; cbn [Svg.set length]; [lia|].
  destruct (String.eqb k key); cbn [length]; lia.
Qed.

Section SvgFacts.
Context {V : Type} (str : V -> string).

Lemma set_all_names (attrs : list (string * V)) (a : list (string * string)) :
  Forall (fun kv => no_underscore (fst kv) = true) a ->
  Forall (fun kv => no_underscore (fst kv) = true) (Svg.set_all str attrs a).
Proof.
  revert a. induction attrs as [|[key value] rest IH]; intros a Ha; [exact Ha|].
  cbn [Svg.set_all]. apply IH.
  apply (svg_set_names (fun k => no_underscore k = true)); [|exact Ha].
  apply replace_no_underscore.
Qed.

Lemma set_all_keeps (attrs : list (string * V)) (a : list (string * string)) (name : string) :
  Svg.get name a <> None -> Svg.get name (Svg.set_all str attrs a) <> None.
Proof.
  revert a. induction attrs as [|[key value] rest IH]; intros a Ha; [exact Ha|].
  cbn [Svg.set_all]. apply IH. now apply svg_get_set_defined.
Qed.

Lemma set_all_length (attrs : list (string * V)) (a : list (string * string)) :
  (length (Svg.set_all str attrs a) <= length a + length attrs)%nat.
Proof.
  revert a. induction attrs as [|[key value] rest IH]; intros a; cbn [Svg.set_all length];
    [lia|].
  specialize (IH (Svg.set (Svg.attribute_name key) (str value) a)).
  pose proof (svg_set_length (Svg.attribute_name key) (str value) a). lia.
Qed.

Lemma set_all_app (attrs more : list (string * V)) (a : list (string * string)) :
  Svg.set_all str (attrs ++ more) a = Svg.set_all str more (Svg.set_all str attrs a).
Proof.
  revert a. induction attrs as [|[key value] rest IH]; intros a; [reflexivity|].
  cbn [app Svg.set_all]. apply IH.
Qed.

(** X21: the element built by [create_svg_element] has the given tag; none
    of its attribute names contains an underscore (the keyword [class_]
    becomes [class], every other underscore a hyphen); every keyword given
    is present under its rewritten name; there are no more attributes than
    keywords; and the value under the name of the last keyword is the text
    of that keyword's value. *)
Theorem create_svg_element_attributes (tag : string) (attrs : list (string * V)) :
  Svg.tag (Svg.create_svg_element str tag attrs) = tag /\
  Forall (fun kv => no_underscore (fst kv) = true)
    (Svg.attrib (Svg.create_svg_element str tag attrs)) /\
  Svg.attribute_name "class_" = "class" /\
  (forall key value, In (key, value) attrs ->
     Svg.get (Svg.attribute_name key) (Svg.attrib (Svg.create_svg_element str tag attrs))
     <> None) /\
  (length (Svg.attrib (Svg.create_svg_element str tag attrs)) <= length attrs)%nat /\
  (forall key value,
     Svg.get (Svg.attribute_name key)
       (Svg.attrib (Svg.create_svg_element str tag (attrs ++ [(key, value)])))
     = Some (str value)).
Proof.
  unfold Svg.create_svg_element. cbn [Svg.tag Svg.attrib].
  split; [reflexivity|].
  split; [apply set_all_names; constructor|].
  split; [reflexivity|].
  split.
  - intros key value Hin. apply in_split in Hin as (before & after & ->).
    rewrite set_all_app. cbn [Svg.set_all]. apply set_all_keeps.
    rewrite svg_get_set_same. discriminate.
  - split; [apply (set_all_length attrs [])|].
    intros key value. rewrite set_all_app. cbn [Svg.set_all]. apply svg_get_set_same.
Qed.

End SvgFacts.

(** ** [main] *)

Lemma ingest_skips (input_stream : list string) (self : LogParser) :
  Forall (fun line => parse_timestamp (Str.strip line) = Returned None) input_stream ->
  ingest self input_stream = (Returned tt, self).
Proof.
  induction 1 as [|line rest Hline _ IH]; [reflexivity|].
  cbn [ingest]. now rewrite (parse_line_skips self line Hline).
Qed.

(** X22: when no line of the input begins, once stripped, with a
    timestamp (the empty input included), [main] neither computes
    statistics nor draws: it ends with exit code 1 and the message "No
    gateway upgrades found in the provided logs." *)
Theorem main_without_timestamps (stdin : list string) :
  Forall (fun line => parse_timestamp (Str.strip line) = Returned None) stdin ->
  main stdin = Returned (Exit 1 "No gateway upgrades found in the provided logs.").
Proof.
  intros H. unfold main, parse_logs. now rewrite (ingest_skips stdin __init__ H).
Qed.

Lemma main_without_timestamps_witness :
  main [""; ex_untimed; "   "; "07/23/2025 00:00:05 Upgrading gw-1 to version 8.1.0"]
  = Returned (Exit 1 "No gateway upgrades found in the provided logs.").
Proof.
  apply (main_without_timestamps
           [""; ex_untimed; "   "; "07/23/2025 00:00:05 Upgrading gw-1 to version 8.1.0"]).
  repeat constructor; vm_compute; reflexivity.
Defined.

(** X23: a reset line at the very end of the input discards every record
    gathered before it, so [main] ends with exit code 1 and draws
    nothing. *)
Theorem main_after_final_reset (before : list string) (line : string) (ts : datetime) :
  fst (ingest __init__ before) = Returned tt ->
  reset_line line ts ->
  main (before ++ [line])
  = Returned (Exit 1 "No gateway upgrades found in the provided logs.").
Proof.
  intros Hb Hr. unfold main, parse_logs.
  rewrite (ingest_app _ _ _ Hb). cbn [ingest].
  now rewrite (parse_line_reset _ _ _ Hr).
Qed.

Lemma main_after_final_reset_witness :
  main ([ex_start; ex_complete; ex_installing] ++ [ex_reset])
  = Returned (Exit 1 "No gateway upgrades found in the provided logs.").
Proof.
  apply (main_after_final_reset [ex_start; ex_complete; ex_installing] ex_reset t_reset).
  - vm_compute. reflexivity.
  - split; vm_compute; [reflexivity | discriminate].
Defined.

(** X24: when [main] succeeds, the records it worked on are the non-empty
    list [parse_logs] returned, the report is the one
    [calculate_upgrade_stats] gives for them, and the picture is a
    timeline of the default width with one bar per record: the empty chart
    is never what [main] prints. *)
Theorem main_success (stdin : list string) (report : list Stats.debug_line)
    (scene : Chart.scene) :
  main stdin = Returned (Success report scene) ->
  exists upgrades height ticks bars,
    fst (parse_logs __init__ stdin) = Returned upgrades /\
    upgrades <> [] /\
    Stats.calculate_upgrade_stats upgrades = Returned report /\
    Chart.generate_chart Chart.default upgrades = Returned scene /\
    scene = Chart.Timeline 1200 height "Gateway Upgrade Timeline" ticks bars /\
    length bars = length upgrades.
Proof.
  unfold main.
  destruct (parse_logs __init__ stdin) as [[[|u us]|e] st]; try discriminate.
  destruct (Stats.calculate_upgrade_stats (u :: us)) as [r|e] eqn:Es; cbn [bind];
    [|discriminate].
  destruct (Chart.generate_chart Chart.default (u :: us)) as [s|e] eqn:Ec; cbn [bind];
    [|discriminate].
  intros H. injection H as <- <-.
  destruct (generate_chart_inv Chart.default u us s Ec)
    as (lo & hi & ticks & bars & _ & _ & Eb & ->).
  match type of Eb with
  | Chart.draw_bars ?cw ?lo ?td ?bh ?ys 0 ?l = _ =>
      destruct (draw_bars_spec cw lo td bh ys l (total_duration_nonzero _ _) 0)
        as (bars' & Hb' & Hall & _)
  end.
  rewrite Eb in Hb'. injection Hb' as <-.
  eexists (u :: us), _, ticks, bars.
  split; [reflexivity|]. split; [discriminate|]. split; [exact Es|].
  split; [exact Ec|]. split; [reflexivity|].
  symmetry. exact (Forall2_length Hall).
Qed.

Lemma main_success_witness :
  match main [ex_start; ex_complete] with
  | Returned (Success report scene) =>
      exists upgrades height ticks bars,
        fst (parse_logs __init__ [ex_start; ex_complete]) = Returned upgrades /\
        upgrades <> [] /\
        Stats.calculate_upgrade_stats upgrades = Returned report /\
        Chart.generate_chart Chart.default upgrades = Returned scene /\
        scene = Chart.Timeline 1200 height "Gateway Upgrade Timeline" ticks bars /\
        length bars = length upgrades
  | _ => False
  end.
Proof.
  assert (H : exists report scene,
            main [ex_start; ex_complete] = Returned (Success report scene)).
  { do 2 eexists. vm_compute. reflexivity. }
  destruct H as (report & scene & H). rewrite H.
  exact (main_success [ex_start; ex_complete] report scene H).
Defined.

(** ** Matching texts of a known shape *)

Lemma rmatch_cat {A : Type} (r1 r2 : Re.regex) (pos : nat) (s : string) (m : Re.groups)
    (k : nat -> string -> Re.groups -> option A) :
  Re.rmatch (Re.Cat r1 r2) pos s m k
  = Re.rmatch r1 pos s m (fun pos1 s1 m1 => Re.rmatch r2 pos1 s1 m1 k).
Proof. reflexivity. Qed.

Lemma rmatch_group {A : Type} (n : nat) (r : Re.regex) (pos : nat) (s : string)
    (m : Re.groups) (k : nat -> string -> Re.groups -> option A) :
  Re.rmatch (Re.Group n r) pos s m k
  = Re.rmatch r pos s m (fun pos1 s1 m1 => k pos1 s1 ((n, Str.take (pos1 - pos) s) :: m1)).
Proof. reflexivity. Qed.

Lemma star_class_spec {A : Type} (p : ascii -> bool)
    (k : nat -> string -> Re.groups -> option A) (s : string) (pos : nat) (m : Re.groups) :
  Re.rmatch (Re.Star (Re.Class p)) pos s m k = star_spec p k pos s m.
Proof.
  cbn [Re.rmatch].
  match goal with
  | |- ?f (String.length s) pos s m = _ =>
      assert (H : forall fuel s pos m, (String.length s <= fuel)%nat ->
                    f fuel pos s m = star_spec p k pos s m)
  end.
  { induction fuel as [|fuel IH]; intros s0 pos0 m0 Hlen.
    - destruct s0; [reflexivity | cbn in Hlen; lia].
    - destruct s0 as [|c s0]; [reflexivity|].
      cbn [star_spec]. cbn in Hlen.
      destruct (p c); [|reflexivity].
      replace (pos0 <? S pos0)%nat with true by (symmetry; apply Nat.ltb_lt; lia).
      rewrite IH by lia. reflexivity. }
  apply H. lia.
Qed.

Lemma rmatch_lit_app {A : Type} (t s : string) (pos : nat) (m : Re.groups)
    (k : nat -> string -> Re.groups -> option A) :
  Re.rmatch (Re.lit t) pos (t ++ s) m k = k (pos + String.length t)%nat s m.
Proof.
  revert pos. induction t as [|c t IH]; intros pos.
  - cbn. now rewrite Nat.add_0_r.
  - cbn [Re.lit append String.length]. rewrite rmatch_cat. cbn [Re.rmatch].
    rewrite Ascii.eqb_refl, IH. now rewrite Nat.add_succ_r.
Qed.

Lemma rmatch_lit_mismatch {A : Type} (t s : string) (pos : nat) (m : Re.groups)
    (k : nat -> string -> Re.groups -> option A) :
  prefix t s = false -> Re.rmatch (Re.lit t) pos s m k = None.
Proof.
  revert s pos. induction t as [|c t IH]; intros s pos H.
  - destruct s; discriminate.
  - cbn [Re.lit]. rewrite rmatch_cat. destruct s as [|c' s]; [reflexivity|].
    cbn [Re.rmatch]. cbn [prefix] in H.
    destruct (Ascii.ascii_dec c c') as [<-|Hne].
    + rewrite Ascii.eqb_refl. now apply IH.
    + destruct (Ascii.eqb_spec c c'); [contradiction | reflexivity].
Qed.

Lemma rmatch_lit_match (t s : string) (pos : nat) :
  prefix t s = true ->
  Re.rmatch (Re.lit t) pos s [] (fun _ _ m => Some m) = Some [].
Proof.
  revert s pos. induction t as [|c t IH]; intros s pos H; [reflexivity|].
  cbn [Re.lit]. rewrite rmatch_cat. destruct s as [|c' s]; [discriminate|].
  cbn [Re.rmatch]. cbn [prefix] in H.
  destruct (Ascii.ascii_dec c c') as [<-|Hne]; [|discriminate].
  rewrite Ascii.eqb_refl. now apply IH.
Qed.

(** A text that is absent from [s] is a prefix of no suffix of [s]. *)
Lemma absent_suffix (t s : string) :
  absent t s -> forall a b, s = a ++ b -> prefix t b = false.
Proof.
  unfold absent, Re.search. generalize 0%nat.
  induction s as [|c s IH]; intros pos H a b E.
  - destruct a; [|discriminate]. cbn in E. subst b.
    cbn [Re.search_from] in H.
    destruct (prefix t "") eqn:P; [|reflexivity].
    now rewrite (rmatch_lit_match t "" pos P) in H.
  - cbn [Re.search_from] in H.
    destruct (prefix t (String c s)) eqn:P.
    { now rewrite (rmatch_lit_match t _ pos P) in H. }
    destruct (Re.rmatch (Re.lit t) pos (String c s) [] _); [discriminate|].
    destruct a as [|c' a].
    + cbn in E. now subst b.
    + cbn in E. injection E as _ E. exact (IH (S pos) H a b E).
Qed.

(** The continuation of a match is only ever run on a suffix of the text:
    if it fails on all of them, the match fails. *)
Lemma rmatch_none {A : Type} (r : Re.regex) :
  forall (s : string) (pos : nat) (m : Re.groups)
         (k : nat -> string -> Re.groups -> option A),
    (forall a b pos' m', s = a ++ b -> k pos' b m' = None) ->
    Re.rmatch r pos s m k = None.
Proof.
  induction r as [c|p|r1 IH1 r2 IH2|r IH|n r IH| | |]; intros s pos m k Hk.
  - destruct s as [|c' s]; [reflexivity|]. cbn [Re.rmatch].
    destruct (Ascii.eqb c c'); [|reflexivity].
    apply (Hk (String c' EmptyString) s). reflexivity.
  - destruct s as [|c' s]; [reflexivity|]. cbn [Re.rmatch].
    destruct (p c'); [|reflexivity].
    apply (Hk (String c' EmptyString) s). reflexivity.
  - rewrite rmatch_cat. apply IH1. intros a b pos' m' E.
    apply IH2. intros a' b' pos'' m'' E'. apply (Hk (a ++ a') b').
    subst. clear. induction a; cbn; [reflexivity | now f_equal].
  - cbn [Re.rmatch].
    match goal with
    | |- ?f (String.length s) pos s m = _ =>
        assert (H : forall fuel a b pos m, s = a ++ b -> f fuel pos b m = None)
    end.
    { induction fuel as [|fuel IHf]; intros a b pos0 m0 E.
      - now apply (Hk a b).
      - rewrite IH; [now apply (Hk a b)|].
        intros a' b' pos' m' E'. destruct (pos0 <? pos')%nat; [|reflexivity].
        apply (IHf (a ++ a') b'). subst. clear.
        induction a; cbn; [reflexivity | now f_equal]. }
    apply (H _ EmptyString s). reflexivity.
  - rewrite rmatch_group. apply IH. intros a b pos' m' E. now apply (Hk a b).
  - cbn [Re.rmatch]. destruct (pos =? 0)%nat; [|reflexivity].
    apply (Hk EmptyString s). reflexivity.
  - cbn [Re.rmatch]. destruct (Re.at_eol s); [|reflexivity].
    apply (Hk EmptyString s). reflexivity.
  - cbn [Re.rmatch]. apply (Hk EmptyString s). reflexivity.
Qed.

Lemma star_spec_greedy {A : Type} (p : ascii -> bool)
    (k : nat -> string -> Re.groups -> option A) (s rest : string) (m : Re.groups) (a : A) :
  all_in p s = true ->
  stops p rest = true ->
  forall pos,
    k (pos + String.length s)%nat rest m = Some a ->
    star_spec p k pos (s ++ rest) m = Some a.
Proof.
  intros Hs Hrest. induction s as [|c s IH]; intros pos Hk.
  - cbn [append String.length] in *. rewrite Nat.add_0_r in Hk.
    destruct rest as [|c r]; [exact Hk|].
    cbn [star_spec]. cbn [stops] in Hrest.
    destruct (p c); [discriminate | exact Hk].
  - cbn [all_in] in Hs. apply andb_prop in Hs as [Hc Hs].
    cbn [append star_spec]. rewrite Hc.
    rewrite (IH Hs (S pos)); [reflexivity|].
    cbn [String.length] in Hk. now rewrite Nat.add_succ_r in Hk.
Qed.

Lemma star_spec_none {A : Type} (p : ascii -> bool)
    (k : nat -> string -> Re.groups -> option A) (s : string) :
  (forall a b pos' m', s = a ++ b -> k pos' b m' = None) ->
  forall pos m, star_spec p k pos s m = None.
Proof.
  induction s as [|c s IH]; intros Hk pos m.
  - apply (Hk EmptyString EmptyString). reflexivity.
  - cbn [star_spec]. destruct (p c).
    + rewrite IH; [apply (Hk EmptyString (String c s)); reflexivity|].
      intros a b pos' m' E. apply (Hk (String c a) b). cbn. now rewrite E.
    + apply (Hk EmptyString (String c s)). reflexivity.
Qed.

(** The star backs off to the last place where the rest of the pattern
    succeeds. *)
Lemma star_spec_last {A : Type} (p : ascii -> bool)
    (k : nat -> string -> Re.groups -> option A) (s rest : string) (m : Re.groups) (a : A) :
  all_in p s = true ->
  (forall x y pos' m', rest = x ++ y -> x <> EmptyString -> k pos' y m' = None) ->
  forall pos,
    k (pos + String.length s)%nat rest m = Some a ->
    star_spec p k pos (s ++ rest) m = Some a.
Proof.
  intros Hs Hlater. induction s as [|c s IH]; intros pos Hk.
  - cbn [append String.length] in *. rewrite Nat.add_0_r in Hk.
    destruct rest as [|c r]; [exact Hk|].
    cbn [star_spec]. destruct (p c); [|exact Hk].
    rewrite star_spec_none; [exact Hk|].
    intros x y pos' m' E. apply (Hlater (String c x) y); [|discriminate].
    cbn. now rewrite E.
  - cbn [all_in] in Hs. apply andb_prop in Hs as [Hc Hs].
    cbn [append star_spec]. rewrite Hc.
    rewrite (IH Hs (S pos)); [reflexivity|].
    cbn [String.length] in Hk. now rewrite Nat.add_succ_r in Hk.
Qed.

Lemma take_app (a b : string) : Str.take (String.length a) (a ++ b) = a.
Proof.
  unfold Str.take. induction a as [|c a IH]; cbn.
  - now destruct b.
  - now rewrite IH.
Qed.

Lemma app_assoc_string (a b c : string) : ((a ++ b) ++ c = a ++ (b ++ c))%string.
Proof. induction a; cbn; [reflexivity | now f_equal]. Qed.

Lemma length_app_string (a b : string) :
  String.length (a ++ b) = (String.length a + String.length b)%nat.
Proof. induction a as [|c a IH]; cbn; [reflexivity | now rewrite IH]. Qed.

(** A search cannot begin inside a prefix that lacks the first character
    of the pattern. *)
Lemma search_from_skip (c : ascii) (t : string) (r : Re.regex) (pre s : string) :
  lacks c pre = true ->
  forall pos,
    Re.search_from (Re.Cat (Re.lit (String c t)) r) pos (pre ++ s)
    = Re.search_from (Re.Cat (Re.lit (String c t)) r) (pos + String.length pre)%nat s.
Proof.
  intros H. induction pre as [|c' pre IH]; intros pos.
  - cbn. now rewrite Nat.add_0_r.
  - cbn [lacks] in H. apply andb_prop in H as [Hc H].
    cbn [append Re.search_from String.length].
    rewrite rmatch_cat. cbn [Re.lit]. rewrite rmatch_cat. cbn [Re.rmatch].
    destruct (Ascii.eqb c c'); [discriminate|].
    rewrite (IH H). now rewrite Nat.add_succ_r.
Qed.

Lemma search_from_found (r : Re.regex) (pos : nat) (s : string) (m : Re.groups) :
  Re.rmatch r pos s [] (fun _ _ m' => Some m') = Some m ->
  Re.search_from r pos s = Some m.
Proof. intros H. destruct s; cbn [Re.search_from]; now rewrite H. Qed.

Lemma search_from_none (r : Re.regex) (s : string) :
  (forall a b pos, s = a ++ b -> Re.rmatch r pos b [] (fun _ _ m' => Some m') = None) ->
  forall pos, Re.search_from r pos s = None.
Proof.
  induction s as [|c s IH]; intros H pos; cbn [Re.search_from].
  - now rewrite (H EmptyString EmptyString).
  - rewrite (H EmptyString (String c s)) by reflexivity.
    apply IH. intros a b pos' E. apply (H (String c a) b). cbn. now rewrite E.
Qed.

Lemma search_needs_head (r : Re.regex) (t s : string) :
  absent t s ->
  Re.search (Re.Cat (Re.lit t) r) s = None.
Proof.
  intros Habs. unfold Re.search. apply search_from_none. intros a b pos E.
  rewrite rmatch_cat. apply rmatch_lit_mismatch.
  exact (absent_suffix t s Habs a b E).
Qed.

Lemma search_lit_found (t a b : string) :
  Re.search (Re.lit t) (a ++ t ++ b) <> None.
Proof.
  unfold Re.search. generalize 0%nat. induction a as [|c a IH]; intros pos.
  - cbn [append]. rewrite (search_from_found _ _ _ []); [discriminate|].
    now rewrite rmatch_lit_app.
  - cbn [append Re.search_from].
    destruct (Re.rmatch _ pos _ [] _); [discriminate | apply IH].
Qed.

Lemma rmatch_class {A : Type} (p : ascii -> bool) (c : ascii) (s : string) (pos : nat)
    (m : Re.groups) (k : nat -> string -> Re.groups -> option A) :
  Re.rmatch (Re.Class p) pos (String c s) m k = if p c then k (S pos) s m else None.
Proof. reflexivity. Qed.

Lemma rmatch_eol_end {A : Type} (pos : nat) (m : Re.groups)
    (k : nat -> string -> Re.groups -> option A) :
  Re.rmatch Re.Eol pos "" m k = k pos "" m.
Proof. reflexivity. Qed.

Lemma rmatch_eps {A : Type} (pos : nat) (s : string) (m : Re.groups)
    (k : nat -> string -> Re.groups -> option A) :
  Re.rmatch Re.Eps pos s m k = k pos s m.
Proof. reflexivity. Qed.

Lemma app_empty_string (a : string) : (a ++ "")%string = a.
Proof. induction a; cbn; [reflexivity | now f_equal]. Qed.

Lemma take_exact (n : nat) (a b : string) :
  n = String.length a -> Str.take n (a ++ b) = a.
Proof. intros ->. apply take_app. Qed.

Lemma take_all (n : nat) (a : string) : n = String.length a -> Str.take n a = a.
Proof. intros ->. rewrite <- (app_empty_string a) at 2. apply take_app. Qed.

Lemma start_form (line pre g v : string) (ts : datetime) :
  parse_timestamp (Str.strip line) = Returned (Some ts) ->
  Str.strip line = pre ++ "Upgrading " ++ g ++ " to version" ++ v ->
  absent "Upgrading gateways without controller upgrade" (Str.strip line) ->
  lacks "U" pre = true ->
  g <> "" ->
  all_in is_non_space g = true ->
  all_in is_dot v = true ->
  start_line line ts g v.
Proof.
  intros Hts Hshape Habs Hpre Hne Hg Hv.
  split; [exact Hts|]. split; [exact Habs|].
  exists [(2, v); (1, g)]%nat. split; [|split; reflexivity].
  rewrite Hshape. unfold Re.search, upgrade_start_pattern. cbn [Re.seq].
  rewrite search_from_skip by exact Hpre.
  apply search_from_found.
  rewrite rmatch_cat, rmatch_lit_app.
  rewrite rmatch_cat, rmatch_group.
  destruct g as [|c g]; [contradiction|].
  cbn [all_in] in Hg. apply andb_prop in Hg as [Hc Hg].
  unfold Re.plus, Re.non_space. rewrite rmatch_cat.
  change (String c g ++ " to version" ++ v) with (String c (g ++ " to version" ++ v)).
  rewrite rmatch_class. fold (is_non_space c). rewrite Hc.
  rewrite star_class_spec.
  apply star_spec_greedy; [exact Hg | reflexivity |].
  rewrite rmatch_cat, rmatch_lit_app.
  rewrite rmatch_cat, rmatch_group.
  unfold Re.dot. rewrite star_class_spec.
  rewrite <- (app_empty_string v) at 1.
  apply star_spec_greedy; [exact Hv | reflexivity |].
  rewrite rmatch_cat, rmatch_eol_end, rmatch_eps.
  rewrite take_all by lia.
  change (String c (g ++ " to version" ++ v)) with (String c g ++ " to version" ++ v).
  rewrite take_exact by (cbn [String.length]; lia).
  reflexivity.
Qed.

Lemma prefix_app_false (t u b : string) :
  prefix t b = false -> prefix (t ++ u) b = false.
Proof.
  revert b. induction t as [|c t IH]; intros b H.
  - destruct b; discriminate.
  - destruct b as [|c' b]; [reflexivity|]. cbn [append prefix] in *.
    destruct (Ascii.ascii_dec c c'); [now apply IH | reflexivity].
Qed.

(** A line that lacks a text lacks every longer text that begins with it. *)
Lemma absent_longer (t u s : string) : absent t s -> absent (t ++ u) s.
Proof.
  intros H. unfold absent, Re.search. apply search_from_none. intros a b pos E.
  apply rmatch_lit_mismatch, prefix_app_false. exact (absent_suffix t s H a b E).
Qed.

(** A pattern that must read the text [t] after two first parts finds
    nothing in a line that lacks [t]. *)
Lemma search_needs_text2 (r0 r1 r2 : Re.regex) (t s : string) :
  absent t s ->
  Re.search (Re.Cat r0 (Re.Cat r1 (Re.Cat (Re.lit t) r2))) s = None.
Proof.
  intros Habs. unfold Re.search. apply search_from_none. intros a b pos E.
  rewrite rmatch_cat. apply rmatch_none. intros a1 b1 pos1 m1 E1.
  rewrite rmatch_cat. apply rmatch_none. intros a2 b2 pos2 m2 E2.
  rewrite rmatch_cat. apply rmatch_lit_mismatch.
  apply (absent_suffix t s Habs (a ++ a1 ++ a2) b2). subst.
  now rewrite !app_assoc_string.
Qed.

Lemma installing_form (line pre g mid : string) (ts : datetime) :
  parse_timestamp (Str.strip line) = Returned (Some ts) ->
  Str.strip line
  = pre ++ "Updating upgrade_info to gw " ++ g ++ ": {'status': 'installing'" ++ mid ++ "}" ->
  absent "Upgrading " (Str.strip line) ->
  lacks "U" pre = true ->
  g <> "" ->
  all_in (is_not ":") g = true ->
  all_in is_dot mid = true ->
  installing_line line ts g.
Proof.
  intros Hts Hshape Habs Hpre Hne Hg Hmid.
  split; [exact Hts|].
  split; [exact (absent_longer "Upgrading " "gateways without controller upgrade" _ Habs)|].
  split; [exact (search_needs_head _ _ _ Habs)|].
  exists [(1, g)]%nat. split; [|reflexivity].
  rewrite Hshape. unfold Re.search, upgrade_installing_pattern. cbn [Re.seq].
  rewrite search_from_skip by exact Hpre.
  apply search_from_found.
  rewrite rmatch_cat, rmatch_lit_app.
  rewrite rmatch_cat, rmatch_group.
  destruct g as [|c g]; [contradiction|].
  cbn [all_in] in Hg. apply andb_prop in Hg as [Hc Hg].
  unfold Re.plus, Re.not_char. rewrite rmatch_cat.
  match goal with
  | |- context [String c g ++ ?x] => change (String c g ++ x) with (String c (g ++ x))
  end.
  rewrite rmatch_class. fold (is_not ":" c). rewrite Hc.
  rewrite star_class_spec.
  apply star_spec_greedy; [exact Hg | reflexivity |].
  rewrite rmatch_cat, rmatch_lit_app.
  rewrite rmatch_cat. unfold Re.dot. rewrite star_class_spec.
  apply star_spec_last; [exact Hmid | |].
  { intros x y pos' m' E Hx. destruct x as [|cx x]; [contradiction|].
    cbn in E. injection E as _ E. destruct x; [|discriminate]. cbn in E. now subst y. }
  rewrite rmatch_cat, (rmatch_lit_app "}" ""), rmatch_eps.
  match goal with
  | |- context [String c (g ++ ?x)] => change (String c (g ++ x)) with (String c g ++ x)
  end.
  rewrite take_exact by (cbn [String.length]; lia).
  reflexivity.
Qed.

Lemma completion_form (line pre g mid v rest : string) (ts : datetime) :
  parse_timestamp (Str.strip line) = Returned (Some ts) ->
  Str.strip line
  = pre ++ "Updating upgrade_info to gw " ++ g ++ ": {'status': 'complete'" ++ mid
    ++ "'curr_ver': '" ++ v ++ "'" ++ rest ++ "}" ->
  absent "Upgrading " (Str.strip line) ->
  absent ": {'status': 'installing'" (Str.strip line) ->
  absent "'curr_ver': '" ("curr_ver': '" ++ v ++ "'" ++ rest ++ "}") ->
  lacks "U" pre = true ->
  g <> "" ->
  all_in (is_not ":") g = true ->
  all_in is_dot mid = true ->
  all_in (is_not "'") v = true ->
  all_in is_dot rest = true ->
  completion_line line ts g v.
Proof.
  intros Hts Hshape Habs Hinst Hlast Hpre Hne Hg Hmid Hv Hrest.
  split; [exact Hts|].
  split; [exact (absent_longer "Upgrading " "gateways without controller upgrade" _ Habs)|].
  split; [exact (search_needs_head _ _ _ Habs)|].
  split; [exact (search_needs_text2 _ _ _ _ _ Hinst)|].
  exists [(2, v); (1, g)]%nat. split; [|split; reflexivity].
  rewrite Hshape. unfold Re.search, upgrade_complete_pattern. cbn [Re.seq].
  rewrite search_from_skip by exact Hpre.
  apply search_from_found.
  rewrite rmatch_cat, rmatch_lit_app.
  rewrite rmatch_cat, rmatch_group.
  destruct g as [|c g]; [contradiction|].
  cbn [all_in] in Hg. apply andb_prop in Hg as [Hc Hg].
  unfold Re.plus, Re.not_char. rewrite rmatch_cat.
  match goal with
  | |- context [String c g ++ ?x] => change (String c g ++ x) with (String c (g ++ x))
  end.
  rewrite rmatch_class. fold (is_not ":" c). rewrite Hc.
  rewrite star_class_spec.
  apply star_spec_greedy; [exact Hg | reflexivity |].
  rewrite rmatch_cat, rmatch_lit_app.
  rewrite rmatch_cat. unfold Re.dot. rewrite star_class_spec.
  apply star_spec_last; [exact Hmid | |].
  { intros x y pos' m' E Hx. destruct x as [|cx x]; [contradiction|].
    cbn in E. injection E as _ E.
    rewrite rmatch_cat. apply rmatch_lit_mismatch.
    exact (absent_suffix _ _ Hlast x y E). }
  rewrite rmatch_cat, rmatch_lit_app.
  rewrite rmatch_cat, rmatch_group, star_class_spec.
  apply star_spec_greedy; [exact Hv | reflexivity |].
  rewrite rmatch_cat, (rmatch_lit_app "'").
  rewrite rmatch_cat, star_class_spec.
  apply star_spec_last; [exact Hrest | |].
  { intros x y pos' m' E Hx. destruct x as [|cx x]; [contradiction|].
    cbn in E. injection E as _ E. destruct x; [|discriminate]. cbn in E. now subst y. }
  rewrite rmatch_cat, (rmatch_lit_app "}" ""), rmatch_eps.
  rewrite take_exact by lia.
  match goal with
  | |- context [String c (g ++ ?x)] => change (String c (g ++ x)) with (String c g ++ x)
  end.
  rewrite take_exact by (cbn [String.length]; lia).
  reflexivity.
Qed.

(** X25: a timestamped line that contains the phrase "Upgrading gateways
    without controller upgrade" anywhere resets the parser, whatever else
    the line holds: all records are dropped and the overall start time
    becomes the line's timestamp. *)
Theorem reset_phrase_anywhere (self : LogParser) (line pre post : string) (ts : datetime) :
  parse_timestamp (Str.strip line) = Returned (Some ts) ->
  Str.strip line = pre ++ "Upgrading gateways without controller upgrade" ++ post ->
  parse_line self line = (Returned tt, mk_parser [] (Some ts)).
Proof.
  intros Hts Hshape. apply parse_line_reset. split; [exact Hts|].
  rewrite Hshape. apply search_lit_found.
Qed.

Lemma reset_phrase_anywhere_witness :
  parse_line (mk_parser [("gw-1", gw1_running)] None)
    "2025-07-23T00:10:00.000000+00:00 Upgrading gw-1 to version 8; Upgrading gateways without controller upgrade now"
  = (Returned tt, mk_parser [] (Some t_reset)).
Proof.
  apply (reset_phrase_anywhere _ _
           "2025-07-23T00:10:00.000000+00:00 Upgrading gw-1 to version 8; " " now").
  - vm_compute. reflexivity.
  - vm_compute. reflexivity.
Defined.

(** X26: a timestamped line, free of the reset phrase, whose first "U"
    begins "Upgrading <name> to version<text>" and which ends with that
    text, where the name is non-empty and free of white space and the
    text is free of newlines, is taken as the start of <name>: its record
    is set to a fresh open one with the line's timestamp and the stripped
    text as version note. *)
Theorem start_line_format (self : LogParser) (line pre g v : string) (ts : datetime) :
  parse_timestamp (Str.strip line) = Returned (Some ts) ->
  Str.strip line = pre ++ "Upgrading " ++ g ++ " to version" ++ v ->
  absent "Upgrading gateways without controller upgrade" (Str.strip line) ->
  lacks "U" pre = true ->
  g <> "" ->
  all_in is_non_space g = true ->
  all_in is_dot v = true ->
  parse_line self line
  = (Returned tt,
     mk_parser
       (Dict.set g (mk_event g ts None (Str.strip v) "in_progress") (upgrades self))
       (overall_start_time self)).
Proof.
  intros Hts Hshape Habs Hpre Hne Hg Hv.
  exact (parse_line_start self line ts g v
           (start_form line pre g v ts Hts Hshape Habs Hpre Hne Hg Hv)).
Qed.

Lemma start_line_format_witness :
  parse_line __init__ ex_start
  = (Returned tt,
     mk_parser
       (Dict.set "gw-1" (mk_event "gw-1" t_start None (Str.strip " 8.1.0-1000.1500")
                           "in_progress")
          (upgrades __init__))
       (overall_start_time __init__)).
Proof.
  apply (start_line_format __init__ ex_start "2025-07-23T00:00:05.100000+00:00 "
           "gw-1" " 8.1.0-1000.1500" t_start).
  - vm_compute. reflexivity.
  - vm_compute. reflexivity.
  - vm_compute. reflexivity.
  - reflexivity.
  - discriminate.
  - reflexivity.
  - reflexivity.
Defined.

(** X27: a timestamped line without "Upgrading ", whose first "U" begins
    "Updating upgrade_info to gw <name>: {'status': 'installing'<text>}"
    and which ends with that closing brace, where the name is non-empty
    and free of colons and the text is free of newlines, is taken as an
    installing report for <name>: a gateway without a record gets an open
    one from the line's timestamp, a known gateway keeps its record. *)
Theorem installing_line_format (self : LogParser) (line pre g mid : string)
    (ts : datetime) :
  parse_timestamp (Str.strip line) = Returned (Some ts) ->
  Str.strip line
  = pre ++ "Updating upgrade_info to gw " ++ g ++ ": {'status': 'installing'" ++ mid ++ "}" ->
  absent "Upgrading " (Str.strip line) ->
  lacks "U" pre = true ->
  g <> "" ->
  all_in (is_not ":") g = true ->
  all_in is_dot mid = true ->
  parse_line self line
  = (Returned tt,
     if Dict.mem g (upgrades self)
     then self
     else mk_parser
            (Dict.set g
               (mk_event g ts None "(detected from installing status)" "in_progress")
               (upgrades self))
            (overall_start_time self)).
Proof.
  intros Hts Hshape Habs Hpre Hne Hg Hmid.
  rewrite (parse_line_installing self line ts g
             (installing_form line pre g mid ts Hts Hshape Habs Hpre Hne Hg Hmid)).
  now destruct (Dict.mem g (upgrades self)).
Qed.

Lemma installing_line_format_witness :
  parse_line __init__ ex_installing
  = (Returned tt,
     if Dict.mem "gw-2" (upgrades __init__)
     then __init__
     else mk_parser
            (Dict.set "gw-2"
               (mk_event "gw-2" t_later None "(detected from installing status)"
                  "in_progress")
               (upgrades __init__))
            (overall_start_time __init__)).
Proof.
  apply (installing_line_format __init__ ex_installing
           "2025-07-23T00:00:15.100000+00:00 " "gw-2"
           ", 'process_status': {'type': 'Software Upgrade'}" t_later).
  - vm_compute. reflexivity.
  - vm_compute. reflexivity.
  - vm_compute. reflexivity.
  - reflexivity.
  - discriminate.
  - reflexivity.
  - reflexivity.
Defined.

(** X28: a timestamped line without "Upgrading " and without
    ": {'status': 'installing'", whose first "U" begins
    "Updating upgrade_info to gw <name>: {'status': 'complete'<a>'curr_ver': '<v>'<b>}"
    and which ends with that closing brace, where the name is non-empty
    and free of colons, <a> and <b> are free of newlines, <v> is free of
    quotes and the marker 'curr_ver': ' does not begin again further on,
    is taken as the completion of <name> with current version <v>: the
    value after the last such marker is the one read. *)
Theorem completion_line_format (self : LogParser) (line pre g mid v rest : string)
    (ts : datetime) :
  parse_timestamp (Str.strip line) = Returned (Some ts) ->
  Str.strip line
  = pre ++ "Updating upgrade_info to gw " ++ g ++ ": {'status': 'complete'" ++ mid
    ++ "'curr_ver': '" ++ v ++ "'" ++ rest ++ "}" ->
  absent "Upgrading " (Str.strip line) ->
  absent ": {'status': 'installing'" (Str.strip line) ->
  absent "'curr_ver': '" ("curr_ver': '" ++ v ++ "'" ++ rest ++ "}") ->
  lacks "U" pre = true ->
  g <> "" ->
  all_in (is_not ":") g = true ->
  all_in is_dot mid = true ->
  all_in (is_not "'") v = true ->
  all_in is_dot rest = true ->
  parse_line self line = (Returned tt, complete_upgrade self g v ts).
Proof.
  intros Hts Hshape Habs Hinst Hlast Hpre Hne Hg Hmid Hv Hrest.
  exact (parse_line_completion self line ts g v
           (completion_form line pre g mid v rest ts
              Hts Hshape Habs Hinst Hlast Hpre Hne Hg Hmid Hv Hrest)).
Qed.

Lemma completion_line_format_witness :
  parse_line (mk_parser [("gw-1", gw1_running)] None) ex_complete
  = (Returned tt,
     complete_upgrade (mk_parser [("gw-1", gw1_running)] None) "gw-1" "8.1.0-1000.1600"
       t_complete).
Proof.
  apply (completion_line_format _ ex_complete "2025-07-23T00:05:05.200000+00:00 "
           "gw-1" ", " "8.1.0-1000.1600" ", ..." t_complete).
  - vm_compute. reflexivity.
  - vm_compute. reflexivity.
  - vm_compute. reflexivity.
  - vm_compute. reflexivity.
  - vm_compute. reflexivity.
  - reflexivity.
  - discriminate.
  - reflexivity.
  - reflexivity.
  - reflexivity.
  - reflexivity.
Defined.

(** ** Reading a timestamp *)

Lemma digits_value_all (s : string) :
  forall acc z, Datetime.digits_value s acc = Some z -> all_in Str.isdigit s = true.
Proof.
  induction s as [|c s IH]; intros acc z H; [reflexivity|].
  cbn [Datetime.digits_value all_in] in *.
  destruct (Str.isdigit c); [|discriminate]. exact (IH _ _ H).
Qed.

Lemma int_digits (s : string) (z : Z) :
  Datetime.int s = Returned z -> all_in Str.isdigit s = true.
Proof.
  unfold Datetime.int. destruct s as [|c s]; [discriminate|].
  destruct (Datetime.digits_value (String c s) 0) eqn:E; [|discriminate].
  intros _. exact (digits_value_all _ _ _ E).
Qed.

Lemma parse_fraction_digits (f : string) (us : Z) :
  Datetime.parse_fraction f = Returned us ->
  f <> "" /\ all_in Str.isdigit f = true.
Proof.
  unfold Datetime.parse_fraction. destruct f as [|c f]; [discriminate|].
  cbn [Str.is_empty negb guard bind].
  destruct (Datetime.int (String c f)) eqn:E; [|discriminate].
  intros _. split; [discriminate | exact (int_digits _ _ E)].
Qed.

Lemma digit_is_not_plus (c : ascii) : Str.isdigit c = true -> Ascii.eqb "+" c = false.
Proof.
  intros H. destruct (Ascii.eqb_spec "+"%char c) as [<-|]; [discriminate | reflexivity].
Qed.

Lemma digits_lack_plus (s : string) : all_in Str.isdigit s = true -> lacks "+" s = true.
Proof.
  induction s as [|c s IH]; [reflexivity|]. cbn [all_in lacks].
  intros H. apply andb_prop in H as [Hc Hs].
  now rewrite (digit_is_not_plus c Hc), (IH Hs).
Qed.

Lemma lacks_app (c : ascii) (a b : string) :
  lacks c (a ++ b) = lacks c a && lacks c b.
Proof.
  induction a as [|x a IH]; [reflexivity|]. cbn [append lacks].
  now rewrite IH, andb_assoc.
Qed.

Lemma rmatch_rep {A : Type} (p : ascii -> bool) (n : nat) (s t : string) (pos : nat)
    (m : Re.groups) (k : nat -> string -> Re.groups -> option A) :
  String.length s = n ->
  all_in p s = true ->
  Re.rmatch (Re.rep n (Re.Class p)) pos (s ++ t) m k = k (pos + n)%nat t m.
Proof.
  revert s pos. induction n as [|n IH]; intros s pos Hlen Hs.
  - destruct s; [|discriminate]. cbn. now rewrite Nat.add_0_r.
  - destruct s as [|c s]; [discriminate|].
    cbn [all_in] in Hs. apply andb_prop in Hs as [Hc Hs].
    cbn [Re.rep append]. rewrite rmatch_cat, rmatch_class, Hc.
    rewrite IH; [now rewrite Nat.add_succ_r | now injection Hlen | exact Hs].
Qed.

Lemma timestamp_pattern_reads (Y Mo D H Mi S F OH OM rest : string) :
  String.length Y = 4%nat -> all_in Str.isdigit Y = true ->
  String.length Mo = 2%nat -> all_in Str.isdigit Mo = true ->
  String.length D = 2%nat -> all_in Str.isdigit D = true ->
  String.length H = 2%nat -> all_in Str.isdigit H = true ->
  String.length Mi = 2%nat -> all_in Str.isdigit Mi = true ->
  String.length S = 2%nat -> all_in Str.isdigit S = true ->
  F <> "" -> all_in Str.isdigit F = true ->
  String.length OH = 2%nat -> all_in Str.isdigit OH = true ->
  String.length OM = 2%nat -> all_in Str.isdigit OM = true ->
  Re.match_ timestamp_pattern (timestamp_text Y Mo D H Mi S F OH OM ++ rest)
  = Some [(1%nat, timestamp_text Y Mo D H Mi S F OH OM)].
Proof.
  intros LY DY LMo DMo LD DD LH DH LMi DMi LS DS NF DF LOH DOH LOM DOM.
  assert (Hlen : String.length (timestamp_text Y Mo D H Mi S F OH OM)
                 = (26 + String.length F)%nat).
  { unfold timestamp_text. rewrite !length_app_string, LY, LMo, LD, LH, LMi, LS, LOH, LOM.
    cbn [String.length]. lia. }
  rewrite <- (take_exact (26 + String.length F) (timestamp_text Y Mo D H Mi S F OH OM) rest)
    at 2 by (now rewrite Hlen).
  clear Hlen.
  unfold Re.match_, timestamp_pattern, timestamp_text.
  rewrite !app_assoc_string.
  rewrite rmatch_cat. cbn [Re.rmatch Nat.eqb].
  cbn [Re.seq]. unfold Re.digit, Re.plus.
  rewrite rmatch_cat, (rmatch_rep _ 4 Y) by assumption.
  rewrite rmatch_cat, (rmatch_lit_app "-").
  rewrite rmatch_cat, (rmatch_rep _ 2 Mo) by assumption.
  rewrite rmatch_cat, (rmatch_lit_app "-").
  rewrite rmatch_cat, (rmatch_rep _ 2 D) by assumption.
  rewrite rmatch_cat, (rmatch_lit_app "T").
  rewrite rmatch_cat, (rmatch_rep _ 2 H) by assumption.
  rewrite rmatch_cat, (rmatch_lit_app ":").
  rewrite rmatch_cat, (rmatch_rep _ 2 Mi) by assumption.
  rewrite rmatch_cat, (rmatch_lit_app ":").
  rewrite rmatch_cat, (rmatch_rep _ 2 S) by assumption.
  rewrite rmatch_cat, (rmatch_lit_app ".").
  destruct F as [|c F]; [contradiction|].
  cbn [all_in] in DF. apply andb_prop in DF as [Dc DF].
  rewrite rmatch_cat, rmatch_cat.
  match goal with
  | |- context [String c F ++ ?x] => change (String c F ++ x) with (String c (F ++ x))
  end.
  rewrite rmatch_class, Dc, star_class_spec.
  erewrite star_spec_greedy; [reflexivity | exact DF | reflexivity |].
  rewrite rmatch_cat, (rmatch_lit_app "+").
  rewrite rmatch_cat, (rmatch_rep _ 2 OH) by assumption.
  rewrite rmatch_cat, (rmatch_lit_app ":").
  rewrite rmatch_cat, (rmatch_rep _ 2 OM) by assumption.
  rewrite rmatch_eps. do 3 f_equal. f_equal. cbn [String.length]. lia.
Qed.

Lemma replace_from_lacks (c : ascii) (old new a b : string) :
  lacks c a = true ->
  Str.replace_from (String c old) new 0 (a ++ b)
  = a ++ Str.replace_from (String c old) new 0 b.
Proof.
  induction a as [|x a IH]; [reflexivity|]. cbn [lacks append]. intros H.
  apply andb_prop in H as [Hx Ha].
  cbn [Str.replace_from prefix].
  destruct (Ascii.ascii_dec c x) as [->|_].
  - now rewrite Ascii.eqb_refl in Hx.
  - now rewrite (IH Ha).
Qed.

Lemma index_lacks (c : ascii) (a b : string) :
  lacks c a = true ->
  index 0 (String c "") (a ++ String c b) = Some (String.length a).
Proof.
  induction a as [|x a IH]; cbn [lacks append String.length]; intros H.
  - cbn [index prefix]. destruct (Ascii.ascii_dec c c); [|contradiction].
    now destruct b.
  - apply andb_prop in H as [Hx Ha].
    cbn [index prefix]. destruct (Ascii.ascii_dec c x) as [->|_].
    + now rewrite Ascii.eqb_refl in Hx.
    + now rewrite (IH Ha).
Qed.

Ltac chars2 s H :=
  destruct s as [|? [|? [|? ?]]]; try discriminate H; clear H.

Ltac chars4 s H :=
  destruct s as [|? [|? [|? [|? [|? ?]]]]]; try discriminate H; clear H.

Lemma drop_past (a b : string) (c : ascii) :
  Str.drop (Datatypes.S (String.length a)) (a ++ String c b) = b.
Proof. induction a as [|x a IH]; [reflexivity | exact IH]. Qed.

Lemma fromisoformat_fields (Y Mo D H Mi S F TZ : string) (y mo d h mi s us : Z) :
  String.length Y = 4%nat -> Datetime.int Y = Returned y ->
  String.length Mo = 2%nat -> Datetime.int Mo = Returned mo ->
  String.length D = 2%nat -> Datetime.int D = Returned d ->
  String.length H = 2%nat -> Datetime.int H = Returned h ->
  String.length Mi = 2%nat -> Datetime.int Mi = Returned mi ->
  String.length S = 2%nat -> Datetime.int S = Returned s ->
  Datetime.parse_fraction F = Returned us ->
  fromisoformat (Y ++ "-" ++ Mo ++ "-" ++ D ++ "T" ++ H ++ ":" ++ Mi ++ ":" ++ S ++ "."
                 ++ F ++ "+" ++ TZ)
  = bind (Datetime.parse_offset TZ) (fun off => make (mk_datetime y mo d h mi s us off)).
Proof.
  intros LY IY LMo IMo LD ID LH IH LMi IMi LS IS IF.
  destruct (parse_fraction_digits F us IF) as [NF DF].
  pose proof (int_digits _ _ IH) as DH.
  pose proof (int_digits _ _ IMi) as DMi.
  pose proof (int_digits _ _ IS) as DS.
  set (A := H ++ ":" ++ Mi ++ ":" ++ S ++ "." ++ F).
  assert (HA : lacks "+" A = true).
  { unfold A. rewrite !lacks_app.
    rewrite (digits_lack_plus H DH), (digits_lack_plus Mi DMi), (digits_lack_plus S DS),
      (digits_lack_plus F DF). reflexivity. }
  assert (E : H ++ ":" ++ Mi ++ ":" ++ S ++ "." ++ F ++ "+" ++ TZ = A ++ String "+" TZ).
  { unfold A. now rewrite !app_assoc_string. }
  rewrite E. clear E.
  chars4 Y LY. chars2 Mo LMo. chars2 D LD.
  unfold fromisoformat. cbv zeta.
  cbn [append Str.slice substring Nat.sub].
  repeat match goal with
         | |- context [Str.drop 11 ?t] =>
             let t' := eval cbn [Str.drop] in (Str.drop 11 t) in
             change (Str.drop 11 t) with t'
         end.
  rewrite IY, IMo, ID. cbn [bind].
  repeat match goal with
         | |- context [expect ?c ?t ?i] => change (expect c t i) with (Returned tt)
         | |- context [guard ?b ?e] => change (guard b e) with (Returned tt)
         end.
  cbn [bind].
  rewrite (index_lacks "+" A TZ HA). cbv beta iota zeta.
  rewrite take_app, drop_past.
  clear HA. unfold A. clear A.
  chars2 H LH. chars2 Mi LMi. chars2 S LS.
  destruct F as [|f0 F]; [contradiction|].
  cbn [append Str.slice substring Nat.sub Str.drop].
  rewrite IH, IMi, IS. cbn [bind].
  repeat match goal with
         | |- context [expect ?c ?t ?i] => change (expect c t i) with (Returned tt)
         end.
  cbn [bind]. rewrite IF. reflexivity.
Qed.

Lemma parse_offset_colon (OH OM : string) (oh om : Z) :
  String.length OH = 2%nat -> Datetime.int OH = Returned oh ->
  String.length OM = 2%nat -> Datetime.int OM = Returned om ->
  Datetime.parse_offset (OH ++ ":" ++ OM) = Returned (oh * 60 + om).
Proof.
  intros LOH IOH LOM IOM. chars2 OH LOH. chars2 OM LOM.
  unfold Datetime.parse_offset.
  cbn [append String.length Str.slice substring Nat.sub].
  rewrite IOH, IOM. reflexivity.
Qed.

(** [replace] turns a zero offset into [+0000] and leaves the rest of a
    timestamp alone. *)
Lemma replace_offset (P OH OM : string) :
  lacks "+" P = true ->
  String.length OH = 2%nat -> all_in Str.isdigit OH = true ->
  String.length OM = 2%nat -> all_in Str.isdigit OM = true ->
  Str.replace "+00:00" "+0000" (P ++ "+" ++ OH ++ ":" ++ OM)
  = P ++ "+" ++ (if String.eqb (OH ++ ":" ++ OM) "00:00" then "0000" else OH ++ ":" ++ OM).
Proof.
  intros HP LOH DOH LOM DOM. unfold Str.replace.
  rewrite replace_from_lacks by exact HP. f_equal.
  destruct (String.eqb_spec (OH ++ ":" ++ OM) "00:00") as [E|NE].
  - rewrite E. reflexivity.
  - assert (HT : lacks "+" (OH ++ ":" ++ OM) = true).
    { rewrite !lacks_app, (digits_lack_plus OH DOH), (digits_lack_plus OM DOM).
      reflexivity. }
    cbn [append Str.replace_from].
    destruct (prefix "+00:00" (String "+" (OH ++ String ":" OM))) eqn:Epre.
    + exfalso. apply NE.
      apply prefix_correct in Epre. cbn [String.length] in Epre.
      chars2 OH LOH. chars2 OM LOM. cbn in Epre. injection Epre as -> -> -> ->.
      reflexivity.
    + f_equal.
      rewrite <- (app_empty_string (OH ++ String ":" OM)) at 1.
      rewrite replace_from_lacks by exact HT. cbn [Str.replace_from].
      apply app_empty_string.
Qed.

(** X29: a line that begins with a timestamp
    YYYY-MM-DDTHH:MM:SS.f+HH:MM (four and two digit fields, a fraction of
    one or more digits) is read as the datetime of those fields, the
    fraction cut or padded to microseconds and the offset counted in
    minutes, whatever follows the timestamp; when a field is outside the
    calendar or clock range the call raises ValueError instead. *)
Theorem timestamp_format (Y Mo D H Mi S F OH OM rest : string)
    (y mo d h mi s us oh om : Z) :
  String.length Y = 4%nat -> Datetime.int Y = Returned y ->
  String.length Mo = 2%nat -> Datetime.int Mo = Returned mo ->
  String.length D = 2%nat -> Datetime.int D = Returned d ->
  String.length H = 2%nat -> Datetime.int H = Returned h ->
  String.length Mi = 2%nat -> Datetime.int Mi = Returned mi ->
  String.length S = 2%nat -> Datetime.int S = Returned s ->
  Datetime.parse_fraction F = Returned us ->
  String.length OH = 2%nat -> Datetime.int OH = Returned oh ->
  String.length OM = 2%nat -> Datetime.int OM = Returned om ->
  parse_timestamp (timestamp_text Y Mo D H Mi S F OH OM ++ rest)
  = if valid (mk_datetime y mo d h mi s us (oh * 60 + om))
    then Returned (Some (mk_datetime y mo d h mi s us (oh * 60 + om)))
    else Raised ValueError.
Proof.
  intros LY IY LMo IMo LD ID LH IH LMi IMi LS IS IF LOH IOH LOM IOM.
  destruct (parse_fraction_digits F us IF) as [NF DF].
  pose proof (int_digits _ _ IY) as DY. pose proof (int_digits _ _ IMo) as DMo.
  pose proof (int_digits _ _ ID) as DD. pose proof (int_digits _ _ IH) as DH.
  pose proof (int_digits _ _ IMi) as DMi. pose proof (int_digits _ _ IS) as DS.
  pose proof (int_digits _ _ IOH) as DOH. pose proof (int_digits _ _ IOM) as DOM.
  set (dt := mk_datetime y mo d h mi s us (oh * 60 + om)).
  assert (E2 : fromisoformat (timestamp_text Y Mo D H Mi S F OH OM) = make dt).
  { unfold timestamp_text.
    rewrite (fromisoformat_fields Y Mo D H Mi S F (OH ++ ":" ++ OM) y mo d h mi s us)
      by assumption.
    now rewrite (parse_offset_colon OH OM oh om) by assumption. }
  assert (E1 : fromisoformat
                 (Str.replace "+00:00" "+0000" (timestamp_text Y Mo D H Mi S F OH OM))
               = make dt).
  { set (P := Y ++ "-" ++ Mo ++ "-" ++ D ++ "T" ++ H ++ ":" ++ Mi ++ ":" ++ S ++ "." ++ F).
    assert (EP : timestamp_text Y Mo D H Mi S F OH OM = P ++ "+" ++ OH ++ ":" ++ OM).
    { unfold timestamp_text, P. now rewrite !app_assoc_string. }
    assert (HP : lacks "+" P = true).
    { unfold P. rewrite !lacks_app.
      rewrite (digits_lack_plus Y DY), (digits_lack_plus Mo DMo), (digits_lack_plus D DD),
        (digits_lack_plus H DH), (digits_lack_plus Mi DMi), (digits_lack_plus S DS),
        (digits_lack_plus F DF). reflexivity. }
    rewrite EP, (replace_offset P OH OM HP LOH DOH LOM DOM).
    destruct (String.eqb_spec (OH ++ ":" ++ OM) "00:00") as [E|NE].
    - unfold P. rewrite !app_assoc_string.
      rewrite (fromisoformat_fields Y Mo D H Mi S F "0000" y mo d h mi s us)
        by assumption.
      chars2 OH LOH. chars2 OM LOM. cbn in E. injection E as -> -> -> ->.
      cbn in IOH, IOM. injection IOH as <-. injection IOM as <-. reflexivity.
    - rewrite <- EP. exact E2. }
  unfold parse_timestamp.
  rewrite timestamp_pattern_reads by assumption.
  cbn [Re.group Nat.eqb]. rewrite E1, E2. unfold make.
  now destruct (valid dt).
Qed.

Lemma timestamp_format_witness :
  parse_timestamp
    (timestamp_text "2025" "07" "23" "00" "05" "05" "25" "05" "30" ++ " and more")
  = Returned (Some (mk_datetime 2025 7 23 0 5 5 250000 330)).
Proof.
  apply (timestamp_format "2025" "07" "23" "00" "05" "05" "25" "05" "30" " and more"
           2025 7 23 0 5 5 250000 5 30);
    reflexivity.
Defined.
